(** * Gardener extension-object lifecycle: a shallow embedding

    The development follows the Go sources of the extension-object
    reconciliation protocol ([pkg/extensions/customresources.go]), of the
    BackupUpload / BackupDownload relay components and of the botanist
    functions that build, encrypt, upload and download the ShootState
    snapshot.

    Part I holds the embedding (data model, the Go library environment the
    code runs in, and the functions themselves); Part II holds the lemmas
    and the theorems about them. *)

From Stdlib Require Import ZArith List String Ascii Bool Lia DecimalString.
From Stdlib.Strings Require Import Byte.
From stdpp Require Import base option list gmap strings.

Local Open Scope Z_scope.

(* ===================================================================== *)
(** * Part I: the embedding *)
(* ===================================================================== *)

(** ** Go values shared by all packages *)

(** A Go [[]byte]. *)
Abbreviation bytes := (list byte).

(** Go functions of result type [(T, error)] return [inl err] or [inr v];
    functions of result type [error] return [option E] with [None] for
    [nil]. *)
Definition isErr {E A : Type} (r : E + A) : bool :=
  match r with inl _ => true | inr _ => false end.

(** ** crypto/aes, crypto/cipher and crypto/rand *)

Module GoCrypto.

(** [aes.BlockSize]. *)
Definition BlockSize : nat := 16.

(** [subtle.XORBytes] on one byte. *)
Definition xorBits (a b : bool * (bool * (bool * (bool * (bool * (bool * (bool * bool)))))))
    : bool * (bool * (bool * (bool * (bool * (bool * (bool * bool)))))) :=
    let '(a0, (a1, (a2, (a3, (a4, (a5, (a6, a7))))))) := a in
    let '(b0, (b1, (b2, (b3, (b4, (b5, (b6, b7))))))) := b in
    (xorb a0 b0, (xorb a1 b1, (xorb a2 b2, (xorb a3 b3,
      (xorb a4 b4, (xorb a5 b5, (xorb a6 b6, xorb a7 b7))))))).

Definition xorByte (a b : byte) : byte :=
    Byte.of_bits (xorBits (Byte.to_bits a) (Byte.to_bits b)).

(** [aes.KeySizeError] is the only error of [aes.NewCipher]. *)
Inductive cryptoError : Type :=
  | KeySizeError (n : nat)
  | ErrUnexpectedEOF
  | ErrCiphertextTooShort.

(** A [cipher.Block]: the expanded key. *)
Record Block : Type := { blockKey : bytes }.

(** [aes.NewCipher]: the key must be 16, 24 or 32 bytes long. *)
Definition NewCipher (key : bytes) : cryptoError + Block :=
    match length key with
    | 16%nat | 24%nat | 32%nat => inr {| blockKey := key |}
    | n => inl (KeySizeError n)
    end.

(** [io.ReadFull(rand.Reader, buf)]: the reader is the sequence of bytes it
      is going to deliver; reading [n] bytes fails when it delivers fewer. *)
Definition ReadFull (reader : bytes) (n : nat) : cryptoError + bytes :=
    if (length reader <? n)%nat then inl ErrUnexpectedEOF
    else inr (firstn n reader).

(** The state of a [cipher.cfb] stream. *)
Record cfb : Type := {
    b : Block;
    next : bytes;
    out : bytes;
    outUsed : nat;
    decrypting : bool
  }.

Section WithAES.
(** [Block.Encrypt] of the AES block cipher: key, then input block. *)
Variable aesEncryptBlock : bytes -> bytes -> bytes.

(** [cipher.newCFB]; both callers pass an IV of [BlockSize] bytes. *)
Definition newCFB (block : Block) (iv : bytes) (decrypt : bool) : cfb :=
      {| b := block;
         next := firstn BlockSize iv;
         out := repeat "000"%byte BlockSize;
         outUsed := BlockSize;
         decrypting := decrypt |}.

Definition NewCFBEncrypter (block : Block) (iv : bytes) : cfb := newCFB block iv false.
Definition NewCFBDecrypter (block : Block) (iv : bytes) : cfb := newCFB block iv true.

(** One byte of [cfb.XORKeyStream]: refill the key stream block when it
        is used up, xor, and feed the ciphertext byte back into [next]. *)
Definition xorKeyStreamByte (x : cfb) (s : byte) : byte * cfb :=
      let x1 :=
        if (outUsed x =? BlockSize)%nat
        then {| b := b x; next := next x;
                out := aesEncryptBlock (blockKey (b x)) (next x);
                outUsed := 0; decrypting := decrypting x |}
        else x in
      let d := xorByte s (nth (outUsed x1) (out x1) "000"%byte) in
      let c := if decrypting x1 then s else d in
      (d, {| b := b x1; next := <[outUsed x1 := c]> (next x1);
             out := out x1; outUsed := S (outUsed x1);
             decrypting := decrypting x1 |}).

(** [cfb.XORKeyStream(dst, src)], returning [dst] and the stream. *)
Fixpoint XORKeyStream (x : cfb) (src : bytes) : bytes * cfb :=
      match src with
      | [] => ([], x)
      | s :: rest =>
          let '(d, x') := xorKeyStreamByte x s in
          let '(ds, x'') := XORKeyStream x' rest in
          (d :: ds, x'')
      end.
End WithAES.

(** The decrypting stream that has seen the same ciphertext is in the
      same state as the encrypting one, up to the direction flag. *)
Definition mirror (x : cfb) : cfb :=
    {| b := b x; next := next x; out := out x; outUsed := outUsed x;
       decrypting := true |}.

End GoCrypto.

(** ** pkg/operation/botanist: encryption of the ShootState blob *)

Module BotanistCrypto.
Import GoCrypto.

(** [var cipherKey = []byte("asuperstrong32bitpasswordgohere!")] *)
Definition cipherKey : bytes :=
    list_byte_of_string "asuperstrong32bitpasswordgohere!".

Section WithAES.
Variable aesEncryptBlock : bytes -> bytes -> bytes.

(** [encrypt(key, data)]; [randReader] is what [rand.Reader] delivers. *)
Definition encrypt (key data : bytes) (randReader : bytes) : cryptoError + bytes :=
      match NewCipher key with
      | inl err => inl err
      | inr block =>
          match ReadFull randReader BlockSize with
          | inl err => inl err
          | inr iv =>
              let stream := NewCFBEncrypter block iv in
              inr (iv ++ fst (XORKeyStream aesEncryptBlock stream data))
          end
      end.

(** [decrypt(key, data)]. *)
Definition decrypt (key data : bytes) : cryptoError + bytes :=
      match NewCipher key with
      | inl err => inl err
      | inr block =>
          if (length data <? BlockSize)%nat then inl ErrCiphertextTooShort
          else
            let iv := firstn BlockSize data in
            let data := skipn BlockSize data in
            let stream := NewCFBDecrypter block iv in
            inr (fst (XORKeyStream aesEncryptBlock stream data))
      end.
End WithAES.

(** A toy block function used to run the definitions on examples. *)
Definition toyBlock (key block : bytes) : bytes :=
    map (fun p => xorByte (fst p) (snd p)) (combine (firstn 16 key) (rev block)).

End BotanistCrypto.

(** ** package time: instants, locations and the two layouts in use *)

Module GoTime.

(** A [*time.Location] with a fixed offset (seconds east of UTC). *)
Record Location : Type := { locName : string; locOffset : Z }.

(** [time.UTC] *)
Definition UTCLoc : Location := {| locName := "UTC"; locOffset := 0 |}.

(** A [time.Time]: the instant as seconds since the Unix epoch and
    nanoseconds within the second, the location it is read in, and the
    monotonic clock reading if it has one. *)
Record Time : Type := {
  unixSec : Z;
  nsec : Z;
  loc : Location;
  mono : option Z
}.

(** [t.UTC()]: the same instant read in UTC, without monotonic reading. *)
Definition UTC (t : Time) : Time :=
  {| unixSec := unixSec t; nsec := nsec t; loc := UTCLoc; mono := None |}.

(** The decimal digits of a non-negative number. *)
Definition decimal (n : Z) : string := NilEmpty.string_of_uint (N.to_uint (Z.to_N n)).

Fixpoint zeros (n : nat) : string :=
  match n with O => "" | S n' => String "0" (zeros n') end.

(** [appendInt(x, width)]: zero-padded to [width] digits. *)
Definition pad (width : nat) (n : Z) : string :=
  let s := decimal n in zeros (width - String.length s) +:+ s.

(** Year, month and day of the day that is [days] days after 1970-01-01. *)
Definition civilFromDays (days : Z) : Z * Z * Z :=
  let z := days + 719468 in
  let era := z / 146097 in
  let doe := z - era * 146097 in
  let yoe := (doe - doe / 1460 + doe / 36524 - doe / 146096) / 365 in
  let doy := doe - (365 * yoe + yoe / 4 - yoe / 100) in
  let mp := (5 * doy + 2) / 153 in
  let d := doy - (153 * mp + 2) / 5 + 1 in
  let m := if mp <? 10 then mp + 3 else mp - 9 in
  let y := yoe + era * 400 + (if m <=? 2 then 1 else 0) in
  (y, m, d).

Definition appendYear (y : Z) : string :=
  if y <? 0 then "-" +:+ pad 4 (- y) else pad 4 y.

Fixpoint trimZeros (l : list ascii) : list ascii :=
  match l with
  | [] => []
  | a :: l' => if Ascii.eqb a "0" then trimZeros l' else l
  end.

(** The layout element [.999999999]: the fraction without trailing zeros,
    and nothing for a whole second. *)
Definition fraction9 (ns : Z) : string :=
  if ns =? 0 then ""
  else "." +:+ string_of_list_ascii (rev (trimZeros (rev (list_ascii_of_string (pad 9 ns))))).

Definition localSec (t : Time) : Z := unixSec t + locOffset (loc t).

(** The layout [2006-01-02<sep>15:04:05.999999999] in the location of [t]. *)
Definition dateOf (t : Time) (sep : string) : string :=
  let '(y, m, d) := civilFromDays (localSec t / 86400) in
  let s := localSec t mod 86400 in
  appendYear y +:+ "-" +:+ pad 2 m +:+ "-" +:+ pad 2 d +:+ sep
    +:+ pad 2 (s / 3600) +:+ ":" +:+ pad 2 (s mod 3600 / 60) +:+ ":" +:+ pad 2 (s mod 60)
    +:+ fraction9 (nsec t).

(** The layout elements [-0700] and [-07:00]. *)
Definition zoneOffset (t : Time) (colon : string) : string :=
  let o := locOffset (loc t) in
  let a := Z.abs o in
  (if o <? 0 then "-" else "+") +:+ pad 2 (a / 3600) +:+ colon +:+ pad 2 (a mod 3600 / 60).

(** [t.Format(time.RFC3339Nano)], layout
    [2006-01-02T15:04:05.999999999Z07:00]. *)
Definition FormatRFC3339Nano (t : Time) : string :=
  dateOf t "T" +:+ (if locOffset (loc t) =? 0 then "Z" else zoneOffset t ":").

(** The suffix [t.String()] adds for a monotonic clock reading. *)
Definition monoSuffix (m : Z) : string :=
  " m=" +:+ (if m <? 0 then "-" else "+") +:+ decimal (Z.abs m / 1000000000)
  +:+ "." +:+ pad 9 (Z.abs m mod 1000000000).

(** [t.String()], layout [2006-01-02 15:04:05.999999999 -0700 MST]. *)
Definition String (t : Time) : string :=
  dateOf t " " +:+ " " +:+ zoneOffset t "" +:+ " " +:+ locName (loc t)
  +:+ match mono t with
      | Some m => monoSuffix m
      | None => ""
      end.

End GoTime.

(** ** Go [error] values *)

Module Errors.

(** [gardencorev1beta1.ErrorCode] *)
Definition ErrorCode : Type := string.

(** [metav1.StatusReason] of an API status error. *)
Inductive StatusReason : Type :=
| StatusReasonNotFound
| StatusReasonAlreadyExists
| StatusReasonConflict
| StatusReasonInternalError.

(** The dynamic types of [error] that occur: API status errors, plain
    errors ([errors.New], [fmt.Errorf]), [*helper.ErrorWithCodes], and the
    error of an expired retry with the last minor error it retains (the
    retry package is not part of the sources at hand; the spec has the
    timeout error retain "the last observed domain error"). *)
#[warnings="-register-all"]
Inductive error : Type :=
| StatusError (reason : StatusReason) (message : string)
| PlainError (message : string)
| ErrorWithCodes (message : string) (codes : list ErrorCode)
| RetryError (ctxError : string) (lastError : option error).

#[global] Instance StatusReason_eq_dec : EqDecision StatusReason.
Proof. solve_decision. Defined.

(** [err.Error()] *)
Fixpoint Error (err : error) : string :=
  match err with
  | StatusError _ message => message
  | PlainError message => message
  | ErrorWithCodes message _ => message
  | RetryError ctxError None => "retry failed with " +:+ ctxError
  | RetryError ctxError (Some last) =>
      "retry failed with " +:+ ctxError +:+ ", last error: " +:+ Error last
  end.

(** [apierrors.IsNotFound] *)
Definition IsNotFound (err : error) : bool :=
  match err with StatusError StatusReasonNotFound _ => true | _ => false end.

(** [client.IgnoreNotFound] *)
Definition IgnoreNotFound (err : option error) : option error :=
  match err with
  | Some e => if IsNotFound e then None else Some e
  | None => None
  end.

(** [errors.As(err, &errorWithCode)] for [*ErrorWithCodes]. *)
Definition AsErrorWithCodes (err : error) : bool :=
  match err with ErrorWithCodes _ _ => true | _ => false end.

(** Modelled from the spec: [helper.NewErrorWithCodes] is not part of the
    sources at hand; it builds the coded error ("carries a machine-readable
    code set") from a message and codes. *)
Definition NewErrorWithCodes (message : string) (codes : list ErrorCode) : error :=
  ErrorWithCodes message codes.

(** Modelled from the spec: [helper.ExtractErrorCodes] is not part of the
    sources at hand; it gives the codes a coded error carries, and none for
    any other error. *)
Definition ExtractErrorCodes (err : error) : list ErrorCode :=
  match err with ErrorWithCodes _ codes => codes | _ => [] end.

(** [err != nil] *)
Definition failed (err : option error) : bool :=
  match err with Some _ => true | None => false end.

(** [strings.Contains(s, sub)] *)
Fixpoint Contains (s sub : string) : bool :=
  String.prefix sub s
  || match s with
     | EmptyString => false
     | String _ s' => Contains s' sub
     end.

End Errors.

(** ** API types: extension objects and the ShootState *)

Module API.
Import GoTime Errors.

(** Reserved annotation keys, [v1beta1constants]. *)
Definition GardenerOperation : string := "gardener.cloud/operation".
Definition GardenerTimestamp : string := "gardener.cloud/timestamp".
Definition ConfirmationDeletion : string := "confirmation.gardener.cloud/deletion".
Definition GardenerOperationReconcile : string := "reconcile".
Definition GardenerOperationMigrate : string := "migrate".
Definition GardenerOperationRestore : string := "restore".
Definition GardenerOperationWaitForState : string := "wait-for-state".

(** [gardencorev1beta1.LastOperationType] and [LastOperationState] values. *)
Definition LastOperationTypeReconcile : string := "Reconcile".
Definition LastOperationTypeMigrate : string := "Migrate".
Definition LastOperationTypeRestore : string := "Restore".
Definition LastOperationStateProcessing : string := "Processing".
Definition LastOperationStateSucceeded : string := "Succeeded".
Definition LastOperationStateError : string := "Error".
Definition LastOperationStateFailed : string := "Failed".

(** Resource kinds, [extensionsv1alpha1.*Resource]. *)
Definition BackupDownloadResource : string := "BackupDownload".
Definition BackupUploadResource : string := "BackupUpload".
Definition WorkerResource : string := "Worker".

Record LastOperation : Type := {
  loType : string;
  loState : string;
  loDescription : string
}.

Record LastError : Type := {
  leDescription : string;
  leCodes : list ErrorCode
}.

(** [autoscalingv1.CrossVersionObjectReference] *)
Record CrossVersionObjectReference : Type := {
  refKind : string;
  refName : string;
  refAPIVersion : string
}.

(** [gardencorev1beta1.NamedResourceReference] *)
Record NamedResourceReference : Type := {
  nrName : string;
  ResourceRef : CrossVersionObjectReference
}.

(** [runtime.RawExtension], by its raw bytes. *)
Abbreviation RawExtension := bytes.

(** The spec of an extension object: the [DefaultSpec] type, the purpose of
    the kinds that have one, and the fields of the backup relay kinds
    ([Data] exists in [BackupUploadSpec] only). *)
Record Spec : Type := {
  specType : string;
  specPurpose : option string;
  specEntryName : string;
  specFilePath : string;
  specData : bytes
}.

(** The status of an extension object: [DefaultStatus], and [Data] of
    [BackupDownloadStatus]. *)
Record Status : Type := {
  LastOperation_ : option LastOperation;
  LastError_ : option LastError;
  ObservedGeneration : Z;
  State : option RawExtension;
  Resources : list NamedResourceReference;
  statusData : bytes
}.

(** An [extensionsv1alpha1.Object]. [GoType] is the Go type of the value
    (the resource it is read from and written to); [Kind] is
    [TypeMeta.Kind] as the server filled it in. *)
Record Object : Type := {
  GoType : string;
  Kind : string;
  Namespace : string;
  Name : string;
  Annotations : gmap string string;
  Finalizers : list string;
  DeletionTimestamp : option Time;
  Generation : Z;
  ObjSpec : Spec;
  ObjStatus : Status
}.

#[global] Instance Location_eq_dec : EqDecision Location.
Proof. solve_decision. Defined.
#[global] Instance Time_eq_dec : EqDecision Time.
Proof. solve_decision. Defined.
#[global] Instance LastOperation_eq_dec : EqDecision LastOperation.
Proof. solve_decision. Defined.
#[global] Instance LastError_eq_dec : EqDecision LastError.
Proof. solve_decision. Defined.
#[global] Instance CrossVersionObjectReference_eq_dec : EqDecision CrossVersionObjectReference.
Proof. solve_decision. Defined.
#[global] Instance NamedResourceReference_eq_dec : EqDecision NamedResourceReference.
Proof. solve_decision. Defined.
#[global] Instance byte_eq_dec' : EqDecision byte := Byte.byte_eq_dec.
#[global] Instance Spec_eq_dec : EqDecision Spec.
Proof. solve_decision. Defined.
#[global] Instance Status_eq_dec : EqDecision Status.
Proof. solve_decision. Defined.

Definition emptySpec : Spec :=
  {| specType := ""; specPurpose := None; specEntryName := "";
     specFilePath := ""; specData := [] |}.

Definition emptyStatus : Status :=
  {| LastOperation_ := None; LastError_ := None; ObservedGeneration := 0;
     State := None; Resources := []; statusData := [] |}.

(** The zero value of the Go type [goType]. *)
Definition zeroObject (goType : string) : Object :=
  {| GoType := goType; Kind := ""; Namespace := ""; Name := "";
     Annotations := ∅; Finalizers := []; DeletionTimestamp := None;
     Generation := 0; ObjSpec := emptySpec; ObjStatus := emptyStatus |}.

(** [&T{ObjectMeta: metav1.ObjectMeta{Name: name, Namespace: namespace}}] *)
Definition namedObject (goType namespace name : string) : Object :=
  {| GoType := goType; Kind := ""; Namespace := namespace; Name := name;
     Annotations := ∅; Finalizers := []; DeletionTimestamp := None;
     Generation := 0; ObjSpec := emptySpec; ObjStatus := emptyStatus |}.

Definition withAnnotations (o : Object) (a : gmap string string) : Object :=
  {| GoType := GoType o; Kind := Kind o; Namespace := Namespace o; Name := Name o;
     Annotations := a; Finalizers := Finalizers o;
     DeletionTimestamp := DeletionTimestamp o; Generation := Generation o;
     ObjSpec := ObjSpec o; ObjStatus := ObjStatus o |}.

Definition withSpec (o : Object) (s : Spec) : Object :=
  {| GoType := GoType o; Kind := Kind o; Namespace := Namespace o; Name := Name o;
     Annotations := Annotations o; Finalizers := Finalizers o;
     DeletionTimestamp := DeletionTimestamp o; Generation := Generation o;
     ObjSpec := s; ObjStatus := ObjStatus o |}.

Definition withStatus (o : Object) (s : Status) : Object :=
  {| GoType := GoType o; Kind := Kind o; Namespace := Namespace o; Name := Name o;
     Annotations := Annotations o; Finalizers := Finalizers o;
     DeletionTimestamp := DeletionTimestamp o; Generation := Generation o;
     ObjSpec := ObjSpec o; ObjStatus := s |}.

Definition withDeletionTimestamp (o : Object) (t : option Time) : Object :=
  {| GoType := GoType o; Kind := Kind o; Namespace := Namespace o; Name := Name o;
     Annotations := Annotations o; Finalizers := Finalizers o;
     DeletionTimestamp := t; Generation := Generation o;
     ObjSpec := ObjSpec o; ObjStatus := ObjStatus o |}.

(** [metav1.SetMetaDataAnnotation] / [kutil.SetMetaDataAnnotation] *)
Definition SetMetaDataAnnotation (o : Object) (key value : string) : Object :=
  withAnnotations o (<[key := value]> (Annotations o)).

(** [status.SetState] and [status.SetResources] *)
Definition SetState (s : Status) (state : option RawExtension) : Status :=
  {| LastOperation_ := LastOperation_ s; LastError_ := LastError_ s;
     ObservedGeneration := ObservedGeneration s; State := state;
     Resources := Resources s; statusData := statusData s |}.

Definition SetResources (s : Status) (rs : list NamedResourceReference) : Status :=
  {| LastOperation_ := LastOperation_ s; LastError_ := LastError_ s;
     ObservedGeneration := ObservedGeneration s; State := State s;
     Resources := rs; statusData := statusData s |}.

(** [gardencorev1beta1.GardenerResourceData] *)
Record GardenerResourceData : Type := {
  grdName : string;
  grdLabels : gmap string string;
  grdType : string;
  grdData : RawExtension
}.

(** [gardencorev1beta1.ExtensionResourceState] *)
Record ExtensionResourceState : Type := {
  ersKind : string;
  ersName : option string;
  ersPurpose : option string;
  ersState : option RawExtension;
  ersResources : list NamedResourceReference
}.

(** [gardencorev1beta1.ResourceData] *)
Record ResourceData : Type := {
  rdRef : CrossVersionObjectReference;
  rdData : RawExtension
}.

(** [gardencorev1beta1.ShootStateSpec]; a nil slice is the empty list. *)
Record ShootStateSpec : Type := {
  Gardener : list GardenerResourceData;
  Extensions : list ExtensionResourceState;
  ShootResources : list ResourceData
}.

(** A [corev1.Secret], as far as the snapshot reads it. *)
Record Secret : Type := {
  secretName : string;
  secretLabels : gmap string string;
  secretData : gmap string bytes
}.

End API.

(** ** The API client and the world it talks to *)

Module Client.
Import GoTime Errors API.

(** An opaque [*unstructured.Unstructured] content. *)
Abbreviation Unstructured := bytes.

(** A [client.Client] over a world [W]: every call takes the world and
    returns its answer with the world after the call. The world holds the
    objects, the other writers (the extension controllers) and the clock,
    so an answer may differ from call to call. [Patch obj base] sends the
    merge patch from [base] to [obj]; [Sleep d] lets [d] nanoseconds pass. *)
Record Client (W : Type) : Type := {
  Get : string -> string -> string -> W -> (error + Object) * W;
  Create : Object -> W -> option error * W;
  Patch : Object -> Object -> W -> option error * W;
  StatusPatch : Object -> Object -> W -> option error * W;
  Delete : Object -> W -> option error * W;
  List : string -> string -> W -> (error + list Object) * W;
  ListSecrets : string -> W -> (error + list Secret) * W;
  GetObjectByRef : CrossVersionObjectReference -> string -> W -> (error + Unstructured) * W;
  CreateOrUpdateObjectByRef :
    CrossVersionObjectReference -> string -> Unstructured -> W -> option error * W;
  Now : W -> Time;
  Sleep : Z -> W -> W
}.

Arguments Get {W} _ _ _ _ _.
Arguments Create {W} _ _ _.
Arguments Patch {W} _ _ _ _.
Arguments StatusPatch {W} _ _ _ _.
Arguments Delete {W} _ _ _.
Arguments List {W} _ _ _ _.
Arguments ListSecrets {W} _ _ _.
Arguments GetObjectByRef {W} _ _ _ _.
Arguments CreateOrUpdateObjectByRef {W} _ _ _ _ _.
Arguments Now {W} _ _.
Arguments Sleep {W} _ _ _.

End Client.

(** ** pkg/utils/retry *)

Module Retry.
Import Errors Client.

(** The [(done bool, err error)] a retried function returns. *)
Definition Attempt : Type := bool * option error.

(** Modelled from the spec: [retry.Ok], [retry.MinorError] and
    [retry.SevereError] are not part of the sources at hand; success ends the
    wait, a minor error is "always retried until timeout", a severe error
    "aborts the wait". *)
Definition Ok : Attempt := (true, None).

(** Modelled from the spec: see [Ok]. *)
Definition MinorError (err : error) : Attempt := (false, Some err).

(** Modelled from the spec: see [Ok]. *)
Definition SevereError (err : error) : Attempt := (true, Some err).

(** Modelled from the spec: [retry.MinorOrSevereError] is not part of the
    sources at hand; "once the elapsed retry count exceeds
    severeThreshold / interval, treat as fatal (SevereError) rather than
    retryable". *)
Definition MinorOrSevereError (retryCountUntilSevere threshold : Z) (err : error) : Attempt :=
  if threshold <? retryCountUntilSevere then SevereError err else MinorError err.

(** What a wait came to: the error, the number of attempts made, the time
    passed since the call, and the state the retried function left. *)
Record Outcome (S : Type) : Type := {
  result : option error;
  polls : nat;
  elapsed : Z;
  st : S
}.
Arguments result {S} _.
Arguments polls {S} _.
Arguments elapsed {S} _.
Arguments st {S} _.

(** The error of the expired deadline. *)
Definition DeadlineExceeded : string := "context deadline exceeded".

Section WithClient.
Context {W : Type} (c : Client W).

(** Modelled from the spec: the loop of [retry.UntilTimeout], which is not
    part of the sources at hand: attempt number [k] (from 0) is made
    [k * interval] after the call; [more] attempts are left before the
    deadline; [lastMinor] is the minor error retained so far. *)
Fixpoint untilLoop {S : Type} (interval timeout : Z)
    (f : S -> W -> Attempt * S * W)
    (more k : nat) (lastMinor : option error) (s : S) (w : W) : Outcome S * W :=
  let '(a, s', w') := f s w in
  match a with
  | (true, err) =>
      ({| result := err; polls := Datatypes.S k; elapsed := Z.of_nat k * interval; st := s' |}, w')
  | (false, err) =>
      let lastMinor' := match err with Some _ => err | None => lastMinor end in
      match more with
      | O =>
          ({| result := Some (RetryError DeadlineExceeded lastMinor');
              polls := Datatypes.S k;
              elapsed := Z.max timeout (Z.of_nat k * interval);
              st := s' |},
           Sleep c (timeout - Z.of_nat k * interval) w')
      | Datatypes.S more' =>
          untilLoop interval timeout f more' (Datatypes.S k) lastMinor' s' (Sleep c interval w')
      end
  end.

(** Modelled from the spec: [retry.UntilTimeout] is not part of the sources
    at hand. It calls [f] "repeatedly, on a fixed interval tick", the first
    time at once; a minor error is "always retried until timeout", a severe
    one "aborts the wait"; no attempt is started at or after the deadline
    ("no poll tick should be allowed to outlive the overall timeout"), and
    the error of the expired deadline "retains the last observed" minor
    error. [interval] is positive. *)
Definition UntilTimeout {S : Type} (interval timeout : Z)
    (f : S -> W -> Attempt * S * W) (s : S) (w : W) : Outcome S * W :=
  untilLoop interval timeout f (Z.to_nat ((timeout - 1) / interval)) 0 None s w.

(** The state and the world each attempt of the loop starts from, in
    order: the run of the loop as the sequence of its attempts. *)
Fixpoint untilStarts {S : Type} (interval : Z) (f : S -> W -> Attempt * S * W)
    (more : nat) (s : S) (w : W) : list (S * W) :=
  (s, w) ::
  match f s w, more with
  | ((false, _), s', w'), Datatypes.S more' => untilStarts interval f more' s' (Sleep c interval w')
  | _, _ => []
  end.

(** The attempts of [UntilTimeout]. *)
Definition UntilTimeoutStarts {S : Type} (interval timeout : Z)
    (f : S -> W -> Attempt * S * W) (s : S) (w : W) : list (S * W) :=
  untilStarts interval f (Z.to_nat ((timeout - 1) / interval)) s w.

End WithClient.
End Retry.

(** ** pkg/utils/kubernetes/health *)

Module Health.
Import Errors API.

(** [health.Func] *)
Definition Func : Type := Object -> option error.

(** Modelled from the spec: [health.ObjectHasAnnotationWithValue] is not
    part of the sources at hand; "if expectedTimestamp is set and the
    object's timestamp annotation differs, treat as not-yet-ready". *)
Definition ObjectHasAnnotationWithValue (key value : string) : Func :=
  fun o =>
    match Annotations o !! key with
    | Some actual =>
        if String.eqb actual value then None
        else Some (PlainError ("object's " +:+ key +:+ " annotation is not " +:+ value +:+ " but " +:+ actual))
    | None =>
        Some (PlainError ("object's " +:+ key +:+ " annotation is not " +:+ value +:+ " but missing"))
    end.

(** Modelled from the spec: [health.CheckExtensionObject] is not part of
    the sources at hand; an object is ready when its
    "LastOperation.State == Succeeded". The error for an object that is not
    ready reports [Status.LastError] with its codes when there is one, as the
    tests of the waits expect ("error during reconciliation: Some error"). *)
Definition CheckExtensionObject : Func :=
  fun o =>
    let succeeded :=
      match LastOperation_ (ObjStatus o) with
      | Some lastOperation => String.eqb (loState lastOperation) LastOperationStateSucceeded
      | None => false
      end in
    if succeeded then None
    else
      match LastError_ (ObjStatus o), LastOperation_ (ObjStatus o) with
      | Some lastError, _ =>
          Some (NewErrorWithCodes
                  ("extension encountered error during reconciliation: "
                   +:+ leDescription lastError) (leCodes lastError))
      | None, None => Some (PlainError "extension did not record a last operation yet")
      | None, Some lastOperation =>
          Some (PlainError ("extension state is not succeeded but " +:+ loState lastOperation))
      end.

(** Modelled from the spec: [health.And] is not part of the sources at
    hand; the conjunction of health functions, failing with the error of the
    first one that fails. *)
Fixpoint And (fns : list Func) : Func :=
  fun o =>
    match fns with
    | [] => None
    | fn :: rest =>
        match fn o with
        | Some err => Some err
        | None => And rest o
        end
    end.

End Health.

(** ** pkg/extensions/customresources.go *)

Module Extensions.
Import GoTime Errors API Client Retry Health.

(** [extensionKey(kind, namespace, name)] *)
Definition extensionKey (kind namespace name : string) : string :=
  kind +:+ " " +:+ namespace +:+ "/" +:+ name.

(** [formatErrorMessage(message, description)] *)
Definition formatErrorMessage (message description : string) : string :=
  message +:+ ": " +:+ description.

(** The variables a readiness wait closes over: [lastObservedError],
    [retryCountUntilSevere], and [obj], the caller's object that every
    [Get] decodes into. *)
Record readyState : Type := {
  lastObservedError : option error;
  retryCountUntilSevere : Z;
  readyObj : Object
}.

(** The variables a deletion wait closes over. *)
Record deletedState : Type := {
  deletedLastObservedError : option error;
  deletedObj : Object
}.

(** What a wait returns: the error, the caller's object as the last [Get]
    left it, and the attempts and time the wait took. *)
Record WaitResult : Type := {
  waitErr : option error;
  waitObj : Object;
  waitPolls : nat;
  waitElapsed : Z
}.

Section WithClient.
Context {W : Type} (c : Client W).

(** [createResetObjectFunc]: the empty object of the Go type of [obj], made
    once; the function it returns copies this empty object into the caller's
    object. (It fails only for a Go type the scheme does not know; every
    [Object] is of a registered extension type.) *)
Definition createResetObjectFunc (obj : Object) : Object := zeroObject (GoType obj).

(** The function retried by [WaitUntilObjectReadyWithHealthFunction]. *)
Definition readyAttempt (healthFunc : Func) (emptyObj : Object) (name namespace : string)
    (interval severeThreshold : Z) (postReadyFunc : option (W -> option error * W))
    (s : readyState) (w : W) : Attempt * readyState * W :=
  let count := retryCountUntilSevere s + 1 in
  let obj := emptyObj in
  match Get c (GoType obj) namespace name w with
  | (inl err, w1) =>
      let s1 := {| lastObservedError := lastObservedError s;
                   retryCountUntilSevere := count; readyObj := obj |} in
      if IsNotFound err then (MinorError err, s1, w1) else (SevereError err, s1, w1)
  | (inr obj, w1) =>
      match healthFunc obj with
      | Some err =>
          let s1 := {| lastObservedError := Some err;
                       retryCountUntilSevere := count; readyObj := obj |} in
          if AsErrorWithCodes err
          then (MinorOrSevereError count (Z.quot severeThreshold interval) err, s1, w1)
          else (MinorError err, s1, w1)
      | None =>
          let s1 := {| lastObservedError := lastObservedError s;
                       retryCountUntilSevere := count; readyObj := obj |} in
          match postReadyFunc with
          | Some post =>
              match post w1 with
              | (Some err, w2) => (SevereError err, s1, w2)
              | (None, w2) => (Ok, s1, w2)
              end
          | None => (Ok, s1, w1)
          end
      end
  end.

(** [WaitUntilObjectReadyWithHealthFunction] *)
Definition WaitUntilObjectReadyWithHealthFunction (healthFunc : Func) (obj : Object)
    (kind : string) (interval severeThreshold timeout : Z)
    (postReadyFunc : option (W -> option error * W)) (w : W) : WaitResult * W :=
  let name := Name obj in
  let namespace := Namespace obj in
  let '(o, w') :=
    UntilTimeout c interval timeout
      (readyAttempt healthFunc (createResetObjectFunc obj) name namespace
         interval severeThreshold postReadyFunc)
      {| lastObservedError := None; retryCountUntilSevere := 0; readyObj := obj |} w in
  let ret err :=
    {| waitErr := err; waitObj := readyObj (st o);
       waitPolls := polls o; waitElapsed := elapsed o |} in
  match result o with
  | Some err =>
      let message :=
        "Error while waiting for " +:+ extensionKey kind namespace name +:+ " to become ready" in
      match lastObservedError (st o) with
      | Some last =>
          (ret (Some (NewErrorWithCodes (formatErrorMessage message (Error last))
                                        (ExtractErrorCodes last))), w')
      | None => (ret (Some (PlainError (formatErrorMessage message (Error err)))), w')
      end
  | None => (ret None, w')
  end.

(** [WaitUntilExtensionObjectReady] *)
Definition WaitUntilExtensionObjectReady (obj : Object) (kind : string)
    (interval severeThreshold timeout : Z)
    (postReadyFunc : option (W -> option error * W)) (w : W) : WaitResult * W :=
  let healthFuncs :=
    match Annotations obj !! GardenerTimestamp with
    | Some expectedTimestamp => [ObjectHasAnnotationWithValue GardenerTimestamp expectedTimestamp]
    | None => []
    end in
  let healthFuncs := healthFuncs ++ [CheckExtensionObject] in
  WaitUntilObjectReadyWithHealthFunction (And healthFuncs) obj kind
    interval severeThreshold timeout postReadyFunc w.

(** Modelled from the spec: [gutil.ConfirmDeletion] is not part of the
    sources at hand; it "patches the object adding a deletion-confirmation
    marker annotation plus a fresh timestamp". The timestamp has the layout
    the tests of [DeleteExtensionObject] expect ([now.UTC().String()]).
    [confirmed] is the object it sends. *)
Definition confirmed (obj : Object) (w : W) : Object :=
  let obj := SetMetaDataAnnotation obj ConfirmationDeletion "true" in
  SetMetaDataAnnotation obj GardenerTimestamp (GoTime.String (UTC (Now c w))).

(** Modelled from the spec: see [confirmed]. *)
Definition ConfirmDeletion (obj : Object) (w : W) : (Object * option error) * W :=
  let base := obj in
  let obj := confirmed obj w in
  let '(err, w') := Patch c obj base w in
  ((obj, err), w').

(** [DeleteExtensionObject] *)
Definition DeleteExtensionObject (obj : Object) (w : W) : option error * W :=
  match ConfirmDeletion obj w with
  | ((_, Some err), w1) => if IsNotFound err then (None, w1) else (Some err, w1)
  | ((obj, None), w1) =>
      let '(err, w2) := Delete c obj w1 in
      (IgnoreNotFound err, w2)
  end.

(** The function retried by [WaitUntilExtensionObjectDeleted]. The message
    of the minor error holds no formatting verb. *)
Definition deletedAttempt (emptyObj : Object) (kind name namespace : string)
    (s : deletedState) (w : W) : Attempt * deletedState * W :=
  let obj := emptyObj in
  match Get c (GoType obj) namespace name w with
  | (inl err, w1) =>
      let s1 := {| deletedLastObservedError := deletedLastObservedError s; deletedObj := obj |} in
      if IsNotFound err then (Ok, s1, w1) else (SevereError err, s1, w1)
  | (inr obj, w1) =>
      let last :=
        match LastError_ (ObjStatus obj) with
        | Some lastErr => Some (NewErrorWithCodes (leDescription lastErr) (leCodes lastErr))
        | None => deletedLastObservedError s
        end in
      let message := extensionKey kind namespace name +:+ " is still present" in
      let message :=
        match last with
        | Some e => message +:+ ", last observed error: " +:+ Error e
        | None => message
        end in
      (MinorError (PlainError message),
       {| deletedLastObservedError := last; deletedObj := obj |}, w1)
  end.

(** [WaitUntilExtensionObjectDeleted] *)
Definition WaitUntilExtensionObjectDeleted (obj : Object) (kind : string)
    (interval timeout : Z) (w : W) : WaitResult * W :=
  let name := Name obj in
  let namespace := Namespace obj in
  let '(o, w') :=
    UntilTimeout c interval timeout
      (deletedAttempt (createResetObjectFunc obj) kind name namespace)
      {| deletedLastObservedError := None; deletedObj := obj |} w in
  let ret err :=
    {| waitErr := err; waitObj := deletedObj (st o);
       waitPolls := polls o; waitElapsed := elapsed o |} in
  match result o with
  | Some err =>
      let message := "Failed to delete " +:+ extensionKey kind namespace name in
      match deletedLastObservedError (st o) with
      | Some last =>
          (ret (Some (NewErrorWithCodes (formatErrorMessage message (Error last))
                                        (ExtractErrorCodes last))), w')
      | None => (ret (Some (PlainError (formatErrorMessage message (Error err)))), w')
      end
  | None => (ret None, w')
  end.

(** What the attempts of a readiness wait observe: the answers of [Get], and
    the health errors of the objects found, in order. *)
Definition readyStarts (healthFunc : Func) (obj : Object)
    (interval severeThreshold timeout : Z)
    (postReadyFunc : option (W -> option error * W)) (w : W) : list (readyState * W) :=
  UntilTimeoutStarts c interval timeout
    (readyAttempt healthFunc (createResetObjectFunc obj) (Name obj) (Namespace obj)
       interval severeThreshold postReadyFunc)
    {| lastObservedError := None; retryCountUntilSevere := 0; readyObj := obj |} w.

Definition observedAnswers {S : Type} (obj : Object) (starts : list (S * W)) : list (error + Object) :=
  (fun sw => fst (Get c (GoType obj) (Namespace obj) (Name obj) (snd sw))) <$> starts.

Definition healthError (healthFunc : Func) (answer : error + Object) : option error :=
  match answer with inr o => healthFunc o | inl _ => None end.

(** What the attempts of a deletion wait observe, and the errors the
    objects found report in [Status.LastError]. *)
Definition deletedStarts (obj : Object) (kind : string) (interval timeout : Z) (w : W)
    : list (deletedState * W) :=
  UntilTimeoutStarts c interval timeout
    (deletedAttempt (createResetObjectFunc obj) kind (Name obj) (Namespace obj))
    {| deletedLastObservedError := None; deletedObj := obj |} w.

Definition reportedError (answer : error + Object) : option error :=
  match answer with
  | inr o =>
      match LastError_ (ObjStatus o) with
      | Some lastErr => Some (NewErrorWithCodes (leDescription lastErr) (leCodes lastErr))
      | None => None
      end
  | inl _ => None
  end.

(** [AnnotateObjectWithOperation]; [TimeNow] reads the clock of the world. *)
Definition AnnotateObjectWithOperation (obj : Object) (operation : string) (w : W)
    : (Object * option error) * W :=
  let base := obj in
  let obj := SetMetaDataAnnotation obj GardenerOperation operation in
  let obj := SetMetaDataAnnotation obj GardenerTimestamp (GoTime.String (UTC (Now c w))) in
  let '(err, w') := Patch c obj base w in
  ((obj, err), w').

(** [MigrateExtensionObject] *)
Definition MigrateExtensionObject (obj : Object) (w : W) : (Object * option error) * W :=
  let '((obj', err), w') := AnnotateObjectWithOperation obj GardenerOperationMigrate w in
  ((obj', IgnoreNotFound err), w').

(** The function retried by [WaitUntilExtensionObjectMigrated]. *)
Definition migratedAttempt (emptyObj : Object) (name namespace : string)
    (obj : Object) (w : W) : Attempt * Object * W :=
  let obj := emptyObj in
  match Get c (GoType obj) namespace name w with
  | (inl err, w1) =>
      match IgnoreNotFound (Some err) with
      | None => (Ok, obj, w1)
      | Some _ => (SevereError err, obj, w1)
      end
  | (inr obj, w1) =>
      let migrated :=
        match LastOperation_ (ObjStatus obj) with
        | Some lastOperation =>
            String.eqb (loType lastOperation) LastOperationTypeMigrate
            && String.eqb (loState lastOperation) LastOperationStateSucceeded
        | None => false
        end in
      if migrated then (Ok, obj, w1)
      else
        let extensionType := specType (ObjSpec obj) in
        (MinorError (PlainError ("lastOperation for " +:+ Kind obj +:+ " with name " +:+ name
                                 +:+ " and type " +:+ extensionType
                                 +:+ " is not Migrate=Succeeded")),
         obj, w1)
  end.

(** [WaitUntilExtensionObjectMigrated] *)
Definition WaitUntilExtensionObjectMigrated (obj : Object) (interval timeout : Z) (w : W)
    : WaitResult * W :=
  let name := Name obj in
  let namespace := Namespace obj in
  let '(o, w') :=
    UntilTimeout c interval timeout
      (migratedAttempt (createResetObjectFunc obj) name namespace) obj w in
  ({| waitErr := result o; waitObj := st o;
      waitPolls := polls o; waitElapsed := elapsed o |}, w').

(** What the attempts of a migration wait observe. *)
Definition migratedStarts (obj : Object) (interval timeout : Z) (w : W) : list (Object * W) :=
  UntilTimeoutStarts c interval timeout
    (migratedAttempt (createResetObjectFunc obj) (Name obj) (Namespace obj)) obj w.

End WithClient.
End Extensions.

(** ** pkg/apis/core/.../helper: the keyed lists of a ShootState *)

Module Helper.
Import API.

(** Modelled from the spec: the [Upsert] methods of the helper lists are
    not part of the sources at hand; the lists are "an ordered mapping keyed
    by composite identity with last-write-wins replacement, not a raw
    append-only list". *)
Fixpoint upsertBy {A K : Type} `{EqDecision K} (key : A -> K) (x : A) (l : list A) : list A :=
  match l with
  | [] => [x]
  | y :: l' => if decide (key y = key x) then x :: l' else y :: upsertBy key x l'
  end.

(** Identity keys: secrets by name, extension records by kind, name and
    purpose, resource data by object reference. *)
Definition gardenerKey (d : GardenerResourceData) : string := grdName d.
Definition extensionKey3 (e : ExtensionResourceState) : string * option string * option string :=
  (ersKind e, ersName e, ersPurpose e).
Definition resourceKey (r : ResourceData) : CrossVersionObjectReference := rdRef r.

Definition GardenerResourceDataList_Upsert (l : list GardenerResourceData) (d : GardenerResourceData) :=
  upsertBy gardenerKey d l.
Definition ExtensionResourceStateList_Upsert (l : list ExtensionResourceState) (e : ExtensionResourceState) :=
  upsertBy extensionKey3 e l.
Definition ResourceDataList_Upsert (l : list ResourceData) (r : ResourceData) :=
  upsertBy resourceKey r l.

(** Modelled from the spec: [ExtensionResourceStateList.Get] is not part of
    the sources at hand; it looks up "the matching snapshot entry by
    (kind, name, purpose)". *)
Definition ExtensionResourceStateList_Get (l : list ExtensionResourceState)
    (kind : string) (name purpose : option string) : option ExtensionResourceState :=
  List.find (fun e => bool_decide (extensionKey3 e = (kind, name, purpose))) l.

(** Modelled from the spec: [ResourceDataList.Get] is not part of the
    sources at hand; it resolves a reference in "the snapshot's ResourceRef
    table". *)
Definition ResourceDataList_Get (l : list ResourceData)
    (ref : CrossVersionObjectReference) : option ResourceData :=
  List.find (fun r => bool_decide (resourceKey r = ref)) l.

End Helper.

(** ** pkg/extensions/customresources.go: restoring state *)

Module Restore.
Import GoTime Errors API Client Helper Extensions.

Section WithClient.
Context {W : Type} (c : Client W).
(** [runtime.DefaultUnstructuredConverter.ToUnstructured] *)
Variable ToUnstructured : RawExtension -> error + Unstructured.

(** The loop over [resourceRefs] at the end of
    [RestoreExtensionObjectState]. *)
Fixpoint restoreResources (resourceList : list ResourceData) (namespace : string)
    (resourceRefs : list CrossVersionObjectReference) (w : W) : option error * W :=
  match resourceRefs with
  | [] => (None, w)
  | resourceRef :: rest =>
      match ResourceDataList_Get resourceList resourceRef with
      | Some resourceData =>
          match ToUnstructured (rdData resourceData) with
          | inl err => (Some err, w)
          | inr obj =>
              match CreateOrUpdateObjectByRef c resourceRef namespace obj w with
              | (Some err, w1) => (Some err, w1)
              | (None, w1) => restoreResources resourceList namespace rest w1
              end
          end
      | None => restoreResources resourceList namespace rest w
      end
  end.

(** [RestoreExtensionObjectState] *)
Definition RestoreExtensionObjectState (shootState : ShootStateSpec)
    (extensionObj : Object) (kind : string) (w : W) : (Object * option error) * W :=
  let resourceName := Name extensionObj in
  let purpose := specPurpose (ObjSpec extensionObj) in
  match ExtensionResourceStateList_Get (Extensions shootState) kind (Some resourceName) purpose with
  | Some extensionResourceState =>
      let base := extensionObj in
      let extensionStatus := ObjStatus extensionObj in
      let extensionStatus := SetState extensionStatus (ersState extensionResourceState) in
      let extensionStatus := SetResources extensionStatus (ersResources extensionResourceState) in
      let extensionObj := withStatus extensionObj extensionStatus in
      match StatusPatch c extensionObj base w with
      | (Some err, w1) => ((extensionObj, Some err), w1)
      | (None, w1) =>
          let resourceRefs := map ResourceRef (ersResources extensionResourceState) in
          let '(err, w2) :=
            restoreResources (ShootResources shootState) (Namespace extensionObj) resourceRefs w1 in
          ((extensionObj, err), w2)
      end
  | None => ((extensionObj, None), w)
  end.

(** [RestoreExtensionWithDeployFunction] *)
Definition RestoreExtensionWithDeployFunction (shootState : ShootStateSpec) (kind : string)
    (deployFunc : string -> W -> (error + Object) * W) (w : W) : option error * W :=
  match deployFunc GardenerOperationWaitForState w with
  | (inl err, w1) => (Some err, w1)
  | (inr extensionObj, w1) =>
      match RestoreExtensionObjectState shootState extensionObj kind w1 with
      | ((_, Some err), w2) => (Some err, w2)
      | ((extensionObj, None), w2) =>
          let '((_, err), w3) :=
            AnnotateObjectWithOperation c extensionObj GardenerOperationRestore w2 in
          (err, w3)
      end
  end.

End WithClient.
End Restore.

(** ** pkg/component and the backup relay components *)

Module Component.
Import GoTime Errors API Client Extensions.

(** [component.DeployWaiter] *)
Record DeployWaiter (W : Type) : Type := {
  Deploy : W -> option error * W;
  Wait : W -> option error * W;
  Destroy : W -> option error * W;
  WaitCleanup : W -> option error * W
}.
Arguments Deploy {W} _ _.
Arguments Wait {W} _ _.
Arguments Destroy {W} _ _.
Arguments WaitCleanup {W} _ _.

(** Modelled from the spec: [component.OpWait] is not part of the sources
    at hand; its [Deploy] is "Deploy ... with Wait-for-ready". *)
Definition OpWait_Deploy {W : Type} (dw : DeployWaiter W) (w : W) : option error * W :=
  match Deploy dw w with
  | (Some err, w1) => (Some err, w1)
  | (None, w1) => Wait dw w1
  end.

(** Modelled from the spec: [component.OpDestroyAndWait] is not part of the
    sources at hand; its [Destroy] calls Destroy, then WaitCleanup. *)
Definition OpDestroyAndWait_Destroy {W : Type} (dw : DeployWaiter W) (w : W) : option error * W :=
  match Destroy dw w with
  | (Some err, w1) => (Some err, w1)
  | (None, w1) => WaitCleanup dw w1
  end.

(** [controllerutil.OperationResult] *)
Inductive OperationResult : Type :=
| OperationResultNone
| OperationResultCreated
| OperationResultUpdated.

Section WithClient.
Context {W : Type} (c : Client W).

(** Modelled from the spec: [controllerutils.GetAndCreateOrMergePatch] is
    not part of the sources at hand; it reads the object, applies the
    mutation, and creates the object when it was not found, or else sends
    the change as a merge patch ("patch spec + annotate reconcile"). *)
Definition GetAndCreateOrMergePatch (obj : Object) (mutate : Object -> W -> Object) (w : W)
    : (Object * OperationResult * option error) * W :=
  match Get c (GoType obj) (Namespace obj) (Name obj) w with
  | (inl err, w1) =>
      if IsNotFound err then
        let obj := mutate obj w1 in
        match Create c obj w1 with
        | (Some err, w2) => ((obj, OperationResultNone, Some err), w2)
        | (None, w2) => ((obj, OperationResultCreated, None), w2)
        end
      else ((obj, OperationResultNone, Some err), w1)
  | (inr current, w1) =>
      let base := current in
      let obj := mutate current w1 in
      match Patch c obj base w1 with
      | (Some err, w2) => ((obj, OperationResultNone, Some err), w2)
      | (None, w2) => ((obj, OperationResultUpdated, None), w2)
      end
  end.

End WithClient.
End Component.

(** ** pkg/component/extensions/backupupload *)

Module BackupUpload.
Import GoTime Errors API Client Extensions Component.

(** [backupupload.Values] *)
Record Values : Type := {
  valName : string;
  valType : string;
  valEntryName : string;
  valFilePath : string;
  valData : bytes
}.

(** The [backupUpload] component. *)
Record backupUpload : Type := {
  namespace : string;
  values : Values;
  waitInterval : Z;
  waitSevereThreshold : Z;
  waitTimeout : Z
}.

(** [DefaultInterval], [DefaultSevereThreshold] and [DefaultTimeout], in
    nanoseconds. *)
Definition DefaultInterval : Z := 5 * 1000000000.
Definition DefaultSevereThreshold : Z := 30 * 1000000000.
Definition DefaultTimeout : Z := 10 * 60 * 1000000000.

Definition emptyBackupUpload (b : backupUpload) : Object :=
  namedObject BackupUploadResource (namespace b) (valName (values b)).

Section WithClient.
Context {W : Type} (c : Client W).

(** The mutation [Deploy] hands to [GetAndCreateOrMergePatch]. *)
Definition deployMutate (b : backupUpload) (upload : Object) (w : W) : Object :=
  let upload := SetMetaDataAnnotation upload GardenerOperation GardenerOperationReconcile in
  let upload :=
    SetMetaDataAnnotation upload GardenerTimestamp (FormatRFC3339Nano (UTC (Now c w))) in
  withSpec upload
    {| specType := valType (values b);
       specPurpose := None;
       specEntryName := valEntryName (values b);
       specFilePath := valFilePath (values b);
       specData := valData (values b) |}.

Definition Deploy (b : backupUpload) (w : W) : option error * W :=
  let upload := emptyBackupUpload b in
  let '((_, _, err), w') := GetAndCreateOrMergePatch c upload (deployMutate b) w in
  (err, w').

Definition Destroy (b : backupUpload) (w : W) : option error * W :=
  DeleteExtensionObject c (emptyBackupUpload b) w.

Definition Wait (b : backupUpload) (w : W) : option error * W :=
  let '(r, w') :=
    WaitUntilExtensionObjectReady c (emptyBackupUpload b) BackupUploadResource
      (waitInterval b) (waitSevereThreshold b) (waitTimeout b) None w in
  (waitErr r, w').

Definition WaitCleanup (b : backupUpload) (w : W) : option error * W :=
  let '(r, w') :=
    WaitUntilExtensionObjectDeleted c (emptyBackupUpload b) BackupUploadResource
      (waitInterval b) (waitTimeout b) w in
  (waitErr r, w').

(** [backupupload.New] *)
Definition New (b : backupUpload) : DeployWaiter W :=
  {| Component.Deploy := Deploy b; Component.Wait := Wait b;
     Component.Destroy := Destroy b; Component.WaitCleanup := WaitCleanup b |}.

End WithClient.
End BackupUpload.

(** ** pkg/component/extensions/backupdownload *)

Module BackupDownload.
Import GoTime Errors API Client Extensions Component.

(** [backupdownload.Values] *)
Record Values : Type := {
  valName : string;
  valType : string;
  valEntryName : string;
  valFilePath : string;
  valData : bytes
}.

(** The [backupDownload] component. *)
Record backupDownload : Type := {
  namespace : string;
  values : Values;
  waitInterval : Z;
  waitSevereThreshold : Z;
  waitTimeout : Z
}.

Definition DefaultInterval : Z := 5 * 1000000000.
Definition DefaultSevereThreshold : Z := 30 * 1000000000.
Definition DefaultTimeout : Z := 10 * 60 * 1000000000.

Definition emptyBackupDownload (b : backupDownload) : Object :=
  namedObject BackupDownloadResource (namespace b) (valName (values b)).

Section WithClient.
Context {W : Type} (c : Client W).

(** The mutation [Deploy] hands to [GetAndCreateOrMergePatch];
    [BackupDownloadSpec] has no [Data] field. *)
Definition deployMutate (b : backupDownload) (download : Object) (w : W) : Object :=
  let download := SetMetaDataAnnotation download GardenerOperation GardenerOperationReconcile in
  let download :=
    SetMetaDataAnnotation download GardenerTimestamp (FormatRFC3339Nano (UTC (Now c w))) in
  withSpec download
    {| specType := valType (values b);
       specPurpose := None;
       specEntryName := valEntryName (values b);
       specFilePath := valFilePath (values b);
       specData := [] |}.

Definition Deploy (b : backupDownload) (w : W) : option error * W :=
  let download := emptyBackupDownload b in
  let '((_, _, err), w') := GetAndCreateOrMergePatch c download (deployMutate b) w in
  (err, w').

Definition Destroy (b : backupDownload) (w : W) : option error * W :=
  DeleteExtensionObject c (emptyBackupDownload b) w.

Definition Wait (b : backupDownload) (w : W) : option error * W :=
  let '(r, w') :=
    WaitUntilExtensionObjectReady c (emptyBackupDownload b) BackupDownloadResource
      (waitInterval b) (waitSevereThreshold b) (waitTimeout b) None w in
  (waitErr r, w').

Definition WaitCleanup (b : backupDownload) (w : W) : option error * W :=
  let '(r, w') :=
    WaitUntilExtensionObjectDeleted c (emptyBackupDownload b) BackupDownloadResource
      (waitInterval b) (waitTimeout b) w in
  (waitErr r, w').

(** Modelled from the spec: [GetData] of the download component is not part
    of the sources at hand; after the wait the driver is to "read
    Status.Data" of the relay object. *)
Definition GetData (b : backupDownload) (w : W) : bytes * W :=
  match Get c BackupDownloadResource (namespace b) (valName (values b)) w with
  | (inr download, w1) => (statusData (ObjStatus download), w1)
  | (inl _, w1) => ([], w1)
  end.

(** [backupdownload.New] *)
Definition New (b : backupDownload) : DeployWaiter W :=
  {| Component.Deploy := Deploy b; Component.Wait := Wait b;
     Component.Destroy := Destroy b; Component.WaitCleanup := WaitCleanup b |}.

End WithClient.
End BackupDownload.

(** ** pkg/operation/botanist: download and snapshot of the ShootState *)

Module Botanist.
Import GoTime GoCrypto Errors API Client Helper Extensions Component BotanistCrypto.

(** The fields of [Botanist] the functions below read. *)
Record Botanist : Type := {
  seedBackupProvider : option string;
  BackupEntryName : string;
  SeedNamespace : string
}.

Definition cryptoErrorString (e : cryptoError) : string :=
  match e with
  | KeySizeError _ => "crypto/aes: invalid key size"
  | ErrUnexpectedEOF => "unexpected EOF"
  | ErrCiphertextTooShort => "Ciphertext block size is too short!"
  end.

(** The kinds [computeShootStateExtensionsDataAndResources] lists. *)
Definition extensionKinds : list string :=
  ["BackupEntry"; "ContainerRuntime"; "ControlPlane"; "DNSRecord"; "Extension";
   "Infrastructure"; "Network"; "OperatingSystemConfig"; "Worker"].

Section WithClient.
Context {W : Type} (c : Client W).
(** [Block.Encrypt] of AES, [json.Unmarshal] into a ShootState,
    [json.Marshal] of a secret's data, and
    [runtime.DefaultUnstructuredConverter.FromUnstructured]. *)
Variable aesEncryptBlock : bytes -> bytes -> bytes.
Variable unmarshalShootState : bytes -> error + ShootStateSpec.
Variable marshalSecretData : gmap string bytes -> error + bytes.
Variable FromUnstructured : Unstructured -> error + RawExtension.

(** [loadShootState]: the ShootState to set, or the error. *)
Definition loadShootState (data : bytes) : error + ShootStateSpec :=
  match decrypt aesEncryptBlock cipherKey data with
  | inl err => inl (PlainError ("failed decrypting ShootState: " +:+ cryptoErrorString err))
  | inr raw =>
      match unmarshalShootState raw with
      | inl err => inl (PlainError ("failed unmarshaling raw ShootState: " +:+ Error err))
      | inr shootState => inr shootState
      end
  end.

(** The deployer [DownloadShootStateBackup] builds. *)
Definition downloadDeployer (b : Botanist) (provider : string) : BackupDownload.backupDownload :=
  {| BackupDownload.namespace := SeedNamespace b;
     BackupDownload.values :=
       {| BackupDownload.valName := "shootstate";
          BackupDownload.valType := provider;
          BackupDownload.valEntryName := BackupEntryName b;
          BackupDownload.valFilePath := "shootstate";
          BackupDownload.valData := [] |};
     BackupDownload.waitInterval := BackupDownload.DefaultInterval;
     BackupDownload.waitSevereThreshold := BackupDownload.DefaultSevereThreshold;
     BackupDownload.waitTimeout := BackupDownload.DefaultTimeout |}.

(** [DownloadShootStateBackup]: the ShootState set on the shoot, if any,
    and the error. *)
Definition DownloadShootStateBackup (b : Botanist) (w : W)
    : (option ShootStateSpec * option error) * W :=
  match seedBackupProvider b with
  | None =>
      ((None, Some (PlainError
         "cannot deploy BackupDownload for Shoot state since Seed is not configured with backup")), w)
  | Some provider =>
      let deployer := downloadDeployer b provider in
      let dw := BackupDownload.New c deployer in
      match OpDestroyAndWait_Destroy dw w with
      | (Some err, w1) => ((None, Some err), w1)
      | (None, w1) =>
          match OpWait_Deploy dw w1 with
          | (Some err, w2) => ((None, Some err), w2)
          | (None, w2) =>
              let '(data, w3) := BackupDownload.GetData c deployer w2 in
              match loadShootState data with
              | inl err => ((None, Some err), w3)
              | inr shootState =>
                  let '(err, w4) := OpDestroyAndWait_Destroy dw w3 in
                  ((Some shootState, err), w4)
              end
          end
      end
  end.

(** The loop over the listed secrets in [computeShootStateGardenerData]. *)
Fixpoint gardenerDataItems (items : list Secret) (dataList : list GardenerResourceData)
    : error + list GardenerResourceData :=
  match items with
  | [] => inr dataList
  | secret :: rest =>
      match marshalSecretData (secretData secret) with
      | inl err =>
          inl (PlainError ("failed marshalling secret data to JSON for secret "
                           +:+ secretName secret +:+ ": " +:+ Error err))
      | inr dataJSON =>
          gardenerDataItems rest
            (GardenerResourceDataList_Upsert dataList
               {| grdName := secretName secret; grdLabels := secretLabels secret;
                  grdType := "secret"; grdData := dataJSON |})
      end
  end.

(** [computeShootStateGardenerData] *)
Definition computeShootStateGardenerData (b : Botanist) (w : W)
    : (error + list GardenerResourceData) * W :=
  match ListSecrets c (SeedNamespace b) w with
  | (inl err, w1) =>
      (inl (PlainError ("failed listing all secrets that must be persisted: " +:+ Error err)), w1)
  | (inr items, w1) => (gardenerDataItems items [], w1)
  end.

(** The loop over the resources of one extension object. (The check
    [obj == nil] in it tests the list item, which is never nil.) *)
Fixpoint resourcesOfObject (b : Botanist) (newResources : list NamedResourceReference)
    (resources : list ResourceData) (w : W) : (error + list ResourceData) * W :=
  match newResources with
  | [] => (inr resources, w)
  | newResource :: rest =>
      match GetObjectByRef c (ResourceRef newResource) (SeedNamespace b) w with
      | (inl err, w1) =>
          (inl (PlainError ("failed reading referenced object "
                            +:+ SeedNamespace b +:+ "/" +:+ refName (ResourceRef newResource)
                            +:+ ": " +:+ Error err)), w1)
      | (inr referencedObj, w1) =>
          match FromUnstructured referencedObj with
          | inl err =>
              (inl (PlainError ("failed converting referenced object "
                                +:+ SeedNamespace b +:+ "/" +:+ refName (ResourceRef newResource)
                                +:+ " to raw extension: " +:+ Error err)), w1)
          | inr raw =>
              resourcesOfObject b rest
                (ResourceDataList_Upsert resources
                   {| rdRef := ResourceRef newResource; rdData := raw |}) w1
          end
      end
  end.

(** The function [meta.EachListItem] runs on the items of one kind. *)
Fixpoint eachListItem (b : Botanist) (objKind : string) (items : list Object)
    (dataList : list ExtensionResourceState) (resources : list ResourceData) (w : W)
    : (error + list ExtensionResourceState * list ResourceData) * W :=
  match items with
  | [] => (inr (dataList, resources), w)
  | extensionObj :: rest =>
      match DeletionTimestamp extensionObj with
      | Some _ => eachListItem b objKind rest dataList resources w
      | None =>
          let dataList :=
            ExtensionResourceStateList_Upsert dataList
              {| ersKind := objKind;
                 ersName := Some (Name extensionObj);
                 ersPurpose := specPurpose (ObjSpec extensionObj);
                 ersState := State (ObjStatus extensionObj);
                 ersResources := Resources (ObjStatus extensionObj) |} in
          match resourcesOfObject b (Resources (ObjStatus extensionObj)) resources w with
          | (inl err, w1) => (inl err, w1)
          | (inr resources, w1) => eachListItem b objKind rest dataList resources w1
          end
      end
  end.

(** The loop over the kinds; Go ranges over a map, so [kinds] is the kinds
    in the order this run visits them. *)
Fixpoint eachKind (b : Botanist) (kinds : list string)
    (dataList : list ExtensionResourceState) (resources : list ResourceData) (w : W)
    : (error + list ExtensionResourceState * list ResourceData) * W :=
  match kinds with
  | [] => (inr (dataList, resources), w)
  | objKind :: rest =>
      match List c objKind (SeedNamespace b) w with
      | (inl err, w1) =>
          (inl (PlainError ("failed to list extension resources of kind " +:+ objKind
                            +:+ ": " +:+ Error err)), w1)
      | (inr items, w1) =>
          match eachListItem b objKind items dataList resources w1 with
          | (inl err, w2) =>
              (inl (PlainError ("failed computing extension data for kind " +:+ objKind
                                +:+ ": " +:+ Error err)), w2)
          | (inr (dataList, resources), w2) => eachKind b rest dataList resources w2
          end
      end
  end.

(** [computeShootStateExtensionsDataAndResources] *)
Definition computeShootStateExtensionsDataAndResources (b : Botanist) (kinds : list string) (w : W)
    : (error + list ExtensionResourceState * list ResourceData) * W :=
  eachKind b kinds [] [] w.

End WithClient.

(** The record the snapshot keeps for a listed object of kind [objKind]. *)
Definition recordOf (objKind : string) (extensionObj : Object) : ExtensionResourceState :=
  {| ersKind := objKind;
     ersName := Some (Name extensionObj);
     ersPurpose := specPurpose (ObjSpec extensionObj);
     ersState := State (ObjStatus extensionObj);
     ersResources := Resources (ObjStatus extensionObj) |}.

(** The objects without deletion timestamp among those listed, each with
    the kind it was listed under, in the order the snapshot visits them. *)
Definition liveObjects (listing : string -> list Object) (kinds : list string)
    : list (string * Object) :=
  kinds ≫= (fun objKind =>
              (fun o => (objKind, o)) <$> filter (fun o => DeletionTimestamp o = None) (listing objKind)).

End Botanist.

(** ** An in-memory API server, as the fake client of the tests *)

Module Fake.
Import GoTime Errors API Client.

(** Objects are stored under Go type, namespace and name; referenced
    objects under kind, name, API version and namespace. *)
Abbreviation ObjectKey := (string * string * string)%type.
Abbreviation RefKey := (string * string * string * string)%type.

(** The world of the fake client: the stored objects and secrets, the
    clock, and [agenda], what the other writers (the extension controllers)
    do to the stored objects during each of the coming waits. *)
Record World : Type := {
  objects : gmap ObjectKey Object;
  secrets : list (string * Secret);
  referenced : gmap RefKey Unstructured;
  clock : Time;
  agenda : list (gmap ObjectKey Object -> gmap ObjectKey Object)
}.

Definition keyOf (o : Object) : ObjectKey := (GoType o, Namespace o, Name o).

Definition refKeyOf (ref : CrossVersionObjectReference) (namespace : string) : RefKey :=
  (refKind ref, refName ref, refAPIVersion ref, namespace).

Definition withObjects (w : World) (m : gmap ObjectKey Object) : World :=
  {| objects := m; secrets := secrets w; referenced := referenced w;
     clock := clock w; agenda := agenda w |}.

Definition notFound (name : string) : error :=
  StatusError StatusReasonNotFound (name +:+ " not found").

(** A JSON merge patch on the annotations: the entries that differ between
    [base] and [new] are set or removed in [current]. *)
Definition mergeAnnotations (current base new : gmap string string) : gmap string string :=
  let diff : gmap string (option string) :=
    merge (fun b n => if decide (b = n) then None else Some n) base new in
  merge (fun cur d => match d with Some v => v | None => cur end) current diff.

Definition mergePatch (current base new : Object) : Object :=
  let o := withAnnotations current
             (mergeAnnotations (Annotations current) (Annotations base) (Annotations new)) in
  if decide (ObjSpec base = ObjSpec new) then o else withSpec o (ObjSpec new).

Definition fakeGet (goType namespace name : string) (w : World) : (error + Object) * World :=
  match objects w !! (goType, namespace, name) with
  | Some o => (inr o, w)
  | None => (inl (notFound name), w)
  end.

Definition fakeCreate (obj : Object) (w : World) : option error * World :=
  match objects w !! keyOf obj with
  | Some _ => (Some (StatusError StatusReasonAlreadyExists (Name obj +:+ " already exists")), w)
  | None => (None, withObjects w (<[keyOf obj := obj]> (objects w)))
  end.

Definition fakePatch (obj base : Object) (w : World) : option error * World :=
  match objects w !! keyOf obj with
  | Some current => (None, withObjects w (<[keyOf obj := mergePatch current base obj]> (objects w)))
  | None => (Some (notFound (Name obj)), w)
  end.

Definition fakeStatusPatch (obj base : Object) (w : World) : option error * World :=
  match objects w !! keyOf obj with
  | Some current =>
      (None, withObjects w (<[keyOf obj := withStatus current (ObjStatus obj)]> (objects w)))
  | None => (Some (notFound (Name obj)), w)
  end.

(** Deleting removes an object without finalizers and marks one with
    finalizers for deletion. *)
Definition fakeDelete (obj : Object) (w : World) : option error * World :=
  match objects w !! keyOf obj with
  | Some current =>
      match Finalizers current with
      | [] => (None, withObjects w (delete (keyOf obj) (objects w)))
      | _ =>
          let t := match DeletionTimestamp current with
                   | Some t => Some t
                   | None => Some (clock w)
                   end in
          (None, withObjects w (<[keyOf obj := withDeletionTimestamp current t]> (objects w)))
      end
  | None => (Some (notFound (Name obj)), w)
  end.

Definition listed (w : World) (goType namespace : string) : list Object :=
  filter (fun o => GoType o = goType /\ Namespace o = namespace)
         (map snd (map_to_list (objects w))).

Definition fakeList (goType namespace : string) (w : World) : (error + list Object) * World :=
  (inr (listed w goType namespace), w).

Definition fakeListSecrets (namespace : string) (w : World) : (error + list Secret) * World :=
  (inr (map snd (filter (fun p => fst p = namespace) (secrets w))), w).

Definition fakeGetObjectByRef (ref : CrossVersionObjectReference) (namespace : string) (w : World)
    : (error + Unstructured) * World :=
  match referenced w !! refKeyOf ref namespace with
  | Some u => (inr u, w)
  | None => (inl (notFound (refName ref)), w)
  end.

Definition fakeCreateOrUpdateObjectByRef (ref : CrossVersionObjectReference)
    (namespace : string) (u : Unstructured) (w : World) : option error * World :=
  (None, {| objects := objects w; secrets := secrets w;
            referenced := <[refKeyOf ref namespace := u]> (referenced w);
            clock := clock w; agenda := agenda w |}).

(** [t.Add(d)] *)
Definition Add (t : Time) (d : Z) : Time :=
  {| unixSec := unixSec t + (nsec t + d) / 1000000000;
     nsec := (nsec t + d) mod 1000000000;
     loc := loc t; mono := mono t |}.

(** A wait of [d] nanoseconds: the clock advances and the other writers
    take their next turn. *)
Definition fakeSleep (d : Z) (w : World) : World :=
  match agenda w with
  | [] =>
      {| objects := objects w; secrets := secrets w; referenced := referenced w;
         clock := Add (clock w) d; agenda := [] |}
  | turn :: rest =>
      {| objects := turn (objects w); secrets := secrets w; referenced := referenced w;
         clock := Add (clock w) d; agenda := rest |}
  end.

Definition fakeClient : Client World :=
  {| Get := fakeGet; Create := fakeCreate; Patch := fakePatch;
     StatusPatch := fakeStatusPatch; Delete := fakeDelete;
     List := fakeList; ListSecrets := fakeListSecrets;
     GetObjectByRef := fakeGetObjectByRef;
     CreateOrUpdateObjectByRef := fakeCreateOrUpdateObjectByRef;
     Now := clock; Sleep := fakeSleep |}.

(** *** Worlds and objects the examples run on *)

(** 2023-01-02 03:04:05.000000006 UTC, read in a zone one hour east. *)
Definition someTime : Time :=
  {| unixSec := 1672628645; nsec := 6;
     loc := {| locName := "CET"; locOffset := 3600 |}; mono := Some 12 |}.

Definition emptyWorld : World :=
  {| objects := ∅; secrets := []; referenced := ∅; clock := someTime; agenda := [] |}.

Definition worldWith (os : list Object) : World :=
  withObjects emptyWorld (list_to_map (map (fun o => (keyOf o, o)) os)).

Definition worker (name : string) : Object :=
  {| GoType := WorkerResource; Kind := WorkerResource;
     Namespace := "shoot--foo--bar"; Name := name;
     Annotations := ∅; Finalizers := []; DeletionTimestamp := None;
     Generation := 0; ObjSpec := emptySpec; ObjStatus := emptyStatus |}.

Definition withLastOperation (o : Object) (type state : string) : Object :=
  withStatus o
    {| LastOperation_ := Some {| loType := type; loState := state; loDescription := "" |};
       LastError_ := LastError_ (ObjStatus o);
       ObservedGeneration := ObservedGeneration (ObjStatus o);
       State := State (ObjStatus o); Resources := Resources (ObjStatus o);
       statusData := statusData (ObjStatus o) |}.

Definition withLastError (o : Object) (description : string) (codes : list ErrorCode) : Object :=
  withStatus o
    {| LastOperation_ := LastOperation_ (ObjStatus o);
       LastError_ := Some {| leDescription := description; leCodes := codes |};
       ObservedGeneration := ObservedGeneration (ObjStatus o);
       State := State (ObjStatus o); Resources := Resources (ObjStatus o);
       statusData := statusData (ObjStatus o) |}.

Definition ms : Z := 1000000.

Definition readyWorker : Object :=
  withLastOperation (worker "w1") LastOperationTypeReconcile LastOperationStateSucceeded.

Definition processingWorker : Object :=
  withLastOperation (worker "w1") LastOperationTypeReconcile LastOperationStateProcessing.

Definition failingWorker : Object :=
  withLastError (worker "w1") "quota exceeded" ["ERR_INFRA_QUOTA_EXCEEDED"].

(** A health function that reports [Status.LastError] with its codes. *)
Definition lastErrorHealth : Health.Func :=
  fun o =>
    match LastError_ (ObjStatus o) with
    | Some lastErr => Some (NewErrorWithCodes (leDescription lastErr) (leCodes lastErr))
    | None => None
    end.

(** The worlds in which [o] stays stored as it is and no one else writes. *)
Definition quiescentWith (o : Object) (w : World) : Prop :=
  objects w !! keyOf o = Some o /\ agenda w = [].

(** A snapshot whose record for worker [w1] lists a resource that the
    resource-data table of the snapshot does not hold. *)
Definition danglingRef : CrossVersionObjectReference :=
  {| refKind := "Secret"; refName := "cloud-credentials"; refAPIVersion := "v1" |}.

Definition otherRef : CrossVersionObjectReference :=
  {| refKind := "ConfigMap"; refName := "cloud-config"; refAPIVersion := "v1" |}.

Definition danglingShootState : ShootStateSpec :=
  {| Gardener := [];
     Extensions :=
       [ {| ersKind := WorkerResource; ersName := Some "w1"; ersPurpose := None;
            ersState := Some (list_byte_of_string "{}");
            ersResources := [ {| nrName := "credentials"; ResourceRef := danglingRef |} ] |} ];
     ShootResources := [ {| rdRef := otherRef; rdData := list_byte_of_string "{}" |} ] |}.

(** A converter to unstructured content that never fails. *)
Definition plainToUnstructured (raw : RawExtension) : error + Unstructured := inr raw.

(** The ShootState of the tests: a record for worker [w1] with a state. *)
Definition testShootState : ShootStateSpec :=
  {| Gardener := [];
     Extensions :=
       [ {| ersKind := WorkerResource; ersName := Some "w1"; ersPurpose := None;
            ersState := Some (list_byte_of_string "{data:value}");
            ersResources := [] |} ];
     ShootResources := [] |}.

(** A converter from unstructured content that never fails. *)
Definition plainFromUnstructured (u : Unstructured) : error + RawExtension := inr u.

Definition someBotanist : Botanist.Botanist :=
  {| Botanist.seedBackupProvider := Some "local";
     Botanist.BackupEntryName := "shoot--foo--bar--uid";
     Botanist.SeedNamespace := "shoot--foo--bar" |}.

(** The encrypted ShootState that the download controller finds in the
    backup entry. *)
Definition sealedState : bytes :=
  match BotanistCrypto.encrypt BotanistCrypto.toyBlock BotanistCrypto.cipherKey
          (list_byte_of_string "{}") (repeat "x"%byte 16) with
  | inr ciphertext => ciphertext
  | inl _ => []
  end.

(** What the BackupDownload controller does when it reconciles the relay
    object: it stores the downloaded content in [Status.Data] and records the
    success of the operation. *)
Definition downloadController (os : gmap ObjectKey Object) : gmap ObjectKey Object :=
  alter (fun o =>
           withStatus o
             {| LastOperation_ :=
                  Some {| loType := LastOperationTypeReconcile;
                          loState := LastOperationStateSucceeded;
                          loDescription := "Successfully reconciled BackupDownload" |};
                LastError_ := None;
                ObservedGeneration := Generation o;
                State := None; Resources := [];
                statusData := sealedState |})
    (BackupDownloadResource, "shoot--foo--bar", "shootstate") os.

(** An empty server on which the download controller takes one turn. *)
Definition downloadWorld : World :=
  {| objects := ∅; secrets := []; referenced := ∅; clock := someTime;
     agenda := [downloadController] |}.

(** A decoder that accepts any content. *)
Definition decodeAny (raw : bytes) : error + ShootStateSpec :=
  inr {| Gardener := []; Extensions := []; ShootResources := [] |}.

(** A server with a live worker that refers to a stored resource, and a
    worker that is being deleted. *)
Definition snapshotWorld : World :=
  {| objects :=
       list_to_map
         (map (fun o => (keyOf o, o))
            [ withStatus (worker "w1")
                {| LastOperation_ := None; LastError_ := None; ObservedGeneration := 0;
                   State := Some (list_byte_of_string "{}");
                   Resources := [ {| nrName := "config"; ResourceRef := otherRef |} ];
                   statusData := [] |};
              withDeletionTimestamp (worker "w2") (Some someTime) ]);
     secrets := [];
     referenced := {[ refKeyOf otherRef "shoot--foo--bar" := list_byte_of_string "{}" ]};
     clock := someTime;
     agenda := [] |}.

(** What a listing of [objKind] returns on [snapshotWorld]. *)
Definition snapshotListing (objKind : string) : list Object :=
  listed snapshotWorld objKind "shoot--foo--bar".

End Fake.

(** ** pkg/operation/botanist: upload of the ShootState *)

Module BotanistUpload.
Import GoTime GoCrypto Errors API Client Helper Extensions Component BotanistCrypto Botanist.

(** The record [computeShootStateGardenerData] upserts for a listed secret
    whose data [json.Marshal] encodes. *)
Definition secretRecord (marshalSecretData : gmap string bytes -> error + bytes)
    (secret : Secret) : option GardenerResourceData :=
  match marshalSecretData (secretData secret) with
  | inr dataJSON =>
      Some {| grdName := secretName secret; grdLabels := secretLabels secret;
              grdType := "secret"; grdData := dataJSON |}
  | inl _ => None
  end.

Section WithClient.
Context {W : Type} (c : Client W).
(** [Block.Encrypt] of AES, [json.Marshal] of a ShootState with the given
    spec, [json.Marshal] of a secret's data, and
    [runtime.DefaultUnstructuredConverter.FromUnstructured]. *)
Variable aesEncryptBlock : bytes -> bytes -> bytes.
Variable marshalShootState : ShootStateSpec -> error + bytes.
Variable marshalSecretData : gmap string bytes -> error + bytes.
Variable FromUnstructured : Unstructured -> error + RawExtension.

(** [computeShootStateSpecForBackupUpload]; [kinds] is the order in which
    this run visits the extension kinds. *)
Definition computeShootStateSpecForBackupUpload (b : Botanist) (kinds : list string) (w : W)
    : (error + ShootStateSpec) * W :=
  match computeShootStateGardenerData c marshalSecretData b w with
  | (inl err, w1) => (inl (PlainError ("failed computing Gardener data: " +:+ Error err)), w1)
  | (inr gardener, w1) =>
      match computeShootStateExtensionsDataAndResources c FromUnstructured b kinds w1 with
      | (inl err, w2) =>
          (inl (PlainError ("failed computing extensions data and resources: " +:+ Error err)), w2)
      | (inr (extensions, resources), w2) =>
          (inr {| Gardener := gardener; Extensions := extensions; ShootResources := resources |},
           w2)
      end
  end.

(** [computeDataForShootStateBackupUpload]; [randReader] is what
    [rand.Reader] delivers to [encrypt]. *)
Definition computeDataForShootStateBackupUpload (b : Botanist) (kinds : list string)
    (randReader : bytes) (w : W) : (error + bytes) * W :=
  match computeShootStateSpecForBackupUpload b kinds w with
  | (inl err, w1) =>
      (inl (PlainError ("failed computing ShootState spec for BackupUpload: " +:+ Error err)), w1)
  | (inr shootStateSpec, w1) =>
      match marshalShootState shootStateSpec with
      | inl err =>
          (inl (PlainError ("failed marshaling ShootState spec to JSON: " +:+ Error err)), w1)
      | inr raw =>
          match encrypt aesEncryptBlock cipherKey raw randReader with
          | inl err => (inl (PlainError (cryptoErrorString err)), w1)
          | inr data => (inr data, w1)
          end
      end
  end.

(** The deployer [UploadShootStateBackup] builds. *)
Definition uploadDeployer (b : Botanist) (provider : string) (data : bytes)
    : BackupUpload.backupUpload :=
  {| BackupUpload.namespace := SeedNamespace b;
     BackupUpload.values :=
       {| BackupUpload.valName := "shootstate";
          BackupUpload.valType := provider;
          BackupUpload.valEntryName := BackupEntryName b;
          BackupUpload.valFilePath := "shootstate";
          BackupUpload.valData := data |};
     BackupUpload.waitInterval := BackupUpload.DefaultInterval;
     BackupUpload.waitSevereThreshold := BackupUpload.DefaultSevereThreshold;
     BackupUpload.waitTimeout := BackupUpload.DefaultTimeout |}.

(** [UploadShootStateBackup] *)
Definition UploadShootStateBackup (b : Botanist) (kinds : list string) (randReader : bytes)
    (w : W) : option error * W :=
  match seedBackupProvider b with
  | None =>
      (Some (PlainError
         "cannot deploy BackupUpload for Shoot state since Seed is not configured with backup"), w)
  | Some provider =>
      match computeDataForShootStateBackupUpload b kinds randReader w with
      | (inl err, w1) =>
          (Some (PlainError ("failed computing data for BackupUpload of Shoot state: "
                             +:+ Error err)), w1)
      | (inr data, w1) =>
          let deployer := uploadDeployer b provider data in
          let dw := BackupUpload.New c deployer in
          match OpDestroyAndWait_Destroy dw w1 with
          | (Some err, w2) => (Some err, w2)
          | (None, w2) =>
              match OpWait_Deploy dw w2 with
              | (Some err, w3) => (Some err, w3)
              | (None, w3) => OpDestroyAndWait_Destroy dw w3
              end
          end
      end
  end.

End WithClient.
End BotanistUpload.

(** ** The worlds a wait passes through *)

Module Polling.
Import Errors API Client.

Section WithClient.
Context {W : Type} (c : Client W).

(** The world in which the next attempt of a wait on [obj] starts, when
    this attempt has read the object and found that it has to go on
    waiting: [Get] has answered and [interval] has passed. *)
Definition afterPoll (obj : Object) (interval : Z) (w : W) : W :=
  Sleep c interval (snd (Get c (GoType obj) (Namespace obj) (Name obj) w)).

(** The world in which attempt number [i] (from 0) of such a wait starts. *)
Definition atPoll (obj : Object) (interval : Z) (i : nat) (w : W) : W :=
  Nat.iter i (afterPoll obj interval) w.

End WithClient.

(** The answers to [Get] on which a readiness wait goes on waiting, whatever
    the threshold: the object is not found, or it fails the health function
    with an error without codes. *)
Definition notYet (healthFunc : Health.Func) (answer : error + Object) : Prop :=
  match answer with
  | inl e => IsNotFound e = true
  | inr o => exists e, healthFunc o = Some e /\ AsErrorWithCodes e = false
  end.

End Polling.

(** ** pkg/apis/extensions/validation: BackupDownload *)

Module Validation.
Import API.

(** Modelled from the spec: [DefaultSpec] is not part of the sources at
    hand; the spec of an object holds the "common fields: Type,
    ProviderConfig". *)
Record DefaultSpec : Type := {
  dsType : string;
  dsProviderConfig : option RawExtension
}.

(** [extensionsv1alpha1.BackupDownloadSpec] *)
Record BackupDownloadSpec : Type := {
  bdDefaultSpec : DefaultSpec;
  bdEntryName : string;
  bdFilePath : string
}.

#[global] Instance DefaultSpec_eq_dec : EqDecision DefaultSpec.
Proof. solve_decision. Defined.
#[global] Instance BackupDownloadSpec_eq_dec : EqDecision BackupDownloadSpec.
Proof. solve_decision. Defined.

(** [field.Path]: the names from the root, and [Path.String]. *)
Definition Path : Type := list string.
Definition NewPath (name : string) : Path := [name].
Definition Child (p : Path) (name : string) : Path := p ++ [name].
Definition PathString (p : Path) : string := String.concat "." p.

(** [field.ErrorType], as far as these functions produce it. *)
Inductive ErrorType : Type :=
| ErrorTypeRequired
| ErrorTypeForbidden
| ErrorTypeInvalid.

(** The values reported as [BadValue]. *)
Inductive Value : Type :=
| StringValue (s : string)
| SpecValue (spec : BackupDownloadSpec)
| BytesValue (data : bytes).

(** [field.Error] *)
Record FieldError : Type := {
  errType : ErrorType;
  errField : string;
  errBadValue : Value;
  errDetail : string
}.

(** [field.ErrorList] *)
Abbreviation ErrorList := (list FieldError).

(** [field.Required], [field.Forbidden] and [field.Invalid] *)
Definition Required (p : Path) (detail : string) : FieldError :=
  {| errType := ErrorTypeRequired; errField := PathString p;
     errBadValue := StringValue ""; errDetail := detail |}.

Definition Forbidden (p : Path) (detail : string) : FieldError :=
  {| errType := ErrorTypeForbidden; errField := PathString p;
     errBadValue := StringValue ""; errDetail := detail |}.

Definition Invalid (p : Path) (value : Value) (detail : string) : FieldError :=
  {| errType := ErrorTypeInvalid; errField := PathString p;
     errBadValue := value; errDetail := detail |}.

(** [apivalidation.FieldImmutableErrorMsg] *)
Definition FieldImmutableErrorMsg : string := "field is immutable".

(** [apivalidation.ValidateImmutableField]; [equal] is the outcome of
    [apiequality.Semantic.DeepEqual] on the two values. *)
Definition ValidateImmutableField (equal : bool) (newVal : Value) (fldPath : Path) : ErrorList :=
  if equal then [] else [Invalid fldPath newVal FieldImmutableErrorMsg].

(** [ValidateBackupDownloadSpec] *)
Definition ValidateBackupDownloadSpec (spec : BackupDownloadSpec) (fldPath : Path) : ErrorList :=
  let allErrs := [] in
  let allErrs :=
    if (String.length (dsType (bdDefaultSpec spec)) =? 0)%nat
    then allErrs ++ [Required (Child fldPath "type") "field is required"] else allErrs in
  let allErrs :=
    if (String.length (bdEntryName spec) =? 0)%nat
    then allErrs ++ [Required (Child fldPath "entryName") "field is required"] else allErrs in
  let allErrs :=
    if (String.length (bdFilePath spec) =? 0)%nat
    then allErrs ++ [Required (Child fldPath "filePath") "field is required"] else allErrs in
  allErrs.

Section WithDeep.
(** [deep.Equal] of go-test/deep: the differences it finds, or nil. *)
Variable deepEqual : BackupDownloadSpec -> BackupDownloadSpec -> option (list string).

(** [ValidateBackupDownloadSpecUpdate] *)
Definition ValidateBackupDownloadSpecUpdate (new old : BackupDownloadSpec)
    (deletionTimestampSet : bool) (fldPath : Path) : ErrorList :=
  if deletionTimestampSet && negb (bool_decide (new = old)) then
    match deepEqual new old with
    | Some diff => [Forbidden fldPath (String.concat "," diff)]
    | None => ValidateImmutableField (bool_decide (new = old)) (SpecValue new) fldPath
    end
  else
    ValidateImmutableField
      (String.eqb (dsType (bdDefaultSpec new)) (dsType (bdDefaultSpec old)))
      (StringValue (dsType (bdDefaultSpec new))) (Child fldPath "type")
    ++ ValidateImmutableField (String.eqb (bdEntryName new) (bdEntryName old))
         (StringValue (bdEntryName new)) (Child fldPath "entryName")
    ++ ValidateImmutableField (String.eqb (bdFilePath new) (bdFilePath old))
         (StringValue (bdFilePath new)) (Child fldPath "filePath").

End WithDeep.

(** [ValidateBackupDownloadStatus] *)
Definition ValidateBackupDownloadStatus (status : Status) (fldPath : Path) : ErrorList := [].

(** [ValidateBackupDownloadStatusUpdate] *)
Definition ValidateBackupDownloadStatusUpdate (newStatus oldStatus : Status) (fldPath : Path)
    : ErrorList :=
  ValidateImmutableField (bool_decide (statusData newStatus = statusData oldStatus))
    (BytesValue (statusData newStatus)) (Child fldPath "data").

Section WithObjectMeta.
(** [metav1.ObjectMeta] with its deletion timestamp, and
    [apivalidation.ValidateObjectMeta] (for a namespaced object whose name
    is a DNS subdomain) and [apivalidation.ValidateObjectMetaUpdate]. *)
Context {ObjectMeta : Type}.
Variable metaDeletionTimestamp : ObjectMeta -> option GoTime.Time.
Variable ValidateObjectMeta : ObjectMeta -> Path -> ErrorList.
Variable ValidateObjectMetaUpdate : ObjectMeta -> ObjectMeta -> Path -> ErrorList.
Variable deepEqual : BackupDownloadSpec -> BackupDownloadSpec -> option (list string).

(** [extensionsv1alpha1.BackupDownload] *)
Record BackupDownload : Type := {
  bdObjectMeta : ObjectMeta;
  bdSpec : BackupDownloadSpec;
  bdStatus : Status
}.

(** [ValidateBackupDownload] *)
Definition ValidateBackupDownload (be : BackupDownload) : ErrorList :=
  let allErrs := [] in
  let allErrs := allErrs ++ ValidateObjectMeta (bdObjectMeta be) (NewPath "metadata") in
  let allErrs := allErrs ++ ValidateBackupDownloadSpec (bdSpec be) (NewPath "spec") in
  allErrs.

(** [ValidateBackupDownloadUpdate] *)
Definition ValidateBackupDownloadUpdate (new old : BackupDownload) : ErrorList :=
  let allErrs := [] in
  let allErrs :=
    allErrs ++ ValidateObjectMetaUpdate (bdObjectMeta new) (bdObjectMeta old) (NewPath "metadata") in
  let allErrs :=
    allErrs ++ ValidateBackupDownloadSpecUpdate deepEqual (bdSpec new) (bdSpec old)
                 (bool_decide (metaDeletionTimestamp (bdObjectMeta new) <> None))
                 (NewPath "spec") in
  let allErrs := allErrs ++ ValidateBackupDownload new in
  allErrs.

End WithObjectMeta.

End Validation.

(** ** pkg/provider-local: the actuators of the backup relay objects *)

Module ProviderLocal.
Import Errors API.

(** [strings.TrimPrefix]: [s] without the leading [prefix], or [s] itself
    when it does not start with [prefix]. *)
Fixpoint stripPrefix (s prefix : string) {struct prefix} : option string :=
  match prefix, s with
  | EmptyString, _ => Some s
  | String a prefix', String b s' => if Ascii.eqb a b then stripPrefix s' prefix' else None
  | String _ _, EmptyString => None
  end.

Definition TrimPrefix (s prefix : string) : string :=
  match stripPrefix s prefix with
  | Some rest => rest
  | None => s
  end.

(** An [extensionsv1alpha1.BackupEntry], by its name and [Spec.BucketName]. *)
Record BackupEntry : Type := {
  beName : string;
  beBucketName : string
}.

(** The [actuator] of either package. *)
Record actuator : Type := {
  containerMountPath : string;
  backBucketPath : string
}.

Definition newActuator (containerMountPath backupBucketPath : string) : actuator :=
  {| containerMountPath := containerMountPath; backBucketPath := backupBucketPath |}.

Section WithSystem.
(** The world holds the API server and the file system. [Join] is
    [filepath.Join], [ReadFile] and [WriteFile] are those of package [os],
    [GetBackupEntry] is [client.Get] into a BackupEntry (namespace, then
    name), and [BackupSourcePrefix] is the constant of that name. *)
Context {W : Type}.
Variable Join : list string -> string.
Variable ReadFile : string -> W -> (error + bytes) * W.
Variable WriteFile : string -> bytes -> W -> option error * W.
Variable GetBackupEntry : string -> string -> W -> (error + BackupEntry) * W.
Variable BackupSourcePrefix : string.

(** [actuator.Reconcile] of package backupdownload: the content of the file. *)
Definition downloadReconcile (a : actuator) (bd : Object) (be : BackupEntry) (w : W)
    : (error + bytes) * W :=
  let path :=
    Join [backBucketPath a; beBucketName be;
          TrimPrefix (beName be) (BackupSourcePrefix +:+ "-");
          specFilePath (ObjSpec bd)] in
  match ReadFile path w with
  | (inl err, w1) => (inl err, w1)
  | (inr file, w1) => (inr file, w1)
  end.

(** [actuator.Reconcile] of package backupupload. *)
Definition uploadReconcile (a : actuator) (bu : Object) (w : W) : option error * W :=
  match GetBackupEntry (Namespace bu) (specEntryName (ObjSpec bu)) w with
  | (inl err, w1) => (Some err, w1)
  | (inr be, w1) =>
      let path :=
        Join [backBucketPath a; beBucketName be; beName be; specFilePath (ObjSpec bu)] in
      WriteFile path (specData (ObjSpec bu)) w1
  end.

(** [actuator.Delete] of package backupupload. *)
Definition uploadDelete (a : actuator) (bu : Object) (w : W) : option error * W := (None, w).

End WithSystem.
End ProviderLocal.

(** ** More worlds for the examples *)

Module Scenarios.
Import GoTime Errors API Client Extensions Botanist Fake ProviderLocal Validation.

(** An API server that cannot be reached for reading. *)
Definition serverTimeout : error :=
  StatusError StatusReasonInternalError "etcdserver: request timed out".

Definition unreachableClient : Client World :=
  {| Get := fun _ _ _ w => (inl serverTimeout, w);
     Create := fakeCreate; Patch := fakePatch;
     StatusPatch := fakeStatusPatch; Delete := fakeDelete;
     List := fakeList; ListSecrets := fakeListSecrets;
     GetObjectByRef := fakeGetObjectByRef;
     CreateOrUpdateObjectByRef := fakeCreateOrUpdateObjectByRef;
     Now := clock; Sleep := fakeSleep |}.

(** The worlds in which [o] stays absent and no one else writes. *)
Definition quiescentWithout (o : Object) (w : World) : Prop :=
  objects w !! keyOf o = None /\ agenda w = [].

(** A relay object left over from an earlier download: its last operation
    succeeded, and its timestamp annotation is an old one. *)
Definition staleDownload : Object :=
  withLastOperation
    (withAnnotations (namedObject BackupDownloadResource "shoot--foo--bar" "shootstate")
       {[ GardenerTimestamp := "2001-02-03T04:05:06Z" ]})
    LastOperationTypeReconcile LastOperationStateSucceeded.

(** What the BackupUpload controller does when it reconciles the relay
    object: it records the success of the operation. *)
Definition uploadController (os : gmap ObjectKey Object) : gmap ObjectKey Object :=
  alter (fun o => withLastOperation o LastOperationTypeReconcile LastOperationStateSucceeded)
    (BackupUploadResource, "shoot--foo--bar", "shootstate") os.

(** An empty server on which the upload controller takes one turn. *)
Definition uploadWorld : World :=
  {| objects := ∅; secrets := []; referenced := ∅; clock := someTime;
     agenda := [uploadController] |}.

(** A download controller that records success without any data, and an
    empty server on which it takes one turn. *)
Definition idleController (os : gmap ObjectKey Object) : gmap ObjectKey Object :=
  alter (fun o => withLastOperation o LastOperationTypeReconcile LastOperationStateSucceeded)
    (BackupDownloadResource, "shoot--foo--bar", "shootstate") os.

Definition idleWorld : World :=
  {| objects := ∅; secrets := []; referenced := ∅; clock := someTime;
     agenda := [idleController] |}.

(** An encoder that writes every ShootState as the empty JSON object, and
    one for the data of a secret. *)
Definition encodeAny (s : ShootStateSpec) : error + bytes := inr (list_byte_of_string "{}").
Definition encodeData (d : gmap string bytes) : error + bytes := inr (list_byte_of_string "{}").

(** A server with two secrets of the same name. *)
Definition someSecret (labels : gmap string string) : Secret :=
  {| secretName := "ca"; secretLabels := labels; secretData := ∅ |}.

Definition secretsWorld : World :=
  {| objects := ∅;
     secrets := [("shoot--foo--bar", someSecret ∅);
                 ("shoot--foo--bar", someSecret {[ "persist" := "true" ]})];
     referenced := ∅; clock := someTime; agenda := [] |}.

(** A file system: the files by path; [filepath.Join] on clean relative
    names; a server that knows every BackupEntry, in bucket [bucket]. *)
Abbreviation Files := (gmap string bytes).

Definition joinPath (elems : list string) : string := String.concat "/" elems.

Definition readFile (path : string) (fs : Files) : (error + bytes) * Files :=
  match fs !! path with
  | Some data => (inr data, fs)
  | None => (inl (PlainError ("open " +:+ path +:+ ": no such file or directory")), fs)
  end.

Definition writeFile (path : string) (data : bytes) (fs : Files) : option error * Files :=
  (None, <[path := data]> fs).

Definition getBackupEntry (namespace name : string) (fs : Files)
    : (error + BackupEntry) * Files :=
  (inr {| beName := name; beBucketName := "bucket" |}, fs).

Definition localActuator : actuator := newActuator "/etc/gardener/local-backupbuckets" "dev".

Definition someUpload : Object :=
  withSpec (namedObject BackupUploadResource "shoot--foo--bar" "shootstate")
    {| specType := "local"; specPurpose := None;
       specEntryName := "shoot--foo--bar--uid"; specFilePath := "shootstate";
       specData := list_byte_of_string "sealed" |}.

Definition someDownload : Object :=
  withSpec (namedObject BackupDownloadResource "shoot--foo--bar" "shootstate")
    {| specType := "local"; specPurpose := None;
       specEntryName := "source-shoot--foo--bar--uid"; specFilePath := "shootstate";
       specData := [] |}.

(** A server on which worker [w1] is created, in state Succeeded, during
    the third wait; and one on which it is removed during the second. *)
Definition lateWorld : World :=
  {| objects := ∅; secrets := []; referenced := ∅; clock := someTime;
     agenda := [id; id; fun os => <[keyOf readyWorker := readyWorker]> os] |}.

Definition removalWorld : World :=
  {| objects := {[ keyOf (worker "w1") := worker "w1" ]};
     secrets := []; referenced := ∅; clock := someTime;
     agenda := [id; fun os => delete (keyOf (worker "w1")) os] |}.

(** The live worker of [snapshotWorld]. *)
Definition liveWorker : Object :=
  withStatus (worker "w1")
    {| LastOperation_ := None; LastError_ := None; ObservedGeneration := 0;
       State := Some (list_byte_of_string "{}");
       Resources := [ {| nrName := "config"; ResourceRef := otherRef |} ];
       statusData := [] |}.

End Scenarios.

(* ===================================================================== *)
(** * Part II: lemmas and theorems *)
(* ===================================================================== *)

Module CryptoFacts.
Import GoCrypto BotanistCrypto.

Lemma xorBits_involutive a k : xorBits (xorBits a k) k = a.
Proof.
    destruct a as (a0 & a1 & a2 & a3 & a4 & a5 & a6 & a7).
    destruct k as (k0 & k1 & k2 & k3 & k4 & k5 & k6 & k7).
    cbn. by rewrite !xorb_assoc, !xorb_nilpotent, !xorb_false_r.
Qed.

Lemma xorByte_involutive a k : xorByte (xorByte a k) k = a.
Proof.
    unfold xorByte. rewrite Byte.to_bits_of_bits, xorBits_involutive.
    apply Byte.of_bits_to_bits.
Qed.

Section WithAES.
Variable aes : bytes -> bytes -> bytes.

Lemma xorKeyStreamByte_mirror x s :
      decrypting x = false ->
      let '(d, x') := xorKeyStreamByte aes x s in
      xorKeyStreamByte aes (mirror x) d = (s, mirror x') /\ decrypting x' = false.
Proof.
      intros Hd. unfold xorKeyStreamByte, mirror. cbn.
      destruct (outUsed x =? BlockSize)%nat; cbn; rewrite Hd; cbn;
        by rewrite xorByte_involutive.
Qed.

Lemma XORKeyStream_mirror src : forall x,
      decrypting x = false ->
      fst (XORKeyStream aes (mirror x) (fst (XORKeyStream aes x src))) = src.
Proof.
      induction src as [|s rest IH]; intros x Hd; [done|].
      cbn [XORKeyStream].
      pose proof (xorKeyStreamByte_mirror x s Hd) as Hs.
      destruct (xorKeyStreamByte aes x s) as [d x'] eqn:E.
      destruct Hs as [Hs Hd'].
      specialize (IH x' Hd').
      destruct (XORKeyStream aes x' rest) as [ds x''] eqn:E'.
      cbn [fst XORKeyStream]. rewrite Hs.
      cbn [fst] in IH.
      destruct (XORKeyStream aes (mirror x') ds) as [ps y] eqn:E''.
      cbn [fst] in *. by rewrite IH.
Qed.

Lemma XORKeyStream_length src : forall x,
      length (fst (XORKeyStream aes x src)) = length src.
Proof.
      induction src as [|s rest IH]; intros x; [done|].
      cbn [XORKeyStream].
      destruct (xorKeyStreamByte aes x s) as [d x'].
      specialize (IH x').
      destruct (XORKeyStream aes x' rest) as [ds x'']. cbn in *. by rewrite IH.
Qed.

Lemma NewCipher_cipherKey : NewCipher cipherKey = inr {| blockKey := cipherKey |}.
Proof. reflexivity. Qed.

(** C10: with the fixed 32-byte key, [encrypt] puts the 16 bytes read
        from the random source in front of the data, so that its output is
        16 bytes longer than its input, [decrypt] gives the data back, and
        [decrypt] fails exactly on inputs shorter than 16 bytes. *)
Theorem decrypt_encrypt_roundtrip (d randReader : bytes) :
      (16 <= length randReader)%nat ->
      (exists c,
          encrypt aes cipherKey d randReader = inr c
          /\ length c = (16 + length d)%nat
          /\ firstn 16 c = firstn 16 randReader
          /\ decrypt aes cipherKey c = inr d)
      /\ (forall x, isErr (decrypt aes cipherKey x) = true <-> (length x < 16)%nat).
Proof.
      intros Hr. split.
      - unfold encrypt. rewrite NewCipher_cipherKey. unfold ReadFull.
        assert (length (firstn BlockSize randReader) = 16%nat) as Hiv
          by (rewrite length_firstn; unfold BlockSize; lia).
        destruct (Nat.ltb_spec (length randReader) BlockSize) as [Hlt|_];
          [unfold BlockSize in Hlt; lia|].
        eexists; split; [reflexivity|].
        split; [|split].
        + rewrite length_app, XORKeyStream_length. lia.
        + rewrite firstn_app, Hiv, Nat.sub_diag. cbn [firstn].
          rewrite app_nil_r. fold BlockSize. by rewrite firstn_firstn, Nat.min_id.
        + unfold decrypt. rewrite NewCipher_cipherKey.
          rewrite length_app, Hiv.
          destruct (Nat.ltb_spec (16 + length (fst (XORKeyStream aes
            (NewCFBEncrypter {| blockKey := cipherKey |} (firstn BlockSize randReader)) d))) BlockSize)
            as [Hlt|_]; [unfold BlockSize in Hlt; lia|].
          f_equal.
          assert (Hsk : forall (A : Type) (l k : list A) n, length l = n -> skipn n (l ++ k) = k).
          { intros A l k n <-. by rewrite skipn_app, skipn_all, Nat.sub_diag. }
          assert (Hfi : forall (A : Type) (l k : list A) n, length l = n -> firstn n (l ++ k) = l).
          { intros A l k n <-. by rewrite firstn_app, firstn_all, Nat.sub_diag, app_nil_r. }
          rewrite (Hsk _ _ _ BlockSize Hiv), (Hfi _ _ _ BlockSize Hiv).
          apply (XORKeyStream_mirror d
                   (NewCFBEncrypter {| blockKey := cipherKey |} (firstn BlockSize randReader))).
          reflexivity.
      - intros x. unfold decrypt. rewrite NewCipher_cipherKey.
        destruct (Nat.ltb_spec (length x) BlockSize) as [Hlt|Hge]; cbn;
          unfold BlockSize in *; split; intros; try done; lia.
Qed.

End WithAES.

(** The round trip at a three-byte message with the toy block function. *)
Lemma decrypt_encrypt_roundtrip_witness :
    (16 <= length (repeat "a"%byte 20))%nat
    /\ ((exists c,
          encrypt toyBlock cipherKey (list_byte_of_string "abc") (repeat "a"%byte 20) = inr c
          /\ length c = (16 + length (list_byte_of_string "abc"))%nat
          /\ firstn 16 c = firstn 16 (repeat "a"%byte 20)
          /\ decrypt toyBlock cipherKey c = inr (list_byte_of_string "abc"))
      /\ (forall x, isErr (decrypt toyBlock cipherKey x) = true <-> (length x < 16)%nat)).
Proof.
    split; [cbn; lia|].
    apply (decrypt_encrypt_roundtrip toyBlock (list_byte_of_string "abc") (repeat "a"%byte 20)).
    cbn; lia.
Defined.

End CryptoFacts.
(** ** The retry loop *)

Module RetryFacts.
Import Errors Client Retry.

Section WithClient.
Context {W : Type} (c : Client W).
Context {S : Type} (interval timeout : Z) (f : S -> W -> Attempt * S * W).

Lemma untilLoop_done more k lastMinor s w err s' w' :
  f s w = ((true, err), s', w') ->
  untilLoop c interval timeout f more k lastMinor s w
  = ({| result := err; polls := Datatypes.S k;
        elapsed := Z.of_nat k * interval; st := s' |}, w').
Proof. intros Hf. destruct more; cbn; by rewrite Hf. Qed.

Lemma untilLoop_retry more k lastMinor s w err s' w' :
  f s w = ((false, err), s', w') ->
  untilLoop c interval timeout f (Datatypes.S more) k lastMinor s w
  = untilLoop c interval timeout f more (Datatypes.S k)
      (match err with Some _ => err | None => lastMinor end) s' (Sleep c interval w').
Proof. intros Hf. cbn. by rewrite Hf. Qed.

Lemma untilLoop_expired k lastMinor s w err s' w' :
  f s w = ((false, err), s', w') ->
  untilLoop c interval timeout f 0 k lastMinor s w
  = ({| result := Some (RetryError DeadlineExceeded
                          (match err with Some _ => err | None => lastMinor end));
        polls := Datatypes.S k;
        elapsed := Z.max timeout (Z.of_nat k * interval);
        st := s' |},
     Sleep c (timeout - Z.of_nat k * interval) w').
Proof. intros Hf. cbn. by rewrite Hf. Qed.

(** A wait that ends without error ends on an attempt that reported
    success; whatever holds of the state after every such attempt holds of
    the state the wait ends in. *)
Lemma untilLoop_success (P : S -> Prop) :
  (forall s w s' w', f s w = ((true, None), s', w') -> P s') ->
  forall more k lastMinor s w,
    result (fst (untilLoop c interval timeout f more k lastMinor s w)) = None ->
    P (st (fst (untilLoop c interval timeout f more k lastMinor s w))).
Proof.
  intros HP. induction more as [|more IH]; intros k lastMinor s w;
    destruct (f s w) as [[[[] err] s'] w'] eqn:Hf.
  - rewrite (untilLoop_done _ _ _ _ _ _ _ _ Hf). cbn. intros ->. eauto.
  - rewrite (untilLoop_expired _ _ _ _ _ _ _ Hf). cbn. done.
  - rewrite (untilLoop_done _ _ _ _ _ _ _ _ Hf). cbn. intros ->. eauto.
  - rewrite (untilLoop_retry _ _ _ _ _ _ _ _ Hf). apply IH.
Qed.

(** The number of attempts never exceeds what the deadline leaves room
    for. *)
Lemma untilLoop_polls more k lastMinor s w :
  (polls (fst (untilLoop c interval timeout f more k lastMinor s w)) <= Datatypes.S (k + more))%nat.
Proof.
  revert k lastMinor s w. induction more as [|more IH]; intros k lastMinor s w;
    destruct (f s w) as [[[[] err] s'] w'] eqn:Hf.
  - rewrite (untilLoop_done _ _ _ _ _ _ _ _ Hf). cbn. lia.
  - rewrite (untilLoop_expired _ _ _ _ _ _ _ Hf). cbn. lia.
  - rewrite (untilLoop_done _ _ _ _ _ _ _ _ Hf). cbn. lia.
  - rewrite (untilLoop_retry _ _ _ _ _ _ _ _ Hf).
    specialize (IH (Datatypes.S k) (match err with Some _ => err | None => lastMinor end)
                  s' (Sleep c interval w')). lia.
Qed.

(** The attempts listed by [untilStarts] are the attempts the loop makes. *)
Lemma untilStarts_length more k lastMinor s w :
  (Datatypes.length (untilStarts c interval f more s w) + k
   = polls (fst (untilLoop c interval timeout f more k lastMinor s w)))%nat.
Proof.
  revert k lastMinor s w. induction more as [|more IH]; intros k lastMinor s w;
    cbn [untilStarts]; destruct (f s w) as [[[[] err] s'] w'] eqn:Hf.
  - rewrite (untilLoop_done _ _ _ _ _ _ _ _ Hf). cbn. lia.
  - rewrite (untilLoop_expired _ _ _ _ _ _ _ Hf). cbn. lia.
  - rewrite (untilLoop_done _ _ _ _ _ _ _ _ Hf). cbn. lia.
  - rewrite (untilLoop_retry _ _ _ _ _ _ _ _ Hf).
    cbn [Datatypes.length]. rewrite <- IH. lia.
Qed.

(** A wait that ends without error ends with its last attempt reporting
    success. *)
Lemma untilLoop_success_last more k lastMinor s w :
  result (fst (untilLoop c interval timeout f more k lastMinor s w)) = None ->
  exists s0 w0 w1,
    last (untilStarts c interval f more s w) = Some (s0, w0)
    /\ f s0 w0 = ((true, None),
                  st (fst (untilLoop c interval timeout f more k lastMinor s w)), w1).
Proof.
  revert k lastMinor s w. induction more as [|more IH]; intros k lastMinor s w;
    cbn [untilStarts]; destruct (f s w) as [[[[] err] s'] w'] eqn:Hf.
  - rewrite (untilLoop_done _ _ _ _ _ _ _ _ Hf). cbn. intros ->. eauto.
  - rewrite (untilLoop_expired _ _ _ _ _ _ _ Hf). cbn. done.
  - rewrite (untilLoop_done _ _ _ _ _ _ _ _ Hf). cbn. intros ->. eauto.
  - rewrite (untilLoop_retry _ _ _ _ _ _ _ _ Hf). intros Hr.
    destruct (IH _ _ _ _ Hr) as (s0 & w0 & w1 & Hl & Hf0).
    exists s0, w0, w1. split; [|done].
    rewrite last_cons, Hl. done.
Qed.

(** A variable [cur] of the retried function that every attempt sets to
    what it observes ([obs]), and leaves alone when it observes nothing,
    holds the last observation when the wait ends. *)
Lemma untilLoop_last_observed (obs : S * W -> option error) (cur : S -> option error) :
  (forall s w, cur (snd (fst (f s w)))
               = match obs (s, w) with Some e => Some e | None => cur s end) ->
  forall more k lastMinor s w,
    cur (st (fst (untilLoop c interval timeout f more k lastMinor s w)))
    = match last (omap obs (untilStarts c interval f more s w)) with
      | Some e => Some e
      | None => cur s
      end.
Proof.
  intros Hstep. induction more as [|more IH]; intros k lastMinor s w;
    cbn [untilStarts]; pose proof (Hstep s w) as Hs;
    destruct (f s w) as [[[[] err] s'] w'] eqn:Hf; cbn [fst snd] in Hs.
  - rewrite (untilLoop_done _ _ _ _ _ _ _ _ Hf). cbn.
    rewrite Hs. by destruct (obs (s, w)).
  - rewrite (untilLoop_expired _ _ _ _ _ _ _ Hf). cbn.
    rewrite Hs. by destruct (obs (s, w)).
  - rewrite (untilLoop_done _ _ _ _ _ _ _ _ Hf). cbn.
    rewrite Hs. by destruct (obs (s, w)).
  - rewrite (untilLoop_retry _ _ _ _ _ _ _ _ Hf). rewrite IH.
    cbn [omap list_omap]. rewrite Hs.
    destruct (obs (s, w)) as [e|]; [|done].
    rewrite last_cons.
    by destruct (last (omap obs (untilStarts c interval f more s' (Sleep c interval w')))).
Qed.

End WithClient.
End RetryFacts.

(** ** Waiting for readiness *)

Module ReadyFacts.
Import Errors API Client Retry Health Extensions RetryFacts.

Lemma And_app fs gs o :
  And (fs ++ gs) o = match And fs o with Some e => Some e | None => And gs o end.
Proof. induction fs as [|fn fs IH]; cbn; [done|]. destruct (fn o); [done|apply IH]. Qed.

Lemma ObjectHasAnnotationWithValue_ok key value o :
  ObjectHasAnnotationWithValue key value o = None <-> Annotations o !! key = Some value.
Proof.
  unfold ObjectHasAnnotationWithValue.
  destruct (Annotations o !! key) as [actual|]; [|split; done].
  destruct (String.eqb_spec actual value) as [->|Hne]; split; try done.
  intros [= ->]. done.
Qed.

Lemma CheckExtensionObject_ok o :
  CheckExtensionObject o = None
  <-> exists lastOperation, LastOperation_ (ObjStatus o) = Some lastOperation
                            /\ loState lastOperation = LastOperationStateSucceeded.
Proof.
  unfold CheckExtensionObject.
  destruct (LastOperation_ (ObjStatus o)) as [lo|].
  - destruct (String.eqb_spec (loState lo) LastOperationStateSucceeded) as [He|Hne]; split.
    + eauto.
    + done.
    + by destruct (LastError_ (ObjStatus o)).
    + intros (lo' & [= <-] & Hs). done.
  - split; [by destruct (LastError_ (ObjStatus o))|]. intros (lo' & [=] & _).
Qed.

(** The health function [WaitUntilExtensionObjectReady] waits on. *)
Lemma extensionHealth_ok obj o :
  And (match Annotations obj !! GardenerTimestamp with
       | Some expectedTimestamp =>
           [ObjectHasAnnotationWithValue GardenerTimestamp expectedTimestamp]
       | None => []
       end ++ [CheckExtensionObject]) o = None
  <-> (exists lastOperation, LastOperation_ (ObjStatus o) = Some lastOperation
                             /\ loState lastOperation = LastOperationStateSucceeded)
      /\ (forall ts, Annotations obj !! GardenerTimestamp = Some ts ->
                     Annotations o !! GardenerTimestamp = Some ts).
Proof.
  rewrite And_app, <- CheckExtensionObject_ok.
  destruct (Annotations obj !! GardenerTimestamp) as [ts|]; cbn.
  - destruct (ObjectHasAnnotationWithValue GardenerTimestamp ts o) eqn:Hts.
    + split; [done|]. intros [_ H]. specialize (H ts eq_refl).
      apply ObjectHasAnnotationWithValue_ok in H. congruence.
    + apply ObjectHasAnnotationWithValue_ok in Hts.
      destruct (CheckExtensionObject o); split; try done.
      * by intros [? _].
      * intros _. split; [done|]. by intros ? [= <-].
  - destruct (CheckExtensionObject o); split; try done. by intros [? _].
Qed.

Section WithClient.
Context {W : Type} (c : Client W).

(** An attempt reports success only on an object it has just read and that
    passes the health function. *)
Lemma readyAttempt_Ok healthFunc emptyObj name namespace interval severeThreshold post s w s' w' :
  readyAttempt c healthFunc emptyObj name namespace interval severeThreshold post s w
  = ((true, None), s', w') ->
  exists w1, Get c (GoType emptyObj) namespace name w = (inr (readyObj s'), w1)
             /\ healthFunc (readyObj s') = None.
Proof.
  unfold readyAttempt, MinorOrSevereError, MinorError, SevereError, Ok.
  destruct (Get c (GoType emptyObj) namespace name w) as [[err|o] w1].
  - destruct (IsNotFound err); intros HH; simplify_eq.
  - destruct (healthFunc o) as [err|] eqn:Hh.
    + destruct (AsErrorWithCodes err); [|intros ?; simplify_eq].
      destruct (_ <? _); intros ?; simplify_eq.
    + destruct post as [p|].
      * destruct (p w1) as [[err|] w2]; intros ?; simplify_eq. cbn. eauto.
      * intros ?; simplify_eq. cbn. eauto.
Qed.

Lemma waitErr_ready healthFunc obj kind interval severeThreshold timeout post w :
  waitErr (fst (WaitUntilObjectReadyWithHealthFunction c healthFunc obj kind
                  interval severeThreshold timeout post w)) = None
  <-> result (fst (UntilTimeout c interval timeout
        (readyAttempt c healthFunc (createResetObjectFunc obj) (Name obj) (Namespace obj)
           interval severeThreshold post)
        {| lastObservedError := None; retryCountUntilSevere := 0; readyObj := obj |} w)) = None.
Proof.
  unfold WaitUntilObjectReadyWithHealthFunction.
  destruct (UntilTimeout _ _ _ _ _ _) as [o w']. cbn [fst].
  destruct (result o) as [err|]; [|done].
  by destruct (lastObservedError (st o)).
Qed.

Lemma waitObj_ready healthFunc obj kind interval severeThreshold timeout post w :
  waitObj (fst (WaitUntilObjectReadyWithHealthFunction c healthFunc obj kind
                  interval severeThreshold timeout post w))
  = readyObj (st (fst (UntilTimeout c interval timeout
        (readyAttempt c healthFunc (createResetObjectFunc obj) (Name obj) (Namespace obj)
           interval severeThreshold post)
        {| lastObservedError := None; retryCountUntilSevere := 0; readyObj := obj |} w))).
Proof.
  unfold WaitUntilObjectReadyWithHealthFunction.
  destruct (UntilTimeout _ _ _ _ _ _) as [o w']. cbn [fst].
  destruct (result o) as [err|]; [|done].
  by destruct (lastObservedError (st o)).
Qed.

Lemma waitPolls_ready healthFunc obj kind interval severeThreshold timeout post w :
  waitPolls (fst (WaitUntilObjectReadyWithHealthFunction c healthFunc obj kind
                  interval severeThreshold timeout post w))
  = polls (fst (UntilTimeout c interval timeout
        (readyAttempt c healthFunc (createResetObjectFunc obj) (Name obj) (Namespace obj)
           interval severeThreshold post)
        {| lastObservedError := None; retryCountUntilSevere := 0; readyObj := obj |} w)).
Proof.
  unfold WaitUntilObjectReadyWithHealthFunction.
  destruct (UntilTimeout _ _ _ _ _ _) as [o w']. cbn [fst].
  destruct (result o) as [err|]; [|done].
  by destruct (lastObservedError (st o)).
Qed.

Lemma waitElapsed_ready healthFunc obj kind interval severeThreshold timeout post w :
  waitElapsed (fst (WaitUntilObjectReadyWithHealthFunction c healthFunc obj kind
                  interval severeThreshold timeout post w))
  = elapsed (fst (UntilTimeout c interval timeout
        (readyAttempt c healthFunc (createResetObjectFunc obj) (Name obj) (Namespace obj)
           interval severeThreshold post)
        {| lastObservedError := None; retryCountUntilSevere := 0; readyObj := obj |} w)).
Proof.
  unfold WaitUntilObjectReadyWithHealthFunction.
  destruct (UntilTimeout _ _ _ _ _ _) as [o w']. cbn [fst].
  destruct (result o) as [err|]; [|done].
  by destruct (lastObservedError (st o)).
Qed.

(** C1: when the first [Get] of the wait returns an object whose last
    operation has state Succeeded and whose timestamp annotation is the
    expected one (if the caller's object carries one), the wait returns nil
    at that first attempt, before one interval has passed; and whenever the
    wait returns nil, the answer to its last [Get] is an object in state
    Succeeded that carries the expected timestamp, and it is the object the
    caller is left with. *)
Theorem WaitUntilExtensionObjectReady_nil obj kind interval severeThreshold timeout post w :
  0 < interval ->
  let r := fst (WaitUntilExtensionObjectReady c obj kind interval severeThreshold timeout post w) in
  let ready o :=
    (exists lastOperation, LastOperation_ (ObjStatus o) = Some lastOperation
                           /\ loState lastOperation = LastOperationStateSucceeded)
    /\ (forall ts, Annotations obj !! GardenerTimestamp = Some ts ->
                   Annotations o !! GardenerTimestamp = Some ts) in
  (forall o w1,
      Get c (GoType obj) (Namespace obj) (Name obj) w = (inr o, w1) ->
      ready o ->
      (forall p, post = Some p -> fst (p w1) = None) ->
      waitErr r = None /\ waitPolls r = 1%nat /\ waitObj r = o
      /\ 0 <= waitElapsed r < interval)
  /\ (waitErr r = None ->
      exists answer,
        last (observedAnswers c obj
                (readyStarts c (And (match Annotations obj !! GardenerTimestamp with
                                     | Some expectedTimestamp =>
                                         [ObjectHasAnnotationWithValue GardenerTimestamp expectedTimestamp]
                                     | None => []
                                     end ++ [CheckExtensionObject]))
                   obj interval severeThreshold timeout post w))
        = Some (inr answer)
        /\ ready answer /\ waitObj r = answer).
Proof.
  intros Hi r ready. split.
  - intros o w1 HGet Hready Hpost.
    apply extensionHealth_ok in Hready.
    assert (exists w2,
      readyAttempt c (And (match Annotations obj !! GardenerTimestamp with
                           | Some expectedTimestamp =>
                               [ObjectHasAnnotationWithValue GardenerTimestamp expectedTimestamp]
                           | None => []
                           end ++ [CheckExtensionObject]))
        (createResetObjectFunc obj) (Name obj) (Namespace obj) interval severeThreshold post
        {| lastObservedError := None; retryCountUntilSevere := 0; readyObj := obj |} w
      = (Ok, {| lastObservedError := None; retryCountUntilSevere := 1; readyObj := o |}, w2))
      as [w2 Hattempt].
    { unfold readyAttempt. cbn [createResetObjectFunc zeroObject GoType].
      rewrite HGet, Hready. cbn.
      destruct post as [p|]; [|eauto].
      specialize (Hpost p eq_refl). destruct (p w1) as [[e|] w2]; [done|eauto]. }
    subst r. unfold WaitUntilExtensionObjectReady, WaitUntilObjectReadyWithHealthFunction,
      UntilTimeout.
    rewrite (untilLoop_done c _ _ _ _ _ _ _ _ _ _ _ Hattempt). cbn.
    repeat split; try reflexivity; lia.
  - intros Hnil. subst r. unfold WaitUntilExtensionObjectReady in *.
    rewrite waitObj_ready. apply waitErr_ready in Hnil.
    unfold UntilTimeout in *.
    destruct (untilLoop_success_last c _ _ _ _ _ _ _ _ Hnil) as (s0 & w0 & w1 & Hlast & Hf).
    apply readyAttempt_Ok in Hf. destruct Hf as (w2 & HGet & Hhealth).
    eexists. split; [|split; [by apply extensionHealth_ok|reflexivity]].
    unfold observedAnswers, readyStarts, UntilTimeoutStarts.
    rewrite fmap_last, Hlast. cbn [createResetObjectFunc zeroObject GoType] in HGet.
    cbn. by rewrite HGet.
Qed.

(** The attempt on an object that fails the health function with a coded
    error: minor up to the threshold, severe beyond it. *)
Lemma readyAttempt_coded healthFunc emptyObj name namespace interval severeThreshold post s w o w1 e :
  Get c (GoType emptyObj) namespace name w = (inr o, w1) ->
  healthFunc o = Some e ->
  AsErrorWithCodes e = true ->
  readyAttempt c healthFunc emptyObj name namespace interval severeThreshold post s w
  = ((bool_decide (Z.quot severeThreshold interval < retryCountUntilSevere s + 1), Some e),
     {| lastObservedError := Some e;
        retryCountUntilSevere := retryCountUntilSevere s + 1; readyObj := o |}, w1).
Proof.
  intros HGet Hh Hc. unfold readyAttempt, MinorOrSevereError, MinorError, SevereError.
  rewrite HGet, Hh, Hc.
  destruct (Z.ltb_spec (Z.quot severeThreshold interval) (retryCountUntilSevere s + 1)).
  - by rewrite bool_decide_eq_true_2.
  - rewrite bool_decide_eq_false_2; [done|lia].
Qed.

Lemma readyAttempt_uncoded healthFunc emptyObj name namespace interval severeThreshold post s w o w1 e :
  Get c (GoType emptyObj) namespace name w = (inr o, w1) ->
  healthFunc o = Some e ->
  AsErrorWithCodes e = false ->
  readyAttempt c healthFunc emptyObj name namespace interval severeThreshold post s w
  = ((false, Some e),
     {| lastObservedError := Some e;
        retryCountUntilSevere := retryCountUntilSevere s + 1; readyObj := o |}, w1).
Proof.
  intros HGet Hh Hc. unfold readyAttempt, MinorError. by rewrite HGet, Hh, Hc.
Qed.

Section Persistent.
Variable healthFunc : Func.
Variable emptyObj : Object.
Variables name namespace : string.
Variables interval severeThreshold timeout : Z.
Variable post : option (W -> option error * W).
Variable Inv : W -> Prop.
Variable coded : bool.
Hypothesis Hfails : forall w0, Inv w0 ->
  exists o w1 e,
    Get c (GoType emptyObj) namespace name w0 = (inr o, w1)
    /\ healthFunc o = Some e /\ AsErrorWithCodes e = coded
    /\ Inv (Sleep c interval w1).

Let attempt := readyAttempt c healthFunc emptyObj name namespace interval severeThreshold post.

(** With a coded error at every attempt, the attempt whose count exceeds
    the threshold is the last one. *)
Lemma untilLoop_coded (d : nat) : forall k more lastMinor s w,
  coded = true ->
  Inv w ->
  retryCountUntilSevere s = Z.of_nat k ->
  Z.of_nat (k + d) = Z.quot severeThreshold interval ->
  (d <= more)%nat ->
  let o := fst (untilLoop c interval timeout attempt more k lastMinor s w) in
  result o <> None /\ polls o = Datatypes.S (k + d)
  /\ elapsed o = Z.of_nat (k + d) * interval.
Proof.
  induction d as [|d IH]; intros k more lastMinor s w Hc HInv Hcount Hthr Hmore;
    destruct (Hfails w HInv) as (ob & w1 & e & HGet & Hh & Hcoded & HInv');
    rewrite Hc in Hcoded;
    pose proof (readyAttempt_coded healthFunc emptyObj name namespace interval
                  severeThreshold post s w ob w1 e HGet Hh Hcoded) as Ha; fold attempt in Ha.
  - rewrite bool_decide_eq_true_2 in Ha by lia.
    rewrite (untilLoop_done c _ _ _ _ _ _ _ _ _ _ _ Ha). cbn.
    rewrite Nat.add_0_r. done.
  - rewrite bool_decide_eq_false_2 in Ha by lia.
    destruct more as [|more]; [lia|].
    rewrite (untilLoop_retry c _ _ _ _ _ _ _ _ _ _ _ Ha).
    replace (k + Datatypes.S d)%nat with (Datatypes.S k + d)%nat by lia.
    apply IH; try done; cbn [retryCountUntilSevere]; lia.
Qed.

(** With an uncoded error at every attempt, the wait lasts until the
    deadline. *)
Lemma untilLoop_uncoded (more : nat) : forall k lastMinor s w,
  coded = false ->
  Inv w ->
  let o := fst (untilLoop c interval timeout attempt more k lastMinor s w) in
  result o <> None /\ polls o = Datatypes.S (k + more)
  /\ elapsed o = Z.max timeout (Z.of_nat (k + more) * interval).
Proof.
  induction more as [|more IH]; intros k lastMinor s w Hc HInv;
    destruct (Hfails w HInv) as (ob & w1 & e & HGet & Hh & Hcoded & HInv');
    rewrite Hc in Hcoded;
    pose proof (readyAttempt_uncoded healthFunc emptyObj name namespace interval
                  severeThreshold post s w ob w1 e HGet Hh Hcoded) as Ha; fold attempt in Ha.
  - rewrite (untilLoop_expired c _ _ _ _ _ _ _ _ _ _ Ha). cbn.
    rewrite Nat.add_0_r. done.
  - rewrite (untilLoop_retry c _ _ _ _ _ _ _ _ _ _ _ Ha).
    replace (k + Datatypes.S more)%nat with (Datatypes.S k + more)%nat by lia.
    by apply IH.
Qed.

End Persistent.

(** C2: when every attempt finds the object and the health function fails
    on it with a coded error, the wait fails at the attempt whose count
    exceeds [severeThreshold / interval], which is made no later than
    [severeThreshold] after the call and before the timeout; when it fails
    every time with an error without codes, the wait fails when the timeout
    expires, and not before. *)
Theorem persistent_health_error_deadline healthFunc obj kind interval severeThreshold timeout
    post w (Inv : W -> Prop) :
  0 < interval -> 0 <= severeThreshold -> severeThreshold < timeout ->
  Inv w ->
  let r := fst (WaitUntilObjectReadyWithHealthFunction c healthFunc obj kind
                  interval severeThreshold timeout post w) in
  let failsEveryTime coded :=
    forall w0, Inv w0 ->
      exists o w1 e,
        Get c (GoType obj) (Namespace obj) (Name obj) w0 = (inr o, w1)
        /\ healthFunc o = Some e /\ AsErrorWithCodes e = coded
        /\ Inv (Sleep c interval w1) in
  (failsEveryTime true ->
     waitErr r <> None /\ waitElapsed r <= severeThreshold /\ waitElapsed r < timeout
     /\ waitPolls r = Datatypes.S (Z.to_nat (Z.quot severeThreshold interval)))
  /\ (failsEveryTime false ->
     waitErr r <> None /\ waitElapsed r = timeout
     /\ waitPolls r = Datatypes.S (Z.to_nat ((timeout - 1) / interval))).
Proof.
  intros Hi Hs Ht HInv r failsEveryTime.
  assert (Hq : Z.quot severeThreshold interval = severeThreshold / interval)
    by (apply Z.quot_div_nonneg; lia).
  assert (Hq0 : 0 <= severeThreshold / interval) by (apply Z.div_pos; lia).
  assert (Hqm : interval * (severeThreshold / interval) <= severeThreshold)
    by (apply Z.mul_div_le; lia).
  assert (Htm : interval * ((timeout - 1) / interval) <= timeout - 1)
    by (apply Z.mul_div_le; lia).
  assert (Ht0 : 0 <= (timeout - 1) / interval) by (apply Z.div_pos; lia).
  subst r. rewrite waitElapsed_ready, waitPolls_ready, waitErr_ready.
  unfold UntilTimeout. split; intros Hfails.
  - pose proof (untilLoop_coded healthFunc (createResetObjectFunc obj) (Name obj) (Namespace obj)
                  interval severeThreshold timeout post Inv true Hfails
                  (Z.to_nat (severeThreshold / interval)) 0
                  (Z.to_nat ((timeout - 1) / interval)) None
                  {| lastObservedError := None; retryCountUntilSevere := 0; readyObj := obj |}
                  w eq_refl HInv eq_refl) as H.
    cbn zeta in H. rewrite Hq.
    destruct H as (Hr & Hp & He).
    + rewrite Hq. cbn [Nat.add]. lia.
    + apply Z2Nat.inj_le; [lia|lia|].
      apply Z.div_le_lower_bound; lia.
    + rewrite Hp, He. cbn [Nat.add]. rewrite Z2Nat.id by lia.
      repeat split; try done; lia.
  - pose proof (untilLoop_uncoded healthFunc (createResetObjectFunc obj) (Name obj) (Namespace obj)
                  interval severeThreshold timeout post Inv false Hfails
                  (Z.to_nat ((timeout - 1) / interval)) 0 None
                  {| lastObservedError := None; retryCountUntilSevere := 0; readyObj := obj |}
                  w eq_refl HInv) as H.
    cbn zeta in H. destruct H as (Hr & Hp & He).
    rewrite Hp, He. cbn [Nat.add]. rewrite Z2Nat.id by lia.
    repeat split; try done; lia.
Qed.

End WithClient.
End ReadyFacts.


(** ** What a failed wait returns *)

Module WaitFacts.
Import Errors API Client Retry Health Extensions RetryFacts ReadyFacts.

Lemma prefix_refl s : String.prefix s s = true.
Proof. induction s as [|a s IH]; cbn; [done|]. by destruct (ascii_dec a a). Qed.

Lemma Contains_refl s : Contains s s = true.
Proof. destruct s as [|a s]; [done|]. cbn [Contains]. by rewrite prefix_refl. Qed.

Lemma Contains_append_r a s sub : Contains s sub = true -> Contains (a +:+ s) sub = true.
Proof.
  intros H. induction a as [|x a IH]; [done|].
  change (Contains (String x (a +:+ s)) sub = true).
  change (String.prefix sub (String x (a +:+ s)) || Contains (a +:+ s) sub = true).
  rewrite IH. apply orb_true_r.
Qed.

Lemma Contains_formatErrorMessage message description :
  Contains (formatErrorMessage message description) description = true.
Proof.
  unfold formatErrorMessage. repeat apply Contains_append_r. apply Contains_refl.
Qed.

Lemma omap_fmap {A B C : Type} (f : B -> option C) (g : A -> B) (l : list A) :
  omap f (g <$> l) = omap (fun x => f (g x)) l.
Proof. induction l as [|x l IH]; cbn; [done|]. rewrite IH. done. Qed.

Section WithClient.
Context {W : Type} (c : Client W).

Lemma readyAttempt_lastObservedError healthFunc emptyObj name namespace interval
    severeThreshold post s w :
  lastObservedError
    (snd (fst (readyAttempt c healthFunc emptyObj name namespace interval severeThreshold post s w)))
  = match healthError healthFunc (fst (Get c (GoType emptyObj) namespace name w)) with
    | Some e => Some e
    | None => lastObservedError s
    end.
Proof.
  unfold readyAttempt, MinorOrSevereError, MinorError, SevereError, Ok.
  destruct (Get c (GoType emptyObj) namespace name w) as [[err|o] w1]; cbn [fst healthError].
  - by destruct (IsNotFound err).
  - destruct (healthFunc o) as [e|].
    + destruct (AsErrorWithCodes e); [|done]. by destruct (_ <? _).
    + destruct post as [p|]; [|done]. by destruct (p w1) as [[e|] w2].
Qed.

Lemma deletedAttempt_lastObservedError emptyObj kind name namespace s w :
  deletedLastObservedError (snd (fst (deletedAttempt c emptyObj kind name namespace s w)))
  = match reportedError (fst (Get c (GoType emptyObj) namespace name w)) with
    | Some e => Some e
    | None => deletedLastObservedError s
    end.
Proof.
  unfold deletedAttempt, MinorError, SevereError, Ok.
  destruct (Get c (GoType emptyObj) namespace name w) as [[err|o] w1]; cbn [fst reportedError].
  - by destruct (IsNotFound err).
  - by destruct (LastError_ (ObjStatus o)).
Qed.

(** C7: when a readiness wait or a deletion wait fails and its attempts
    have observed a domain error (a health-check failure, or a populated
    [Status.LastError]), the error returned is a coded error whose message
    ends in the description of the last error observed and whose codes are
    the codes of that error. *)
Theorem failed_wait_retains_last_observed_error :
  (forall healthFunc obj kind interval severeThreshold timeout post w lastErr,
      let r := fst (WaitUntilObjectReadyWithHealthFunction c healthFunc obj kind
                      interval severeThreshold timeout post w) in
      waitErr r <> None ->
      last (omap (healthError healthFunc)
              (observedAnswers c obj
                 (readyStarts c healthFunc obj interval severeThreshold timeout post w)))
      = Some lastErr ->
      exists message,
        waitErr r = Some (ErrorWithCodes message (ExtractErrorCodes lastErr))
        /\ message = formatErrorMessage
                       ("Error while waiting for "
                        +:+ extensionKey kind (Namespace obj) (Name obj)
                        +:+ " to become ready") (Error lastErr)
        /\ Contains message (Error lastErr) = true)
  /\ (forall obj kind interval timeout w lastErr,
      let r := fst (WaitUntilExtensionObjectDeleted c obj kind interval timeout w) in
      waitErr r <> None ->
      last (omap reportedError
              (observedAnswers c obj (deletedStarts c obj kind interval timeout w)))
      = Some lastErr ->
      exists message,
        waitErr r = Some (ErrorWithCodes message (ExtractErrorCodes lastErr))
        /\ message = formatErrorMessage
                       ("Failed to delete " +:+ extensionKey kind (Namespace obj) (Name obj))
                       (Error lastErr)
        /\ Contains message (Error lastErr) = true).
Proof.
  split.
  - intros healthFunc obj kind interval severeThreshold timeout post w lastErr r Hfail Hlast.
    subst r. revert Hfail.
    unfold observedAnswers, readyStarts, UntilTimeoutStarts in Hlast.
    rewrite omap_fmap in Hlast.
    unfold WaitUntilObjectReadyWithHealthFunction, UntilTimeout.
    pose proof (untilLoop_last_observed c interval timeout
      (readyAttempt c healthFunc (createResetObjectFunc obj) (Name obj) (Namespace obj)
         interval severeThreshold post)
      (fun sw => healthError healthFunc
                   (fst (Get c (GoType obj) (Namespace obj) (Name obj) (snd sw))))
      lastObservedError
      (fun s w => readyAttempt_lastObservedError healthFunc (createResetObjectFunc obj)
                    (Name obj) (Namespace obj) interval severeThreshold post s w)
      (Z.to_nat ((timeout - 1) / interval)) 0%nat None
      {| lastObservedError := None; retryCountUntilSevere := 0; readyObj := obj |} w) as Hobs.
    rewrite Hlast in Hobs.
    destruct (untilLoop _ _ _ _ _ _ _ _ _) as [o w']. cbn [fst] in *.
    destruct (result o) as [err|]; [|done].
    rewrite Hobs. cbn. intros _. eexists. split; [reflexivity|]. split; [reflexivity|].
    apply Contains_formatErrorMessage.
  - intros obj kind interval timeout w lastErr r Hfail Hlast.
    subst r. revert Hfail.
    unfold observedAnswers, deletedStarts, UntilTimeoutStarts in Hlast.
    rewrite omap_fmap in Hlast.
    unfold WaitUntilExtensionObjectDeleted, UntilTimeout.
    pose proof (untilLoop_last_observed c interval timeout
      (deletedAttempt c (createResetObjectFunc obj) kind (Name obj) (Namespace obj))
      (fun sw => reportedError (fst (Get c (GoType obj) (Namespace obj) (Name obj) (snd sw))))
      deletedLastObservedError
      (fun s w => deletedAttempt_lastObservedError (createResetObjectFunc obj) kind
                    (Name obj) (Namespace obj) s w)
      (Z.to_nat ((timeout - 1) / interval)) 0%nat None
      {| deletedLastObservedError := None; deletedObj := obj |} w) as Hobs.
    rewrite Hlast in Hobs.
    destruct (untilLoop _ _ _ _ _ _ _ _ _) as [o w']. cbn [fst] in *.
    destruct (result o) as [err|]; [|done].
    rewrite Hobs. cbn. intros _. eexists. split; [reflexivity|]. split; [reflexivity|].
    apply Contains_formatErrorMessage.
Qed.

End WithClient.
End WaitFacts.

(** ** Deleting, and waiting for deletion and migration *)

Module CleanupFacts.
Import Errors API Client Retry Health Extensions RetryFacts Fake.

Section WithClient.
Context {W : Type} (c : Client W).

Lemma DeleteExtensionObject_patch_notfound obj w e w1 :
  Patch c (confirmed c obj w) obj w = (Some e, w1) ->
  IsNotFound e = true ->
  DeleteExtensionObject c obj w = (None, w1).
Proof.
  unfold DeleteExtensionObject, ConfirmDeletion. intros -> Hnf. by rewrite Hnf.
Qed.

Lemma DeleteExtensionObject_delete_notfound obj w w1 e w2 :
  Patch c (confirmed c obj w) obj w = (None, w1) ->
  Delete c (confirmed c obj w) w1 = (Some e, w2) ->
  IsNotFound e = true ->
  DeleteExtensionObject c obj w = (None, w2).
Proof.
  unfold DeleteExtensionObject, ConfirmDeletion. intros -> Hd Hnf.
  rewrite Hd. cbn. by rewrite Hnf.
Qed.

Lemma WaitUntilExtensionObjectDeleted_notfound obj kind interval timeout w e w1 :
  Get c (GoType obj) (Namespace obj) (Name obj) w = (inl e, w1) ->
  IsNotFound e = true ->
  WaitUntilExtensionObjectDeleted c obj kind interval timeout w
  = ({| waitErr := None; waitObj := createResetObjectFunc obj;
        waitPolls := 1; waitElapsed := 0 |}, w1).
Proof.
  intros HGet Hnf. unfold WaitUntilExtensionObjectDeleted, UntilTimeout.
  rewrite (untilLoop_done c _ _ _ _ _ _ _ _ None
             {| deletedLastObservedError := None; deletedObj := createResetObjectFunc obj |} w1).
  - done.
  - unfold deletedAttempt. cbn [createResetObjectFunc zeroObject GoType].
    by rewrite HGet, Hnf.
Qed.

(** An attempt of the migration wait on an object whose last operation is
    not a succeeded Migrate. *)
Lemma migratedAttempt_pending emptyObj name namespace obj w o w1 :
  Get c (GoType emptyObj) namespace name w = (inr o, w1) ->
  (forall lastOperation, LastOperation_ (ObjStatus o) = Some lastOperation ->
     ~ (loType lastOperation = LastOperationTypeMigrate
        /\ loState lastOperation = LastOperationStateSucceeded)) ->
  migratedAttempt c emptyObj name namespace obj w
  = (MinorError (PlainError ("lastOperation for " +:+ Kind o +:+ " with name " +:+ name
                             +:+ " and type " +:+ specType (ObjSpec o)
                             +:+ " is not Migrate=Succeeded")), o, w1).
Proof.
  intros HGet Hpending. unfold migratedAttempt. rewrite HGet.
  destruct (LastOperation_ (ObjStatus o)) as [lo|]; [|done].
  destruct (String.eqb_spec (loType lo) LastOperationTypeMigrate) as [Ht|]; [|done].
  destruct (String.eqb_spec (loState lo) LastOperationStateSucceeded) as [Hs|]; [|done].
  by destruct (Hpending lo eq_refl).
Qed.

Lemma migratedAttempt_Ok emptyObj name namespace obj w s' w' :
  migratedAttempt c emptyObj name namespace obj w = ((true, None), s', w') ->
  match fst (Get c (GoType emptyObj) namespace name w) with
  | inl e => IsNotFound e = true
  | inr o =>
      s' = o
      /\ exists lastOperation,
           LastOperation_ (ObjStatus o) = Some lastOperation
           /\ loType lastOperation = LastOperationTypeMigrate
           /\ loState lastOperation = LastOperationStateSucceeded
  end.
Proof.
  unfold migratedAttempt, MinorError, SevereError, Ok.
  destruct (Get c (GoType emptyObj) namespace name w) as [[e|o] w1]; cbn [fst].
  - cbn. destruct (IsNotFound e); [done|]. intros HH; simplify_eq.
  - destruct (LastOperation_ (ObjStatus o)) as [lo|]; [|intros HH; simplify_eq].
    destruct (String.eqb_spec (loType lo) LastOperationTypeMigrate) as [Ht|];
      [|intros HH; simplify_eq].
    destruct (String.eqb_spec (loState lo) LastOperationStateSucceeded) as [Hs|];
      cbn [andb]; intros HH; simplify_eq.
    split; [done|]. exists lo. done.
Qed.

Section Pending.
Variable emptyObj : Object.
Variables name namespace : string.
Variables interval timeout : Z.
Variable Inv : W -> Prop.
Hypothesis Hpending : forall w0, Inv w0 ->
  exists o w1,
    Get c (GoType emptyObj) namespace name w0 = (inr o, w1)
    /\ (forall lastOperation, LastOperation_ (ObjStatus o) = Some lastOperation ->
          ~ (loType lastOperation = LastOperationTypeMigrate
             /\ loState lastOperation = LastOperationStateSucceeded))
    /\ Inv (Sleep c interval w1).

Lemma untilLoop_pending (more : nat) : forall k lastMinor obj w,
  Inv w ->
  let o := fst (untilLoop c interval timeout (migratedAttempt c emptyObj name namespace)
                  more k lastMinor obj w) in
  result o
  = Some (RetryError DeadlineExceeded
            (Some (PlainError ("lastOperation for " +:+ Kind (st o) +:+ " with name " +:+ name
                               +:+ " and type " +:+ specType (ObjSpec (st o))
                               +:+ " is not Migrate=Succeeded"))))
  /\ polls o = Datatypes.S (k + more)
  /\ elapsed o = Z.max timeout (Z.of_nat (k + more) * interval).
Proof.
  induction more as [|more IH]; intros k lastMinor obj w HInv;
    destruct (Hpending w HInv) as (ob & w1 & HGet & Hp & HInv');
    pose proof (migratedAttempt_pending emptyObj name namespace obj w ob w1 HGet Hp) as Ha;
    unfold MinorError in Ha.
  - rewrite (untilLoop_expired c _ _ _ _ _ _ _ _ _ _ Ha). cbn.
    rewrite Nat.add_0_r. done.
  - rewrite (untilLoop_retry c _ _ _ _ _ _ _ _ _ _ _ Ha).
    replace (k + Datatypes.S more)%nat with (Datatypes.S k + more)%nat by lia.
    by apply IH.
Qed.

End Pending.

(** C8, as the code has it: the migration wait returns nil at once when the
    object is not found, and when its last operation is a succeeded
    Migrate; a wait that returns nil ended on one of these two answers; and
    when every attempt finds the object with any other last operation, the
    wait fails when the timeout expires, with the error of the expired
    deadline that retains the last minor error, whose message names kind,
    name and extension type of the object last read. *)
Theorem WaitUntilExtensionObjectMigrated_outcomes obj interval timeout w (Inv : W -> Prop) :
  0 < interval -> 0 < timeout ->
  let r := fst (WaitUntilExtensionObjectMigrated c obj interval timeout w) in
  let migrated o :=
    exists lastOperation,
      LastOperation_ (ObjStatus o) = Some lastOperation
      /\ loType lastOperation = LastOperationTypeMigrate
      /\ loState lastOperation = LastOperationStateSucceeded in
  (forall e w1,
      Get c (GoType obj) (Namespace obj) (Name obj) w = (inl e, w1) ->
      IsNotFound e = true ->
      waitErr r = None /\ waitPolls r = 1%nat /\ waitElapsed r = 0)
  /\ (forall o w1,
      Get c (GoType obj) (Namespace obj) (Name obj) w = (inr o, w1) ->
      migrated o ->
      waitErr r = None /\ waitPolls r = 1%nat /\ waitElapsed r = 0)
  /\ (waitErr r = None ->
      exists answer,
        last (observedAnswers c obj (migratedStarts c obj interval timeout w)) = Some answer
        /\ match answer with
           | inl e => IsNotFound e = true
           | inr o => migrated o
           end)
  /\ (Inv w ->
      (forall w0, Inv w0 ->
         exists o w1,
           Get c (GoType obj) (Namespace obj) (Name obj) w0 = (inr o, w1)
           /\ ~ migrated o /\ Inv (Sleep c interval w1)) ->
      waitErr r
      = Some (RetryError DeadlineExceeded
                (Some (PlainError ("lastOperation for " +:+ Kind (waitObj r)
                                   +:+ " with name " +:+ Name obj
                                   +:+ " and type " +:+ specType (ObjSpec (waitObj r))
                                   +:+ " is not Migrate=Succeeded"))))
      /\ waitElapsed r = timeout
      /\ waitPolls r = Datatypes.S (Z.to_nat ((timeout - 1) / interval))).
Proof.
  intros Hi Ht r migrated. subst r.
  unfold WaitUntilExtensionObjectMigrated, UntilTimeout.
  split; [|split; [|split]].
  - intros e w1 HGet Hnf.
    rewrite (untilLoop_done c _ _ _ _ _ _ _ _ None (createResetObjectFunc obj) w1).
    + cbn. repeat split; try done; lia.
    + unfold migratedAttempt. cbn [createResetObjectFunc zeroObject GoType].
      rewrite HGet. cbn. by rewrite Hnf.
  - intros o w1 HGet (lo & Hlo & Htype & Hstate).
    rewrite (untilLoop_done c _ _ _ _ _ _ _ _ None o w1).
    + cbn. repeat split; try done; lia.
    + unfold migratedAttempt. cbn [createResetObjectFunc zeroObject GoType].
      rewrite HGet, Hlo, Htype, Hstate. done.
  - destruct (untilLoop _ _ _ _ _ _ _ _ _) as [o w'] eqn:Hloop. cbn. intros Hnil.
    pose proof (untilLoop_success_last c interval timeout
                  (migratedAttempt c (createResetObjectFunc obj) (Name obj) (Namespace obj))
                  (Z.to_nat ((timeout - 1) / interval)) 0%nat None obj w) as Hl.
    rewrite Hloop in Hl. destruct (Hl Hnil) as (s0 & w0 & w1 & Hlast & Hf).
    apply migratedAttempt_Ok in Hf. cbn [createResetObjectFunc zeroObject GoType] in Hf.
    unfold observedAnswers, migratedStarts, UntilTimeoutStarts.
    rewrite fmap_last, Hlast. cbn [fmap option_fmap option_map snd].
    eexists. split; [reflexivity|].
    destruct (fst (Get c (GoType obj) (Namespace obj) (Name obj) w0)); [done|].
    by destruct Hf.
  - intros HInv Hpending.
    assert (Hp' : forall w0, Inv w0 ->
      exists o w1,
        Get c (GoType (createResetObjectFunc obj)) (Namespace obj) (Name obj) w0 = (inr o, w1)
        /\ (forall lastOperation, LastOperation_ (ObjStatus o) = Some lastOperation ->
              ~ (loType lastOperation = LastOperationTypeMigrate
                 /\ loState lastOperation = LastOperationStateSucceeded))
        /\ Inv (Sleep c interval w1)).
    { intros w0 H0. destruct (Hpending w0 H0) as (o & w1 & HGet & Hnm & HI).
      exists o, w1. split; [done|]. split; [|done].
      intros lo Hlo [H1 H2]. apply Hnm. exists lo. done. }
    pose proof (untilLoop_pending (createResetObjectFunc obj) (Name obj) (Namespace obj)
                  interval timeout Inv Hp' (Z.to_nat ((timeout - 1) / interval))
                  0%nat None obj w HInv) as H.
    cbn zeta in H.
    destruct (untilLoop _ _ _ _ _ _ _ _ _) as [o w']. cbn [fst] in *.
    destruct H as (Hr & Hp & He). cbn.
    assert (interval * ((timeout - 1) / interval) <= timeout - 1) by (apply Z.mul_div_le; lia).
    assert (0 <= (timeout - 1) / interval) by (apply Z.div_pos; lia).
    rewrite Hr, Hp, He. cbn [Nat.add]. rewrite Z2Nat.id by lia.
    repeat split; try done; lia.
Qed.

End WithClient.

(** C6: when the client answers NotFound to the confirmation patch, or to
    the delete call after it, [DeleteExtensionObject] returns nil; when it
    answers NotFound to the first [Get], [WaitUntilExtensionObjectDeleted]
    returns nil at that first attempt, and any attempt of the wait whose
    [Get] is answered NotFound reports success; so on the in-memory server,
    for an object that is not stored, both return nil and nothing changes. *)
Theorem notfound_is_success_on_destroy_and_cleanup :
  (forall (W : Type) (c : Client W) obj kind interval timeout w,
      (forall e w1,
          Patch c (confirmed c obj w) obj w = (Some e, w1) ->
          IsNotFound e = true ->
          DeleteExtensionObject c obj w = (None, w1))
      /\ (forall w1 e w2,
          Patch c (confirmed c obj w) obj w = (None, w1) ->
          Delete c (confirmed c obj w) w1 = (Some e, w2) ->
          IsNotFound e = true ->
          DeleteExtensionObject c obj w = (None, w2))
      /\ (forall e w1,
          Get c (GoType obj) (Namespace obj) (Name obj) w = (inl e, w1) ->
          IsNotFound e = true ->
          let r := fst (WaitUntilExtensionObjectDeleted c obj kind interval timeout w) in
          waitErr r = None /\ waitPolls r = 1%nat /\ waitElapsed r = 0)
      /\ (forall s e w1,
          Get c (GoType obj) (Namespace obj) (Name obj) w = (inl e, w1) ->
          IsNotFound e = true ->
          fst (fst (deletedAttempt c (createResetObjectFunc obj) kind (Name obj) (Namespace obj)
                      s w)) = Ok))
  /\ (forall (w : World) obj kind interval timeout,
      objects w !! keyOf obj = None ->
      DeleteExtensionObject fakeClient obj w = (None, w)
      /\ snd (WaitUntilExtensionObjectDeleted fakeClient obj kind interval timeout w) = w
      /\ let r := fst (WaitUntilExtensionObjectDeleted fakeClient obj kind interval timeout w) in
         waitErr r = None /\ waitPolls r = 1%nat /\ waitElapsed r = 0).
Proof.
  split.
  - intros W c obj kind interval timeout w. split; [|split; [|split]].
    + apply DeleteExtensionObject_patch_notfound.
    + apply DeleteExtensionObject_delete_notfound.
    + intros e w1 HGet Hnf r. subst r.
      by rewrite (WaitUntilExtensionObjectDeleted_notfound c obj kind interval timeout w e w1).
    + intros s e w1 HGet Hnf. unfold deletedAttempt.
      cbn [createResetObjectFunc zeroObject GoType]. by rewrite HGet, Hnf.
  - intros w obj kind interval timeout Habsent. split.
    + apply (DeleteExtensionObject_patch_notfound fakeClient obj w (notFound (Name obj)) w);
        [|done].
      cbn. unfold fakePatch.
      change (keyOf (confirmed fakeClient obj w)) with (keyOf obj).
      by rewrite Habsent.
    + rewrite (WaitUntilExtensionObjectDeleted_notfound fakeClient obj kind interval timeout
                 w (notFound (Name obj)) w); [done| |done].
      cbn. unfold fakeGet. unfold keyOf in Habsent. by rewrite Habsent.
Qed.

End CleanupFacts.

(** ** The theorems at concrete worlds of the in-memory server *)

Module WaitExamples.
Import Errors API Client Retry Health Extensions Fake ReadyFacts WaitFacts CleanupFacts.

Lemma quiescentWith_Get o w :
  quiescentWith o w ->
  Get fakeClient (GoType o) (Namespace o) (Name o) w = (inr o, w)
  /\ forall d, quiescentWith o (Sleep fakeClient d w).
Proof.
  intros [Ho Ha]. split.
  - cbn. unfold fakeGet. unfold keyOf in Ho. by rewrite Ho.
  - intros d. cbn. unfold fakeSleep. rewrite Ha. done.
Qed.

(** C1 at a stored worker whose last operation succeeded. *)
Lemma WaitUntilExtensionObjectReady_nil_witness :
  0 < ms
  /\ waitErr (fst (WaitUntilExtensionObjectReady fakeClient (worker "w1") WorkerResource
                     ms ms ms None (worldWith [readyWorker]))) = None.
Proof.
  split; [reflexivity|].
  destruct (WaitUntilExtensionObjectReady_nil fakeClient (worker "w1") WorkerResource
              ms ms ms None (worldWith [readyWorker]) eq_refl) as [H _].
  apply (H readyWorker (worldWith [readyWorker])).
  - reflexivity.
  - split.
    + eexists. split; reflexivity.
    + intros ts Hts. vm_compute in Hts. discriminate Hts.
  - intros p Hp. discriminate Hp.
Defined.

(** C2 at a stored worker that keeps reporting a coded error. *)
Lemma persistent_health_error_deadline_witness :
  0 < ms /\ 0 <= 3 * ms /\ 3 * ms < 10 * ms
  /\ quiescentWith failingWorker (worldWith [failingWorker])
  /\ waitElapsed (fst (WaitUntilObjectReadyWithHealthFunction fakeClient lastErrorHealth
                         (worker "w1") WorkerResource ms (3 * ms) (10 * ms) None
                         (worldWith [failingWorker]))) <= 3 * ms.
Proof.
  assert (Hq : quiescentWith failingWorker (worldWith [failingWorker])) by (split; reflexivity).
  split; [reflexivity|]. split; [discriminate|]. split; [reflexivity|]. split; [exact Hq|].
  destruct (persistent_health_error_deadline fakeClient lastErrorHealth (worker "w1")
              WorkerResource ms (3 * ms) (10 * ms) None (worldWith [failingWorker])
              (quiescentWith failingWorker) eq_refl ltac:(discriminate) eq_refl Hq) as [H _].
  apply H. intros w0 H0.
  destruct (quiescentWith_Get failingWorker w0 H0) as [HGet HSleep].
  exists failingWorker, w0, (ErrorWithCodes "quota exceeded" ["ERR_INFRA_QUOTA_EXCEEDED"]).
  split; [exact HGet|]. split; [reflexivity|]. split; [reflexivity|]. apply HSleep.
Defined.

(** C7 at a readiness wait on a worker that reports a coded error. *)
Lemma failed_wait_retains_last_observed_error_witness :
  exists message,
    waitErr (fst (WaitUntilObjectReadyWithHealthFunction fakeClient lastErrorHealth
                    (worker "w1") WorkerResource ms (3 * ms) (10 * ms) None
                    (worldWith [failingWorker])))
    = Some (ErrorWithCodes message ["ERR_INFRA_QUOTA_EXCEEDED"])
    /\ Contains message "quota exceeded" = true.
Proof.
  destruct (failed_wait_retains_last_observed_error fakeClient) as [H _].
  destruct (H lastErrorHealth (worker "w1") WorkerResource ms (3 * ms) (10 * ms) None
              (worldWith [failingWorker])
              (ErrorWithCodes "quota exceeded" ["ERR_INFRA_QUOTA_EXCEEDED"]))
    as (message & Herr & _ & Hc).
  - vm_compute. discriminate.
  - vm_compute. reflexivity.
  - exists message. split; [exact Herr|exact Hc].
Defined.

(** C6 at a worker that is not stored. *)
Lemma notfound_is_success_on_destroy_and_cleanup_witness :
  objects emptyWorld !! keyOf (worker "w1") = None
  /\ DeleteExtensionObject fakeClient (worker "w1") emptyWorld = (None, emptyWorld)
  /\ waitErr (fst (WaitUntilExtensionObjectDeleted fakeClient (worker "w1") WorkerResource
                     ms ms emptyWorld)) = None.
Proof.
  destruct notfound_is_success_on_destroy_and_cleanup as [_ H].
  destruct (H emptyWorld (worker "w1") WorkerResource ms ms eq_refl) as (Hd & _ & Hw & _).
  split; [reflexivity|]. split; [exact Hd|exact Hw].
Defined.

(** C8 at a worker that is not stored. *)
Lemma WaitUntilExtensionObjectMigrated_outcomes_witness :
  0 < ms /\ 0 < 3 * ms
  /\ waitErr (fst (WaitUntilExtensionObjectMigrated fakeClient (worker "w1") ms (3 * ms)
                     emptyWorld)) = None.
Proof.
  split; [reflexivity|]. split; [reflexivity|].
  destruct (WaitUntilExtensionObjectMigrated_outcomes fakeClient (worker "w1") ms (3 * ms)
              emptyWorld (fun _ => True) eq_refl eq_refl) as [H _].
  apply (H (notFound "w1") emptyWorld); reflexivity.
Defined.

(** The claim C8 makes about the error of a migration wait that timed out
    does not hold: for a worker whose last operation is a Reconcile in
    state Processing, the error returned mentions neither, and it is the
    error returned for any other last operation of that worker. *)
Lemma migration_timeout_error_omits_last_operation :
  exists e,
    waitErr (fst (WaitUntilExtensionObjectMigrated fakeClient (worker "w1") ms (3 * ms)
                    (worldWith [processingWorker]))) = Some e
    /\ Error e = "retry failed with context deadline exceeded, last error: lastOperation for Worker with name w1 and type  is not Migrate=Succeeded"
    /\ Contains (Error e) LastOperationTypeReconcile = false
    /\ Contains (Error e) LastOperationStateProcessing = false
    /\ waitErr (fst (WaitUntilExtensionObjectMigrated fakeClient (worker "w1") ms (3 * ms)
                       (worldWith [withLastOperation (worker "w1") LastOperationTypeRestore
                                     LastOperationStateFailed]))) = Some e.
Proof. eexists. vm_compute. repeat split. Qed.

End WaitExamples.

(** ** The timestamp annotation *)

Module TimestampFacts.
Import Errors API Client Extensions Component Fake.

(** The last character of a string. *)
Lemma lastChar_append (a b : string) x :
  last (list_ascii_of_string b) = Some x ->
  last (list_ascii_of_string (a +:+ b)) = Some x.
Proof.
  intros Hb. induction a as [|y a IH]; [done|].
  change (last (y :: list_ascii_of_string (a +:+ b)) = Some x).
  rewrite last_cons, IH. done.
Qed.

Lemma String_UTC_last t :
  last (list_ascii_of_string (GoTime.String (GoTime.UTC t))) = Some "C"%char.
Proof. unfold GoTime.String. cbn [GoTime.UTC GoTime.mono GoTime.loc GoTime.locName GoTime.UTCLoc].
  do 3 apply lastChar_append. reflexivity.
Qed.

Lemma FormatRFC3339Nano_UTC_last t :
  last (list_ascii_of_string (GoTime.FormatRFC3339Nano (GoTime.UTC t))) = Some "Z"%char.
Proof. unfold GoTime.FormatRFC3339Nano. cbn [GoTime.UTC GoTime.loc GoTime.locOffset GoTime.UTCLoc].
  cbn [Z.eqb]. apply lastChar_append. reflexivity.
Qed.

Lemma String_UTC_not_RFC3339Nano t :
  GoTime.String (GoTime.UTC t) <> GoTime.FormatRFC3339Nano (GoTime.UTC t).
Proof.
  intros H. pose proof (String_UTC_last t) as H1. rewrite H in H1.
  rewrite FormatRFC3339Nano_UTC_last in H1. discriminate H1.
Qed.

Lemma SetMetaDataAnnotation_lookup o key value :
  Annotations (SetMetaDataAnnotation o key value) !! key = Some value.
Proof. cbn. apply lookup_insert_eq. Qed.

(** C4, as the code has it: the Deploy functions of the BackupUpload and
    BackupDownload components create or patch the relay object with a
    [timestamp] annotation that is the clock reading in UTC in the
    RFC3339Nano layout; AnnotateObjectWithOperation patches the object with
    a [timestamp] annotation that is the clock reading in UTC in the layout
    of [Time.String()], which is never the RFC3339Nano string. *)
Theorem timestamp_annotation_layouts (W : Type) (c : Client W) :
  (forall obj operation w,
      let annotated :=
        SetMetaDataAnnotation (SetMetaDataAnnotation obj GardenerOperation operation)
          GardenerTimestamp (GoTime.String (GoTime.UTC (Now c w))) in
      AnnotateObjectWithOperation c obj operation w
      = ((annotated, fst (Patch c annotated obj w)), snd (Patch c annotated obj w))
      /\ Annotations annotated !! GardenerTimestamp
         = Some (GoTime.String (GoTime.UTC (Now c w)))
      /\ GoTime.String (GoTime.UTC (Now c w))
         <> GoTime.FormatRFC3339Nano (GoTime.UTC (Now c w)))
  /\ (forall b w,
      match Get c BackupUploadResource (BackupUpload.namespace b)
              (BackupUpload.valName (BackupUpload.values b)) w with
      | (inr current, w1) =>
          BackupUpload.Deploy c b w = Patch c (BackupUpload.deployMutate c b current w1) current w1
          /\ Annotations (BackupUpload.deployMutate c b current w1) !! GardenerTimestamp
             = Some (GoTime.FormatRFC3339Nano (GoTime.UTC (Now c w1)))
      | (inl err, w1) =>
          IsNotFound err = true ->
          BackupUpload.Deploy c b w
          = Create c (BackupUpload.deployMutate c b (BackupUpload.emptyBackupUpload b) w1) w1
          /\ Annotations (BackupUpload.deployMutate c b (BackupUpload.emptyBackupUpload b) w1)
               !! GardenerTimestamp
             = Some (GoTime.FormatRFC3339Nano (GoTime.UTC (Now c w1)))
      end)
  /\ (forall b w,
      match Get c BackupDownloadResource (BackupDownload.namespace b)
              (BackupDownload.valName (BackupDownload.values b)) w with
      | (inr current, w1) =>
          BackupDownload.Deploy c b w
          = Patch c (BackupDownload.deployMutate c b current w1) current w1
          /\ Annotations (BackupDownload.deployMutate c b current w1) !! GardenerTimestamp
             = Some (GoTime.FormatRFC3339Nano (GoTime.UTC (Now c w1)))
      | (inl err, w1) =>
          IsNotFound err = true ->
          BackupDownload.Deploy c b w
          = Create c (BackupDownload.deployMutate c b (BackupDownload.emptyBackupDownload b) w1) w1
          /\ Annotations (BackupDownload.deployMutate c b (BackupDownload.emptyBackupDownload b) w1)
               !! GardenerTimestamp
             = Some (GoTime.FormatRFC3339Nano (GoTime.UTC (Now c w1)))
      end).
Proof.
  split; [|split].
  - intros obj operation w annotated. split; [|split].
    + unfold AnnotateObjectWithOperation. fold annotated.
      by destruct (Patch c annotated obj w).
    + apply SetMetaDataAnnotation_lookup.
    + apply String_UTC_not_RFC3339Nano.
  - intros b w. unfold BackupUpload.Deploy, GetAndCreateOrMergePatch.
    cbn [BackupUpload.emptyBackupUpload namedObject GoType Namespace Name].
    destruct (Get c _ _ _ w) as [[err|current] w1].
    + intros ->. split.
      * by destruct (Create c _ w1) as [[e|] w2].
      * unfold BackupUpload.deployMutate. cbn. apply lookup_insert_eq.
    + split.
      * by destruct (Patch c _ current w1) as [[e|] w2].
      * unfold BackupUpload.deployMutate. cbn. apply lookup_insert_eq.
  - intros b w. unfold BackupDownload.Deploy, GetAndCreateOrMergePatch.
    cbn [BackupDownload.emptyBackupDownload namedObject GoType Namespace Name].
    destruct (Get c _ _ _ w) as [[err|current] w1].
    + intros ->. split.
      * by destruct (Create c _ w1) as [[e|] w2].
      * unfold BackupDownload.deployMutate. cbn. apply lookup_insert_eq.
    + split.
      * by destruct (Patch c _ current w1) as [[e|] w2].
      * unfold BackupDownload.deployMutate. cbn. apply lookup_insert_eq.
Qed.

(** The claim C4 makes about AnnotateObjectWithOperation does not hold: at
    2023-01-02 03:04:05.000000006 UTC the annotation it stores is not the
    RFC3339Nano string of that instant. *)
Lemma AnnotateObjectWithOperation_timestamp_not_RFC3339Nano :
  let w' := snd (AnnotateObjectWithOperation fakeClient (worker "w1") GardenerOperationMigrate
                   (worldWith [worker "w1"])) in
  GoTime.FormatRFC3339Nano (GoTime.UTC someTime) = "2023-01-02T03:04:05.000000006Z"
  /\ (Annotations <$> objects w' !! keyOf (worker "w1")) ≫= (.!! GardenerTimestamp)
     = Some "2023-01-02 03:04:05.000000006 +0000 UTC".
Proof. vm_compute. split; reflexivity. Qed.

End TimestampFacts.

(** ** Restoring the state of an extension object *)

Module RestoreFacts.
Import Errors API Client Helper Extensions Restore Fake.

Section WithClient.
Context {W : Type} (c : Client W).
Variable ToUnstructured : RawExtension -> error + Unstructured.

(** References that the resource-data table does not resolve are passed
    over. *)
Lemma restoreResources_skips_unresolved table namespace refs : forall w,
  restoreResources c ToUnstructured table namespace refs w
  = restoreResources c ToUnstructured table namespace
      (filter (fun ref => is_Some (ResourceDataList_Get table ref)) refs) w.
Proof.
  induction refs as [|ref refs IH]; intros w; [done|].
  rewrite filter_cons. cbn [restoreResources].
  destruct (ResourceDataList_Get table ref) as [resourceData|] eqn:Hget.
  - rewrite decide_True by eauto. cbn [restoreResources]. rewrite Hget.
    destruct (ToUnstructured (rdData resourceData)) as [err|obj]; [done|].
    destruct (CreateOrUpdateObjectByRef c ref namespace obj w) as [[err|] w1]; [done|].
    apply IH.
  - rewrite decide_False by (intros [? ?]; done). apply IH.
Qed.

Lemma restoreResources_all_unresolved table namespace refs w :
  Forall (fun ref => ResourceDataList_Get table ref = None) refs ->
  restoreResources c ToUnstructured table namespace refs w = (None, w).
Proof.
  intros Hall. rewrite restoreResources_skips_unresolved.
  replace (filter _ refs) with (@nil CrossVersionObjectReference); [done|].
  symmetry. induction Hall as [|ref refs Href _ IH]; [done|].
  rewrite filter_cons, decide_False; [done|]. rewrite Href. by intros [? ?].
Qed.

End WithClient.

(** C5, as the code has it: when the snapshot has a record for the
    extension object, a failure of the status patch is returned by the
    restore, and on the in-memory server the patch fails with NotFound when
    the object is not stored; a reference of the restored resources that the
    resource-data table of the snapshot does not resolve is passed over, so
    that a restore whose references are all unresolved returns nil once the
    status is patched. *)
Theorem RestoreExtensionObjectState_failures :
  (forall (W : Type) (c : Client W) ToUnstructured shootState obj kind w record,
      ExtensionResourceStateList_Get (Extensions shootState) kind (Some (Name obj))
        (specPurpose (ObjSpec obj)) = Some record ->
      let restored :=
        withStatus obj
          (SetResources (SetState (ObjStatus obj) (ersState record)) (ersResources record)) in
      (forall e w1,
          StatusPatch c restored obj w = (Some e, w1) ->
          RestoreExtensionObjectState c ToUnstructured shootState obj kind w
          = ((restored, Some e), w1))
      /\ (forall w1,
          StatusPatch c restored obj w = (None, w1) ->
          RestoreExtensionObjectState c ToUnstructured shootState obj kind w
          = ((restored,
              fst (restoreResources c ToUnstructured (ShootResources shootState) (Namespace obj)
                     (filter (fun ref => is_Some (ResourceDataList_Get (ShootResources shootState) ref))
                        (map ResourceRef (ersResources record))) w1)),
             snd (restoreResources c ToUnstructured (ShootResources shootState) (Namespace obj)
                    (filter (fun ref => is_Some (ResourceDataList_Get (ShootResources shootState) ref))
                       (map ResourceRef (ersResources record))) w1)))
      /\ (forall w1,
          StatusPatch c restored obj w = (None, w1) ->
          Forall (fun ref => ResourceDataList_Get (ShootResources shootState) ref = None)
            (map ResourceRef (ersResources record)) ->
          RestoreExtensionObjectState c ToUnstructured shootState obj kind w
          = ((restored, None), w1)))
  /\ (forall ToUnstructured shootState obj kind (w : World) record,
      ExtensionResourceStateList_Get (Extensions shootState) kind (Some (Name obj))
        (specPurpose (ObjSpec obj)) = Some record ->
      objects w !! keyOf obj = None ->
      exists e,
        snd (fst (RestoreExtensionObjectState fakeClient ToUnstructured shootState obj kind w))
        = Some e
        /\ IsNotFound e = true).
Proof.
  split.
  - intros W c ToUnstructured shootState obj kind w record Hrecord restored.
    unfold RestoreExtensionObjectState. rewrite Hrecord. fold restored.
    split; [|split].
    + intros e w1 ->. done.
    + intros w1 ->. rewrite <- restoreResources_skips_unresolved.
      by destruct (restoreResources _ _ _ _ _ _).
    + intros w1 -> Hall. by rewrite restoreResources_all_unresolved.
  - intros ToUnstructured shootState obj kind w record Hrecord Habsent.
    unfold RestoreExtensionObjectState. rewrite Hrecord.
    cbn. unfold fakeStatusPatch.
    change (keyOf (withStatus obj _)) with (keyOf obj). rewrite Habsent.
    eexists. split; reflexivity.
Qed.

(** C5 at worker [w1], its record in the snapshot, and an empty server. *)
Lemma RestoreExtensionObjectState_failures_witness :
  ExtensionResourceStateList_Get (Extensions danglingShootState) WorkerResource (Some "w1") None
  = nth_error (Extensions danglingShootState) 0
  /\ objects emptyWorld !! keyOf (worker "w1") = None
  /\ exists e,
       snd (fst (RestoreExtensionObjectState fakeClient plainToUnstructured danglingShootState
                   (worker "w1") WorkerResource emptyWorld)) = Some e
       /\ IsNotFound e = true.
Proof.
  split; [reflexivity|]. split; [reflexivity|].
  destruct RestoreExtensionObjectState_failures as [_ H].
  apply (H plainToUnstructured danglingShootState (worker "w1") WorkerResource emptyWorld
           {| ersKind := WorkerResource; ersName := Some "w1"; ersPurpose := None;
              ersState := Some (list_byte_of_string "{}");
              ersResources := [ {| nrName := "credentials"; ResourceRef := danglingRef |} ] |});
    reflexivity.
Defined.

(** The claim C5 makes about references that cannot be resolved does not
    hold: the restore of worker [w1] from a snapshot whose table lacks the
    referenced resource returns nil, with the status patched. *)
Lemma restore_with_dangling_reference_returns_nil :
  let run := RestoreExtensionObjectState fakeClient plainToUnstructured danglingShootState
               (worker "w1") WorkerResource (worldWith [worker "w1"]) in
  Resources (ObjStatus (fst (fst run))) = [ {| nrName := "credentials"; ResourceRef := danglingRef |} ]
  /\ ResourceDataList_Get (ShootResources danglingShootState) danglingRef = None
  /\ snd (fst run) = None
  /\ (Resources <$> (ObjStatus <$> objects (snd run) !! keyOf (worker "w1")))
     = Some [ {| nrName := "credentials"; ResourceRef := danglingRef |} ].
Proof. vm_compute. repeat split. Qed.

End RestoreFacts.

(** ** The keyed lists of the snapshot *)

Module HelperFacts.
Import API Helper.

Section Upsert.
Context {A K : Type} `{EqDecision K} (key : A -> K).

Lemma upsertBy_keys_elem x l k :
  k ∈ key <$> upsertBy key x l <-> k = key x \/ k ∈ key <$> l.
Proof.
  induction l as [|y l IH]; cbn [upsertBy].
  - rewrite fmap_cons, fmap_nil, list_elem_of_singleton, elem_of_nil. tauto.
  - destruct (decide (key y = key x)) as [Heq|Hne].
    + rewrite !fmap_cons, !elem_of_cons, Heq. tauto.
    + rewrite !fmap_cons, !elem_of_cons, IH. tauto.
Qed.

Lemma upsertBy_NoDup x l :
  NoDup (key <$> l) -> NoDup (key <$> upsertBy key x l).
Proof.
  induction l as [|y l IH]; cbn [upsertBy]; intros Hnd.
  - rewrite fmap_cons, fmap_nil. apply NoDup_singleton.
  - rewrite fmap_cons in Hnd. apply NoDup_cons in Hnd as [Hy Hl].
    destruct (decide (key y = key x)) as [Heq|Hne]; rewrite fmap_cons.
    + apply NoDup_cons. rewrite <- Heq. done.
    + apply NoDup_cons. split; [|by apply IH].
      rewrite upsertBy_keys_elem. intros [?|?]; done.
Qed.

Lemma upsertBy_elem x l e :
  NoDup (key <$> l) ->
  e ∈ upsertBy key x l <-> e = x \/ (e ∈ l /\ key e <> key x).
Proof.
  induction l as [|y l IH]; cbn [upsertBy]; intros Hnd.
  - rewrite list_elem_of_singleton, elem_of_nil. tauto.
  - rewrite fmap_cons in Hnd. apply NoDup_cons in Hnd as [Hy Hl].
    destruct (decide (key y = key x)) as [Heq|Hne]; rewrite !elem_of_cons.
    + split.
      * intros [->|He]; [by left|]. right. split; [by right|].
        intros Hk. apply Hy. rewrite Heq, <- Hk. by apply list_elem_of_fmap_2.
      * intros [->|[[->|He] Hk]]; [by left|done|by right].
    + rewrite (IH Hl). split.
      * intros [->|[->|[He Hk]]]; [right; split; [by left|done]|by left|].
        right. split; [by right|done].
      * intros [->|[[->|He] Hk]]; [right; by left|by left|]. right. right. done.
Qed.

(** Upserting the entries of [xs] one after the other into the empty list
    keeps one entry per key: the last entry of [xs] with that key. *)
Lemma foldl_upsertBy xs :
  let r := foldl (fun acc x => upsertBy key x acc) [] xs in
  NoDup (key <$> r)
  /\ (forall k, k ∈ key <$> r <-> k ∈ key <$> xs)
  /\ (forall e, e ∈ r <-> last (filter (fun e' => key e' = key e) xs) = Some e).
Proof.
  induction xs as [|x xs IH] using rev_ind; cbn zeta.
  - split; [apply NoDup_nil_2|]. split; [done|].
    intros e. rewrite elem_of_nil. split; [done|]. cbn. done.
  - destruct IH as (Hnd & Hk & He). rewrite foldl_snoc.
    split; [by apply upsertBy_NoDup|]. split.
    + intros k. rewrite upsertBy_keys_elem, Hk, fmap_app, elem_of_app.
      rewrite fmap_cons, fmap_nil, list_elem_of_singleton. tauto.
    + intros e. rewrite (upsertBy_elem _ _ _ Hnd), He.
      rewrite filter_app, filter_cons, filter_nil.
      destruct (decide (key x = key e)) as [Heq|Hne].
      * rewrite last_snoc. split.
        -- intros [->|[_ Hc]]; [done|]. by destruct Hc.
        -- intros [= ->]. by left.
      * rewrite app_nil_r. split.
        -- intros [->|[Hl _]]; done.
        -- intros Hl. right. split; [done|]. by intros Hc; apply Hne.
Qed.

End Upsert.
End HelperFacts.

Module SnapshotFacts.
Import Errors API Client Helper Botanist HelperFacts Fake.

Section WithClient.
Context {W : Type} (c : Client W).
Variable FromUnstructured : Unstructured -> error + RawExtension.
Variable b : Botanist.
Variable Inv : W -> Prop.
Hypothesis HrefInv : forall w0 ref,
  Inv w0 -> Inv (snd (GetObjectByRef c ref (SeedNamespace b) w0)).

Lemma resourcesOfObject_Inv newResources : forall resources w,
  Inv w -> Inv (snd (resourcesOfObject c FromUnstructured b newResources resources w)).
Proof.
  induction newResources as [|nr rest IH]; intros resources w HInv; [done|].
  cbn [resourcesOfObject]. specialize (HrefInv w (ResourceRef nr) HInv).
  destruct (GetObjectByRef c (ResourceRef nr) (SeedNamespace b) w) as [[err|u] w1]; [done|].
  destruct (FromUnstructured u) as [err|raw]; [done|]. by apply IH.
Qed.

Lemma resourcesOfObject_keys newResources : forall resources w resources' w',
  resourcesOfObject c FromUnstructured b newResources resources w = (inr resources', w') ->
  NoDup (resourceKey <$> resources) ->
  NoDup (resourceKey <$> resources')
  /\ forall r, r ∈ resourceKey <$> resources'
               <-> r ∈ resourceKey <$> resources \/ r ∈ ResourceRef <$> newResources.
Proof.
  induction newResources as [|nr rest IH]; intros resources w resources' w' Hrun Hnd.
  - cbn in Hrun. simplify_eq. split; [done|]. intros r. rewrite fmap_nil, elem_of_nil. tauto.
  - cbn [resourcesOfObject] in Hrun.
    destruct (GetObjectByRef c (ResourceRef nr) (SeedNamespace b) w) as [[err|u] w1];
      [simplify_eq|].
    destruct (FromUnstructured u) as [err|raw]; [simplify_eq|].
    apply IH in Hrun; [|by apply upsertBy_NoDup].
    destruct Hrun as [Hnd' Hk]. split; [done|].
    intros r. rewrite Hk. unfold ResourceDataList_Upsert.
    rewrite upsertBy_keys_elem, fmap_cons, elem_of_cons. cbn. tauto.
Qed.

Lemma eachListItem_Inv objKind items : forall dataList resources w,
  Inv w -> Inv (snd (eachListItem c FromUnstructured b objKind items dataList resources w)).
Proof.
  induction items as [|o rest IH]; intros dataList resources w HInv; [done|].
  cbn [eachListItem]. destruct (DeletionTimestamp o); [by apply IH|].
  pose proof (resourcesOfObject_Inv (Resources (ObjStatus o)) resources w HInv) as H1.
  destruct (resourcesOfObject _ _ _ _ _ _) as [[err|resources1] w1]; [done|]. by apply IH.
Qed.

Lemma eachListItem_spec objKind items : forall dataList resources w dataList' resources' w',
  eachListItem c FromUnstructured b objKind items dataList resources w
  = (inr (dataList', resources'), w') ->
  let live := filter (fun o => DeletionTimestamp o = None) items in
  dataList'
  = foldl (fun acc x => upsertBy extensionKey3 x acc) dataList (recordOf objKind <$> live)
  /\ (NoDup (resourceKey <$> resources) ->
      NoDup (resourceKey <$> resources')
      /\ forall r, r ∈ resourceKey <$> resources'
                   <-> r ∈ resourceKey <$> resources
                       \/ exists o nr, o ∈ live /\ nr ∈ Resources (ObjStatus o)
                                       /\ r = ResourceRef nr).
Proof.
  induction items as [|o rest IH]; intros dataList resources w dataList' resources' w' Hrun.
  - cbn in Hrun. simplify_eq. cbn. split; [done|]. intros Hnd. split; [done|].
    intros r. split; [by left|]. intros [?|(o & nr & Ho & _)]; [done|].
    by apply elem_of_nil in Ho.
  - cbn [eachListItem] in Hrun. cbn zeta. rewrite filter_cons.
    destruct (DeletionTimestamp o) as [t|] eqn:Hdel.
    + rewrite decide_False by done. by apply IH in Hrun.
    + rewrite decide_True by done.
      destruct (resourcesOfObject c FromUnstructured b (Resources (ObjStatus o)) resources w)
        as [[err|resources1] w1] eqn:Hres; [simplify_eq|].
      apply IH in Hrun. cbn zeta in Hrun. destruct Hrun as [Hd Hr].
      split; [by rewrite fmap_cons|].
      intros Hnd. destruct (resourcesOfObject_keys _ _ _ _ _ Hres Hnd) as [Hnd1 Hk1].
      destruct (Hr Hnd1) as [Hnd' Hk']. split; [done|].
      intros r. rewrite Hk', Hk1. split.
      * intros [[?|Hin]|(o' & nr & Ho' & Hnr & ->)].
        -- by left.
        -- apply list_elem_of_fmap in Hin as (nr & -> & Hnr).
           right. exists o, nr. split; [by left|done].
        -- right. exists o', nr. split; [by right|done].
      * intros [?|(o' & nr & Ho' & Hnr & ->)]; [by left; left|].
        apply elem_of_cons in Ho' as [->|Ho'].
        -- left. right. by apply list_elem_of_fmap_2.
        -- right. eauto.
Qed.

Variable listing : string -> list Object.
Hypothesis HlistInv : forall w0 objKind,
  Inv w0 ->
  fst (List c objKind (SeedNamespace b) w0) = inr (listing objKind)
  /\ Inv (snd (List c objKind (SeedNamespace b) w0)).

Lemma eachKind_spec kinds : forall dataList resources w dataList' resources' w',
  Inv w ->
  eachKind c FromUnstructured b kinds dataList resources w = (inr (dataList', resources'), w') ->
  dataList'
  = foldl (fun acc x => upsertBy extensionKey3 x acc) dataList
      ((fun p => recordOf (fst p) (snd p)) <$> liveObjects listing kinds)
  /\ (NoDup (resourceKey <$> resources) ->
      NoDup (resourceKey <$> resources')
      /\ forall r, r ∈ resourceKey <$> resources'
                   <-> r ∈ resourceKey <$> resources
                       \/ exists objKind o nr,
                            (objKind, o) ∈ liveObjects listing kinds
                            /\ nr ∈ Resources (ObjStatus o) /\ r = ResourceRef nr).
Proof.
  induction kinds as [|objKind rest IH]; intros dataList resources w dataList' resources' w' HInv Hrun.
  - cbn in Hrun. simplify_eq. cbn. split; [done|]. intros Hnd. split; [done|].
    intros r. split; [by left|]. intros [?|(k & o & nr & Ho & _)]; [done|].
    by apply elem_of_nil in Ho.
  - cbn [eachKind] in Hrun. destruct (HlistInv w objKind HInv) as [Hl HI].
    destruct (List c objKind (SeedNamespace b) w) as [[err|items] w1]; [simplify_eq|].
    cbn in Hl, HI. simplify_eq.
    pose proof (eachListItem_Inv objKind (listing objKind) dataList resources w1 HI) as HI2.
    destruct (eachListItem c FromUnstructured b objKind (listing objKind) dataList resources w1)
      as [[err|[dataList1 resources1]] w2] eqn:Hitems; [simplify_eq|].
    cbn in HI2. apply eachListItem_spec in Hitems. cbn zeta in Hitems.
    destruct Hitems as [Hd1 Hr1].
    apply IH in Hrun; [|done]. destruct Hrun as [Hd Hr].
    unfold liveObjects. rewrite bind_cons. fold (liveObjects listing rest).
    split.
    + rewrite Hd, Hd1, fmap_app, foldl_app, <- list_fmap_compose. reflexivity.
    + intros Hnd. destruct (Hr1 Hnd) as [Hnd1 Hk1]. destruct (Hr Hnd1) as [Hnd' Hk'].
      split; [done|]. intros r. rewrite Hk', Hk1. split.
      * intros [[?|(o & nr & Ho & Hnr & ->)]|(k & o & nr & Ho & Hnr & ->)].
        -- by left.
        -- right. exists objKind, o, nr. split; [|done].
           apply elem_of_app. left. by apply (list_elem_of_fmap_2 (fun o => (objKind, o))).
        -- right. exists k, o, nr. split; [|done]. apply elem_of_app. by right.
      * intros [?|(k & o & nr & Ho & Hnr & ->)]; [by left; left|].
        apply elem_of_app in Ho as [Ho|Ho].
        -- apply list_elem_of_fmap in Ho as (o' & Heq & Ho'). simplify_eq.
           left. right. eauto.
        -- right. eauto 6.
Qed.

End WithClient.

Lemma liveObjects_elem listing kinds objKind o :
  (objKind, o) ∈ liveObjects listing kinds
  <-> objKind ∈ kinds /\ o ∈ listing objKind /\ DeletionTimestamp o = None.
Proof.
  unfold liveObjects. rewrite list_elem_of_bind. split.
  - intros (k & Hin & Hk). apply list_elem_of_fmap in Hin as (o' & Heq & Ho').
    simplify_eq. apply list_elem_of_filter in Ho' as [? ?]. done.
  - intros (Hk & Ho & Hd). exists objKind. split; [|done].
    apply (list_elem_of_fmap_2 (fun o => (objKind, o))). by apply list_elem_of_filter.
Qed.

Lemma gardenerDataItems_keys marshalSecretData items : forall dataList dataList',
  gardenerDataItems marshalSecretData items dataList = inr dataList' ->
  NoDup (gardenerKey <$> dataList) ->
  NoDup (gardenerKey <$> dataList')
  /\ forall n, n ∈ gardenerKey <$> dataList'
               <-> n ∈ gardenerKey <$> dataList \/ n ∈ secretName <$> items.
Proof.
  induction items as [|secret rest IH]; intros dataList dataList' Hrun Hnd.
  - cbn in Hrun. simplify_eq. split; [done|]. intros n. rewrite fmap_nil, elem_of_nil. tauto.
  - cbn [gardenerDataItems] in Hrun.
    destruct (marshalSecretData (secretData secret)) as [err|dataJSON]; [simplify_eq|].
    apply IH in Hrun; [|by apply upsertBy_NoDup].
    destruct Hrun as [Hnd' Hk]. split; [done|].
    intros n. rewrite Hk. unfold GardenerResourceDataList_Upsert.
    rewrite upsertBy_keys_elem, fmap_cons, elem_of_cons. cbn. tauto.
Qed.

(** C9: the snapshot computed for the backup upload holds a record for
    exactly the listed extension objects without deletion timestamp; its
    extension records are the result of upserting their records in the order
    visited, so that there is one record per kind, name and purpose, the last
    one upserted; the resource data hold one entry per object reference, for
    exactly the resources of those objects; and the secret records hold one
    entry per name, for exactly the listed secrets. *)
Theorem snapshot_lists_are_keyed_upserts :
  (forall (W : Type) (c : Client W) FromUnstructured b kinds w
          (listing : string -> list Object) (Inv : W -> Prop),
      Inv w ->
      (forall w0 ref, Inv w0 -> Inv (snd (GetObjectByRef c ref (SeedNamespace b) w0))) ->
      (forall w0 objKind, Inv w0 ->
          fst (List c objKind (SeedNamespace b) w0) = inr (listing objKind)
          /\ Inv (snd (List c objKind (SeedNamespace b) w0))) ->
      forall dataList resources w',
        computeShootStateExtensionsDataAndResources c FromUnstructured b kinds w
        = (inr (dataList, resources), w') ->
        let records := (fun p => recordOf (fst p) (snd p)) <$> liveObjects listing kinds in
        dataList = foldl ExtensionResourceStateList_Upsert [] records
        /\ NoDup (extensionKey3 <$> dataList)
        /\ (forall k, k ∈ extensionKey3 <$> dataList
                      <-> exists objKind o,
                            objKind ∈ kinds /\ o ∈ listing objKind
                            /\ DeletionTimestamp o = None
                            /\ k = (objKind, Some (Name o), specPurpose (ObjSpec o)))
        /\ (forall e, e ∈ dataList
                      <-> last (filter (fun e' => extensionKey3 e' = extensionKey3 e) records)
                          = Some e)
        /\ NoDup (resourceKey <$> resources)
        /\ (forall r, r ∈ resourceKey <$> resources
                      <-> exists objKind o nr,
                            objKind ∈ kinds /\ o ∈ listing objKind
                            /\ DeletionTimestamp o = None
                            /\ nr ∈ Resources (ObjStatus o) /\ r = ResourceRef nr))
  /\ (forall (W : Type) (c : Client W) marshalSecretData b w items w1 dataList,
      ListSecrets c (SeedNamespace b) w = (inr items, w1) ->
      fst (computeShootStateGardenerData c marshalSecretData b w) = inr dataList ->
      NoDup (gardenerKey <$> dataList)
      /\ (forall n, n ∈ gardenerKey <$> dataList <-> n ∈ secretName <$> items)).
Proof.
  split.
  - intros W c FromUnstructured b kinds w listing Inv HInv Href Hlist dataList resources w' Hrun
      records.
    unfold computeShootStateExtensionsDataAndResources in Hrun.
    destruct (eachKind_spec c FromUnstructured b Inv Href listing Hlist kinds [] [] w
                dataList resources w' HInv Hrun) as [Hd Hr].
    fold records in Hd.
    destruct (foldl_upsertBy extensionKey3 records) as (Hnd & Hk & He).
    unfold ExtensionResourceStateList_Upsert.
    change (foldl (fun l e => upsertBy extensionKey3 e l) [] records)
      with (foldl (fun acc x => upsertBy extensionKey3 x acc) [] records).
    rewrite <- Hd in *. split; [done|]. split; [done|]. split; [|split; [done|]].
    + intros k. rewrite Hk. subst records. rewrite <- list_fmap_compose. split.
      * intros Hin. apply list_elem_of_fmap in Hin as ([objKind o] & -> & Hin).
        apply liveObjects_elem in Hin as (? & ? & ?). exists objKind, o. done.
      * intros (objKind & o & Hkind & Ho & Hdel & ->).
        apply (list_elem_of_fmap_2 (extensionKey3 ∘ (fun p => recordOf (fst p) (snd p)))
                 _ (objKind, o)).
        by apply liveObjects_elem.
    + destruct (Hr (NoDup_nil_2)) as [Hnd' Hk']. split; [done|].
      intros r. rewrite Hk'. split.
      * intros [Hc|(objKind & o & nr & Hin & Hnr & ->)]; [by apply elem_of_nil in Hc|].
        apply liveObjects_elem in Hin as (? & ? & ?). exists objKind, o, nr. done.
      * intros (objKind & o & nr & Hkind & Ho & Hdel & Hnr & ->).
        right. exists objKind, o, nr. split; [by apply liveObjects_elem|done].
  - intros W c marshalSecretData b w items w1 dataList HList Hrun.
    unfold computeShootStateGardenerData in Hrun. rewrite HList in Hrun. cbn in Hrun.
    destruct (gardenerDataItems_keys marshalSecretData items [] dataList Hrun (NoDup_nil_2))
      as [Hnd Hk].
    split; [done|]. intros n. rewrite Hk, fmap_nil, elem_of_nil. tauto.
Qed.

End SnapshotFacts.

(** ** Downloading the ShootState through the relay object *)

Module DownloadFacts.
Import GoCrypto Errors API Client Extensions Component BotanistCrypto Botanist.

Section WithClient.
Context {W : Type} (c : Client W).
Variable aesEncryptBlock : bytes -> bytes -> bytes.
Variable unmarshalShootState : bytes -> error + ShootStateSpec.

Lemma loadShootState_nonempty data shootState :
  loadShootState aesEncryptBlock unmarshalShootState data = inr shootState ->
  data <> [].
Proof. intros H ->. vm_compute in H. discriminate H. Qed.

(** C3: a run of [DownloadShootStateBackup] that returns nil has gone
    through these steps, each from the world the one before left: delete
    the relay object and wait until it is gone; create or patch the relay
    object, whose spec carries no data, and wait until it is ready; read the
    relay object and take [Status.Data] as the downloaded bytes, which
    decrypt and decode to the ShootState that is set; delete the relay
    object again and wait until it is gone. *)
Theorem DownloadShootStateBackup_steps (b : Botanist) (w : W) :
  snd (fst (DownloadShootStateBackup c aesEncryptBlock unmarshalShootState b w)) = None ->
  exists provider w1 w2 w3 w4 w5 w6 relay result observed shootState,
    seedBackupProvider b = Some provider
    /\ let deployer := downloadDeployer b provider in
       let download := BackupDownload.emptyBackupDownload deployer in
       let interval := BackupDownload.DefaultInterval in
       let severeThreshold := BackupDownload.DefaultSevereThreshold in
       let timeout := BackupDownload.DefaultTimeout in
       DeleteExtensionObject c download w = (None, w1)
       /\ waitErr (fst (WaitUntilExtensionObjectDeleted c download BackupDownloadResource
                          interval timeout w1)) = None
       /\ snd (WaitUntilExtensionObjectDeleted c download BackupDownloadResource
                 interval timeout w1) = w2
       /\ GetAndCreateOrMergePatch c download (BackupDownload.deployMutate c deployer) w2
          = ((relay, result, None), w3)
       /\ specData (ObjSpec relay) = []
       /\ Annotations relay !! GardenerOperation = Some GardenerOperationReconcile
       /\ waitErr (fst (WaitUntilExtensionObjectReady c download BackupDownloadResource
                          interval severeThreshold timeout None w3)) = None
       /\ snd (WaitUntilExtensionObjectReady c download BackupDownloadResource
                 interval severeThreshold timeout None w3) = w4
       /\ Get c BackupDownloadResource (SeedNamespace b) "shootstate" w4 = (inr observed, w5)
       /\ loadShootState aesEncryptBlock unmarshalShootState (statusData (ObjStatus observed))
          = inr shootState
       /\ fst (fst (DownloadShootStateBackup c aesEncryptBlock unmarshalShootState b w))
          = Some shootState
       /\ DeleteExtensionObject c download w5 = (None, w6)
       /\ waitErr (fst (WaitUntilExtensionObjectDeleted c download BackupDownloadResource
                          interval timeout w6)) = None
       /\ snd (WaitUntilExtensionObjectDeleted c download BackupDownloadResource
                 interval timeout w6)
          = snd (DownloadShootStateBackup c aesEncryptBlock unmarshalShootState b w).
Proof.
  unfold DownloadShootStateBackup.
  destruct (seedBackupProvider b) as [provider|]; [|intros H; discriminate H].
  unfold OpDestroyAndWait_Destroy, OpWait_Deploy.
  cbn [BackupDownload.New Component.Deploy Component.Wait Component.Destroy
       Component.WaitCleanup].
  unfold BackupDownload.Destroy, BackupDownload.WaitCleanup, BackupDownload.Deploy,
    BackupDownload.Wait, BackupDownload.GetData.
  cbn [downloadDeployer BackupDownload.waitInterval BackupDownload.waitSevereThreshold
       BackupDownload.waitTimeout BackupDownload.namespace BackupDownload.values
       BackupDownload.valName].
  set (deployer := downloadDeployer b provider).
  set (download := BackupDownload.emptyBackupDownload deployer).
  destruct (DeleteExtensionObject c download w) as [[e|] w1] eqn:Hdel1;
    [intros H; discriminate H|].
  destruct (WaitUntilExtensionObjectDeleted c download BackupDownloadResource
              BackupDownload.DefaultInterval BackupDownload.DefaultTimeout w1)
    as [r1 w2] eqn:Hgone1.
  destruct (waitErr r1) as [e|] eqn:Hr1; [intros H; discriminate H|].
  destruct (GetAndCreateOrMergePatch c download (BackupDownload.deployMutate c deployer) w2)
    as [[[relay result] [e|]] w3] eqn:Hdeploy; [intros H; discriminate H|].
  destruct (WaitUntilExtensionObjectReady c download BackupDownloadResource
              BackupDownload.DefaultInterval BackupDownload.DefaultSevereThreshold
              BackupDownload.DefaultTimeout None w3) as [r2 w4] eqn:Hready.
  destruct (waitErr r2) as [e|] eqn:Hr2; [intros H; discriminate H|].
  destruct (Get c BackupDownloadResource (SeedNamespace b) "shootstate" w4)
    as [[e|observed] w5] eqn:Hget.
  { destruct (loadShootState aesEncryptBlock unmarshalShootState [])
      as [e'|shootState] eqn:Hload; [intros H; discriminate H|].
    by destruct (loadShootState_nonempty _ _ Hload). }
  destruct (loadShootState aesEncryptBlock unmarshalShootState (statusData (ObjStatus observed)))
    as [e|shootState] eqn:Hload; [intros H; discriminate H|].
  destruct (DeleteExtensionObject c download w5) as [[e|] w6] eqn:Hdel2;
    [intros H; discriminate H|].
  destruct (WaitUntilExtensionObjectDeleted c download BackupDownloadResource
              BackupDownload.DefaultInterval BackupDownload.DefaultTimeout w6)
    as [r3 w7] eqn:Hgone3.
  cbn. intros Hr3. subst download deployer.
  exists provider, w1, w2, w3, w4, w5, w6, relay, result, observed, shootState.
  split; [done|]. cbn zeta. rewrite Hgone1, Hready, Hgone3. cbn.
  repeat split; try done.
  - unfold GetAndCreateOrMergePatch in Hdeploy.
    destruct (Get c _ _ _ w2) as [[e|current] w2'].
    + destruct (IsNotFound e); [|simplify_eq].
      destruct (Create c _ w2') as [[e'|] w2'']; simplify_eq. done.
    + destruct (Patch c _ current w2') as [[e'|] w2'']; simplify_eq. done.
  - unfold GetAndCreateOrMergePatch in Hdeploy.
    destruct (Get c _ _ _ w2) as [[e|current] w2'].
    + destruct (IsNotFound e); [|simplify_eq].
      destruct (Create c _ w2') as [[e'|] w2'']; simplify_eq.
      unfold BackupDownload.deployMutate. cbn.
      rewrite lookup_insert_ne by done. apply lookup_insert_eq.
    + destruct (Patch c _ current w2') as [[e'|] w2'']; simplify_eq.
      unfold BackupDownload.deployMutate. cbn.
      rewrite lookup_insert_ne by done. apply lookup_insert_eq.
Qed.

End WithClient.
End DownloadFacts.

Module SnapshotExamples.
Import Errors API Client Helper Extensions Component BotanistCrypto Botanist Fake
       SnapshotFacts DownloadFacts TimestampFacts.

(** C3 at an empty server on which the download controller takes a turn. *)
Lemma DownloadShootStateBackup_steps_witness :
  snd (fst (DownloadShootStateBackup fakeClient toyBlock decodeAny someBotanist downloadWorld))
  = None
  /\ exists observed shootState w4 w5,
       Get fakeClient BackupDownloadResource (SeedNamespace someBotanist) "shootstate" w4
       = (inr observed, w5)
       /\ loadShootState toyBlock decodeAny (statusData (ObjStatus observed)) = inr shootState
       /\ fst (fst (DownloadShootStateBackup fakeClient toyBlock decodeAny someBotanist
                      downloadWorld)) = Some shootState.
Proof.
  assert (Hnil : snd (fst (DownloadShootStateBackup fakeClient toyBlock decodeAny someBotanist
                             downloadWorld)) = None) by (vm_compute; reflexivity).
  split; [exact Hnil|].
  destruct (DownloadShootStateBackup_steps fakeClient toyBlock decodeAny someBotanist
              downloadWorld Hnil)
    as (provider & w1 & w2 & w3 & w4 & w5 & w6 & relay & result & observed & shootState
        & Hprovider & _ & _ & _ & _ & _ & _ & _ & _ & HGet & Hload & Hset & _).
  exists observed, shootState, w4, w5. split; [exact HGet|]. split; [exact Hload|exact Hset].
Defined.

(** C9 at a server with a live worker and a worker that is being deleted. *)
Lemma snapshot_lists_are_keyed_upserts_witness :
  exists dataList resources,
    fst (computeShootStateExtensionsDataAndResources fakeClient plainFromUnstructured
           someBotanist extensionKinds snapshotWorld) = inr (dataList, resources)
    /\ NoDup (extensionKey3 <$> dataList)
    /\ NoDup (resourceKey <$> resources).
Proof.
  assert (Hok : isErr (fst (computeShootStateExtensionsDataAndResources fakeClient
                              plainFromUnstructured someBotanist extensionKinds snapshotWorld))
                = false) by (vm_compute; reflexivity).
  destruct (computeShootStateExtensionsDataAndResources fakeClient plainFromUnstructured
              someBotanist extensionKinds snapshotWorld) as [[e|[dataList resources]] w'] eqn:Hrun;
    [discriminate Hok|].
  exists dataList, resources. split; [reflexivity|].
  destruct snapshot_lists_are_keyed_upserts as [H _].
  destruct (H World fakeClient plainFromUnstructured someBotanist extensionKinds snapshotWorld
              snapshotListing (fun w0 => w0 = snapshotWorld) eq_refl) with (3 := Hrun)
    as (_ & Hnd & _ & _ & Hnd' & _).
  - intros w0 ref ->. cbn [fakeClient GetObjectByRef]. unfold fakeGetObjectByRef.
    by destruct (_ !! _).
  - intros w0 objKind ->. split; reflexivity.
  - split; [exact Hnd|exact Hnd'].
Defined.

(** C4 at [someTime]. *)
Lemma timestamp_annotation_layouts_witness :
  Annotations (fst (fst (AnnotateObjectWithOperation fakeClient (worker "w1")
                           GardenerOperationMigrate (worldWith [worker "w1"]))))
    !! GardenerTimestamp
  = Some "2023-01-02 03:04:05.000000006 +0000 UTC".
Proof.
  destruct (timestamp_annotation_layouts World fakeClient) as [H _].
  destruct (H (worker "w1") GardenerOperationMigrate (worldWith [worker "w1"]))
    as (Hrun & Hts & _).
  rewrite Hrun. cbn [fst]. rewrite Hts. vm_compute. reflexivity.
Defined.

End SnapshotExamples.

(** ** The cases of the test suite of pkg/extensions, replayed *)

Module TestsReplayed.
Import Errors API Client Helper Extensions Restore Fake.

(** "should return error if extension object does not exist" *)
Example ready_absent :
  failed (waitErr (fst (WaitUntilExtensionObjectReady fakeClient (worker "w1") WorkerResource
                          ms ms ms None emptyWorld))) = true.
Proof. vm_compute. reflexivity. Qed.

(** "should return error if extension object is not ready" *)
Example ready_lastError :
  waitErr (fst (WaitUntilExtensionObjectReady fakeClient (worker "w1") WorkerResource
                  ms ms ms None (worldWith [withLastError (worker "w1") "Some error" []])))
  = Some (ErrorWithCodes
            "Error while waiting for Worker shoot--foo--bar/w1 to become ready: extension encountered error during reconciliation: Some error"
            []).
Proof. vm_compute. reflexivity. Qed.

(** "should return success if extension object got ready the first time" *)
Example ready_succeeded :
  waitErr (fst (WaitUntilExtensionObjectReady fakeClient (worker "w1") WorkerResource
                  ms ms ms None (worldWith [readyWorker]))) = None.
Proof. vm_compute. reflexivity. Qed.

(** "should set passed object to latest state once ready" *)
Example ready_sets_object :
  waitObj (fst (WaitUntilExtensionObjectReady fakeClient
                  (SetMetaDataAnnotation (worker "w1") GardenerOperation GardenerOperationReconcile)
                  WorkerResource ms ms ms None (worldWith [readyWorker]))) = readyWorker.
Proof. vm_compute. reflexivity. Qed.

(** "should not return error if extension object does not exist" *)
Example delete_absent :
  fst (DeleteExtensionObject fakeClient (worker "w1") emptyWorld) = None.
Proof. vm_compute. reflexivity. Qed.

(** "should not return error if deleted successfully" *)
Example delete_present :
  let r := DeleteExtensionObject fakeClient (worker "w1") (worldWith [worker "w1"]) in
  fst r = None /\ objects (snd r) !! keyOf (worker "w1") = None.
Proof. vm_compute. split; reflexivity. Qed.

(** "should return error if extension object is not deleted" *)
Example deleted_present :
  waitErr (fst (WaitUntilExtensionObjectDeleted fakeClient (worker "w1") WorkerResource ms ms
                  (worldWith [withDeletionTimestamp (worker "w1") (Some someTime)])))
  = Some (PlainError "Failed to delete Worker shoot--foo--bar/w1: retry failed with context deadline exceeded, last error: Worker shoot--foo--bar/w1 is still present").
Proof. vm_compute. reflexivity. Qed.

(** "should return success if extensions CRs gets deleted" *)
Example deleted_absent :
  waitErr (fst (WaitUntilExtensionObjectDeleted fakeClient (worker "w1") WorkerResource ms ms
                  emptyWorld)) = None.
Proof. vm_compute. reflexivity. Qed.

(** "should return error if the extension object does not exist" *)
Example restore_absent :
  failed (snd (fst (RestoreExtensionObjectState fakeClient plainToUnstructured testShootState
                      (worker "w1") WorkerResource emptyWorld))) = true.
Proof. vm_compute. reflexivity. Qed.

(** "should update the state if the extension object exists" *)
Example restore_present :
  let r := RestoreExtensionObjectState fakeClient plainToUnstructured testShootState
             (worker "w1") WorkerResource (worldWith [worker "w1"]) in
  snd (fst r) = None
  /\ State (ObjStatus (fst (fst r))) = Some (list_byte_of_string "{data:value}").
Proof. vm_compute. split; reflexivity. Qed.

(** "should restore the extension object state with the provided deploy
    function and annotate it for restoration" *)
Example restore_with_deploy :
  let deploy (operation : string) (w : World) :=
    match fakeCreate (worker "w1") w with
    | (None, w') => (inr (worker "w1"), w')
    | (Some e, w') => (inl e, w')
    end in
  let r := RestoreExtensionWithDeployFunction fakeClient plainToUnstructured testShootState
             WorkerResource deploy emptyWorld in
  fst r = None
  /\ (Annotations <$> objects (snd r) !! keyOf (worker "w1"))
     = Some {[ GardenerOperation := GardenerOperationRestore;
               GardenerTimestamp := "2023-01-02 03:04:05.000000006 +0000 UTC" ]}.
Proof. vm_compute. split; reflexivity. Qed.

(** "should not return error if extension object does not exist" (migrate) *)
Example migrate_absent :
  snd (fst (MigrateExtensionObject fakeClient (worker "w1") emptyWorld)) = None.
Proof. vm_compute. reflexivity. Qed.

(** "should return error if object does not exist" (annotate) *)
Example annotate_absent :
  failed (snd (fst (AnnotateObjectWithOperation fakeClient (worker "w1")
                      GardenerOperationMigrate emptyWorld))) = true.
Proof. vm_compute. reflexivity. Qed.

(** "should return error if migration times out": the three table entries,
    and the absent object. *)
Example migrated_table :
  let wait o := waitErr (fst (WaitUntilExtensionObjectMigrated fakeClient (worker "w1") ms ms
                                (worldWith [o]))) in
  failed (wait (withLastOperation (worker "w1") LastOperationTypeReconcile
                  LastOperationStateSucceeded)) = true
  /\ failed (wait (withLastOperation (worker "w1") LastOperationTypeMigrate
                     LastOperationStateProcessing)) = true
  /\ wait (withLastOperation (worker "w1") LastOperationTypeMigrate
             LastOperationStateSucceeded) = None
  /\ waitErr (fst (WaitUntilExtensionObjectMigrated fakeClient (worker "w1") ms ms emptyWorld))
     = None.
Proof. vm_compute. repeat split. Qed.

(** The scenario of a late creation: the object is absent at first and
    appears, in state Succeeded, between 50 and 60 ms after the call; with
    an interval of 10 ms and a timeout of 1 s the wait returns nil at 60 ms,
    at its seventh attempt. *)
Example ready_created_late :
  let create (os : gmap ObjectKey Object) := <[keyOf readyWorker := readyWorker]> os in
  let w := {| objects := ∅; secrets := []; referenced := ∅; clock := someTime;
              agenda := [id; id; id; id; id; create] |} in
  let r := fst (WaitUntilExtensionObjectReady fakeClient (worker "w1") WorkerResource
                  (10 * ms) (30 * ms) (1000 * ms) None w) in
  waitErr r = None /\ waitElapsed r = 60 * ms /\ waitPolls r = 7%nat.
Proof. vm_compute. repeat split. Qed.

End TestsReplayed.

(** ** Encryption under any key *)

Module CipherFacts.
Import GoCrypto BotanistCrypto CryptoFacts.

(** The key sizes [aes.NewCipher] accepts. *)
Lemma NewCipher_valid key :
  (length key = 16 \/ length key = 24 \/ length key = 32)%nat ->
  NewCipher key = inr {| blockKey := key |}.
Proof. unfold NewCipher. by intros [-> | [-> | ->]]. Qed.

Lemma NewCipher_invalid key :
  ~ (length key = 16 \/ length key = 24 \/ length key = 32)%nat ->
  NewCipher key = inl (KeySizeError (length key)).
Proof.
  unfold NewCipher. intros Hk.
  remember (length key) as n eqn:Hn. clear Hn.
  do 33 (destruct n as [|n]; [first [reflexivity | exfalso; apply Hk; lia]|]).
  reflexivity.
Qed.

Section WithAES.
Variable aes : bytes -> bytes -> bytes.

(** The stream carries on where it stopped: one call on [a ++ b] is a call
    on [a] followed by a call on [b]. *)
Lemma XORKeyStream_app a : forall x b,
  XORKeyStream aes x (a ++ b)
  = (fst (XORKeyStream aes x a) ++ fst (XORKeyStream aes (snd (XORKeyStream aes x a)) b),
     snd (XORKeyStream aes (snd (XORKeyStream aes x a)) b)).
Proof.
  induction a as [|s a IH]; intros x b0; cbn [XORKeyStream app].
  - cbn. by destruct (XORKeyStream aes x b0).
  - destruct (xorKeyStreamByte aes x s) as [d x'].
    rewrite IH.
    destruct (XORKeyStream aes x' a) as [ds x'']. cbn [fst snd].
    by destruct (XORKeyStream aes x'' b0).
Qed.

Lemma XORKeyStream_firstn n src x :
  fst (XORKeyStream aes x (firstn n src)) = firstn n (fst (XORKeyStream aes x src)).
Proof.
  rewrite <- (firstn_skipn n src) at 2.
  rewrite XORKeyStream_app. cbn [fst].
  destruct (Nat.le_gt_cases n (length src)) as [Hle|Hgt].
  - rewrite firstn_app.
    rewrite XORKeyStream_length, length_firstn, Nat.min_l by lia.
    rewrite Nat.sub_diag. cbn [firstn]. rewrite app_nil_r.
    symmetry. apply firstn_all2. rewrite XORKeyStream_length, length_firstn. lia.
  - rewrite skipn_all2 by lia. cbn [XORKeyStream fst]. rewrite app_nil_r.
    symmetry. apply firstn_all2. rewrite XORKeyStream_length, length_firstn. lia.
Qed.

(** The encrypting stream that has produced the ciphertext the decrypting
    one has read is in the same state, up to the direction flag. *)
Lemma xorKeyStreamByte_unmirror x s :
  decrypting x = false ->
  let '(d, y') := xorKeyStreamByte aes (mirror x) s in
  exists x', xorKeyStreamByte aes x d = (s, x') /\ y' = mirror x' /\ decrypting x' = false.
Proof.
  intros Hd. unfold xorKeyStreamByte, mirror. cbn.
  destruct (outUsed x =? BlockSize)%nat; cbn; rewrite Hd; cbn;
    rewrite xorByte_involutive; eexists; (split; [reflexivity|]); split; reflexivity.
Qed.

Lemma XORKeyStream_unmirror src : forall x,
  decrypting x = false ->
  fst (XORKeyStream aes x (fst (XORKeyStream aes (mirror x) src))) = src.
Proof.
  induction src as [|s rest IH]; intros x Hd; [done|].
  cbn [XORKeyStream].
  pose proof (xorKeyStreamByte_unmirror x s Hd) as Hs.
  destruct (xorKeyStreamByte aes (mirror x) s) as [d y'] eqn:E.
  destruct Hs as (x' & Hs & -> & Hd').
  specialize (IH x' Hd').
  destruct (XORKeyStream aes (mirror x') rest) as [ds y''] eqn:E'.
  cbn [fst XORKeyStream]. rewrite Hs.
  cbn [fst] in IH.
  destruct (XORKeyStream aes x' ds) as [ps y] eqn:E''.
  cbn [fst] in *. by rewrite IH.
Qed.

(** X1: with a key of 16, 24 or 32 bytes and a random source that delivers
    16 bytes, [encrypt] succeeds, its output is 16 bytes longer than the
    data, and [decrypt] under the same key gives the data back; with a key
    of any other length [encrypt] and [decrypt] both fail with the key size
    error of [aes.NewCipher], whatever they are given; and with a valid key
    and a random source that delivers fewer than 16 bytes, [encrypt] fails
    with the error of [io.ReadFull]. *)
Theorem encrypt_decrypt_any_key (key d randReader x : bytes) :
  ((length key = 16 \/ length key = 24 \/ length key = 32)%nat ->
   (16 <= length randReader)%nat ->
   exists c, encrypt aes key d randReader = inr c
             /\ length c = (16 + length d)%nat
             /\ decrypt aes key c = inr d)
  /\ (~ (length key = 16 \/ length key = 24 \/ length key = 32)%nat ->
      encrypt aes key d randReader = inl (KeySizeError (length key))
      /\ decrypt aes key x = inl (KeySizeError (length key)))
  /\ ((length key = 16 \/ length key = 24 \/ length key = 32)%nat ->
      (length randReader < 16)%nat ->
      encrypt aes key d randReader = inl ErrUnexpectedEOF).
Proof.
  split; [|split].
  - intros Hk Hr. unfold encrypt. rewrite (NewCipher_valid key Hk). unfold ReadFull.
    assert (length (firstn BlockSize randReader) = 16%nat) as Hiv
      by (rewrite length_firstn; unfold BlockSize; lia).
    destruct (Nat.ltb_spec (length randReader) BlockSize) as [Hlt|_];
      [unfold BlockSize in Hlt; lia|].
    eexists; split; [reflexivity|]. split.
    + rewrite length_app, XORKeyStream_length. lia.
    + unfold decrypt. rewrite (NewCipher_valid key Hk).
      rewrite length_app, Hiv.
      destruct (Nat.ltb_spec (16 + length (fst (XORKeyStream aes
        (NewCFBEncrypter {| blockKey := key |} (firstn BlockSize randReader)) d))) BlockSize)
        as [Hlt|_]; [unfold BlockSize in Hlt; lia|].
      f_equal.
      rewrite skipn_app, firstn_app, Hiv. change (BlockSize - 16)%nat with 0%nat.
      rewrite skipn_all2 by (rewrite Hiv; unfold BlockSize; lia).
      rewrite (firstn_all2 (firstn BlockSize randReader)) by (rewrite Hiv; unfold BlockSize; lia).
      cbn [skipn firstn app]. rewrite app_nil_r.
      apply (XORKeyStream_mirror aes d
               (NewCFBEncrypter {| blockKey := key |} (firstn BlockSize randReader))).
      reflexivity.
  - intros Hk. unfold encrypt, decrypt. by rewrite (NewCipher_invalid key Hk).
  - intros Hk Hr. unfold encrypt, ReadFull. rewrite (NewCipher_valid key Hk).
    destruct (Nat.ltb_spec (length randReader) BlockSize) as [_|Hge]; [done|].
    unfold BlockSize in Hge. lia.
Qed.

(** X2: under a key of valid size [decrypt] accepts every input of at
    least 16 bytes, without any check of its integrity; its result is 16
    bytes shorter than the input, and it is a plaintext that [encrypt] maps
    back to this very input when the random source delivers the first 16
    bytes of the input. *)
Theorem encrypt_decrypt_reverse (key c : bytes) :
  (length key = 16 \/ length key = 24 \/ length key = 32)%nat ->
  (16 <= length c)%nat ->
  exists p, decrypt aes key c = inr p
            /\ length p = (length c - 16)%nat
            /\ encrypt aes key p (firstn 16 c) = inr c.
Proof.
  intros Hk Hc. unfold decrypt. rewrite (NewCipher_valid key Hk).
  destruct (Nat.ltb_spec (length c) BlockSize) as [Hlt|_]; [unfold BlockSize in Hlt; lia|].
  eexists. split; [reflexivity|]. split.
  - rewrite XORKeyStream_length, length_skipn. done.
  - unfold encrypt, ReadFull. rewrite (NewCipher_valid key Hk).
    assert (length (firstn 16 c) = 16%nat) as Hiv by (rewrite length_firstn; lia).
    destruct (Nat.ltb_spec (length (firstn 16 c)) BlockSize) as [Hlt|_];
      [unfold BlockSize in Hlt; lia|].
    f_equal. change BlockSize with 16%nat. rewrite firstn_firstn, Nat.min_id.
    transitivity (firstn 16 c ++ skipn 16 c); [|apply firstn_skipn]. f_equal.
    apply (XORKeyStream_unmirror (skipn 16 c)
             (NewCFBEncrypter {| blockKey := key |} (firstn 16 c))).
    reflexivity.
Qed.

(** X3: a ciphertext that decrypts, cut off after [n >= 16] bytes, still
    decrypts, to the first [n - 16] bytes of the plaintext: [decrypt] does
    not notice that a backup was truncated. *)
Theorem decrypt_truncated (key c p : bytes) (n : nat) :
  decrypt aes key c = inr p ->
  (16 <= n)%nat ->
  decrypt aes key (firstn n c) = inr (firstn (n - 16) p).
Proof.
  unfold decrypt. destruct (NewCipher key) as [e|block]; [done|].
  destruct (Nat.ltb_spec (length c) BlockSize) as [Hlt|Hge]; [done|].
  intros [= <-] Hn. unfold BlockSize in *.
  destruct (Nat.ltb_spec (length (firstn n c)) 16) as [Hlt|_].
  { rewrite length_firstn in Hlt. lia. }
  f_equal. rewrite firstn_firstn, Nat.min_l by lia.
  rewrite skipn_firstn_comm. apply XORKeyStream_firstn.
Qed.

End WithAES.
End CipherFacts.

(** ** Uploading the ShootState *)

Module UploadFacts.
Import GoCrypto Errors API Client Extensions Component BotanistCrypto Botanist BotanistUpload
       CryptoFacts.

Section WithClient.
Context {W : Type} (c : Client W).
Variable aes : bytes -> bytes -> bytes.
Variable marshalShootState : ShootStateSpec -> error + bytes.
Variable unmarshalShootState : bytes -> error + ShootStateSpec.
Variable marshalSecretData : gmap string bytes -> error + bytes.
Variable FromUnstructured : Unstructured -> error + RawExtension.

(** What [encrypt] seals with the fixed key, [decrypt] opens. *)
Lemma decrypt_encrypt_cipherKey raw randReader data :
  encrypt aes cipherKey raw randReader = inr data ->
  decrypt aes cipherKey data = inr raw /\ length data = (16 + length raw)%nat.
Proof.
  unfold encrypt. rewrite NewCipher_cipherKey. unfold ReadFull.
  destruct (Nat.ltb_spec (length randReader) BlockSize) as [Hlt|Hge]; [done|].
  intros [= <-].
  assert (length (firstn BlockSize randReader) = 16%nat) as Hiv
    by (rewrite length_firstn; unfold BlockSize in *; lia).
  split.
  - unfold decrypt. rewrite NewCipher_cipherKey, length_app, Hiv.
    destruct (Nat.ltb_spec (16 + length (fst (XORKeyStream aes
      (NewCFBEncrypter {| blockKey := cipherKey |} (firstn BlockSize randReader)) raw))) BlockSize)
      as [Hlt|_]; [unfold BlockSize in Hlt; lia|].
    f_equal.
    rewrite skipn_app, firstn_app, Hiv. change (BlockSize - 16)%nat with 0%nat.
    rewrite skipn_all2 by (rewrite Hiv; unfold BlockSize; lia).
    rewrite (firstn_all2 (firstn BlockSize randReader)) by (rewrite Hiv; unfold BlockSize; lia).
    cbn [skipn firstn app]. rewrite app_nil_r.
    apply (XORKeyStream_mirror aes raw
             (NewCFBEncrypter {| blockKey := cipherKey |} (firstn BlockSize randReader))).
    reflexivity.
  - rewrite length_app, XORKeyStream_length. lia.
Qed.

(** X4: the data [computeDataForShootStateBackupUpload] returns is the JSON
    of the ShootState spec that [computeShootStateSpecForBackupUpload]
    computes, sealed by [encrypt] under the fixed key: it is 16 bytes longer
    than the JSON, starts with the bytes read from the random source, and
    decrypts to the JSON; and [loadShootState], on the download side,
    returns that same spec from it whenever the JSON decoder reads back what
    the encoder wrote. *)
Theorem uploaded_data_loads_back (b : Botanist) (kinds : list string) (randReader : bytes)
    (w w' : W) (data : bytes) :
  computeDataForShootStateBackupUpload c aes marshalShootState marshalSecretData FromUnstructured
    b kinds randReader w = (inr data, w') ->
  exists shootStateSpec raw,
    computeShootStateSpecForBackupUpload c marshalSecretData FromUnstructured b kinds w
    = (inr shootStateSpec, w')
    /\ marshalShootState shootStateSpec = inr raw
    /\ length data = (16 + length raw)%nat
    /\ firstn 16 data = firstn 16 randReader
    /\ decrypt aes cipherKey data = inr raw
    /\ (unmarshalShootState raw = inr shootStateSpec ->
        loadShootState aes unmarshalShootState data = inr shootStateSpec).
Proof.
  unfold computeDataForShootStateBackupUpload.
  destruct (computeShootStateSpecForBackupUpload _ _ _ _ _ _) as [[e|spec] w1]; [done|].
  destruct (marshalShootState spec) as [e|raw] eqn:Hm; [done|].
  destruct (encrypt aes cipherKey raw randReader) as [e|sealed] eqn:He; [done|].
  intros [= <- <-]. exists spec, raw.
  destruct (decrypt_encrypt_cipherKey raw randReader sealed He) as [Hd Hl].
  split; [done|]. split; [done|]. split; [done|]. split.
  - unfold encrypt in He. rewrite NewCipher_cipherKey in He. unfold ReadFull in He.
    destruct (Nat.ltb_spec (length randReader) BlockSize) as [Hlt|Hge]; [done|].
    simplify_eq. unfold BlockSize in *.
    rewrite firstn_app, length_firstn, Nat.min_l by lia.
    rewrite Nat.sub_diag. cbn [firstn]. rewrite app_nil_r.
    by rewrite firstn_firstn, Nat.min_id.
  - split; [done|]. intros Hu. unfold loadShootState. by rewrite Hd, Hu.
Qed.

(** X5: [UploadShootStateBackup] fails without touching the world when the
    seed has no backup; it fails with the wrapped error, in the world the
    computation left, when the data cannot be computed; and a run that
    returns nil has computed the data first and then gone through these
    steps, each from the world the one before left: delete the relay object
    and wait until it is gone; create or patch the relay object, with the
    provider type, the entry name, the file path shootstate and the data in
    its spec and the reconcile operation in its annotations, and wait until
    it is ready; delete the relay object again and wait until it is gone. *)
Theorem UploadShootStateBackup_steps (b : Botanist) (kinds : list string) (randReader : bytes)
    (w : W) :
  let run := UploadShootStateBackup c aes marshalShootState marshalSecretData FromUnstructured
               b kinds randReader w in
  (seedBackupProvider b = None -> failed (fst run) = true /\ snd run = w)
  /\ (forall provider e w0,
        seedBackupProvider b = Some provider ->
        computeDataForShootStateBackupUpload c aes marshalShootState marshalSecretData
          FromUnstructured b kinds randReader w = (inl e, w0) ->
        fst run = Some (PlainError ("failed computing data for BackupUpload of Shoot state: "
                                    +:+ Error e))
        /\ snd run = w0)
  /\ (fst run = None ->
      exists provider data w0 w1 w2 w3 w4 w5 relay result,
        seedBackupProvider b = Some provider
        /\ computeDataForShootStateBackupUpload c aes marshalShootState marshalSecretData
             FromUnstructured b kinds randReader w = (inr data, w0)
        /\ let deployer := uploadDeployer b provider data in
           let upload := BackupUpload.emptyBackupUpload deployer in
           let interval := BackupUpload.DefaultInterval in
           let severeThreshold := BackupUpload.DefaultSevereThreshold in
           let timeout := BackupUpload.DefaultTimeout in
           DeleteExtensionObject c upload w0 = (None, w1)
           /\ waitErr (fst (WaitUntilExtensionObjectDeleted c upload BackupUploadResource
                              interval timeout w1)) = None
           /\ snd (WaitUntilExtensionObjectDeleted c upload BackupUploadResource
                     interval timeout w1) = w2
           /\ GetAndCreateOrMergePatch c upload (BackupUpload.deployMutate c deployer) w2
              = ((relay, result, None), w3)
           /\ ObjSpec relay
              = {| specType := provider; specPurpose := None;
                   specEntryName := BackupEntryName b; specFilePath := "shootstate";
                   specData := data |}
           /\ Annotations relay !! GardenerOperation = Some GardenerOperationReconcile
           /\ waitErr (fst (WaitUntilExtensionObjectReady c upload BackupUploadResource
                              interval severeThreshold timeout None w3)) = None
           /\ snd (WaitUntilExtensionObjectReady c upload BackupUploadResource
                     interval severeThreshold timeout None w3) = w4
           /\ DeleteExtensionObject c upload w4 = (None, w5)
           /\ waitErr (fst (WaitUntilExtensionObjectDeleted c upload BackupUploadResource
                              interval timeout w5)) = None
           /\ snd (WaitUntilExtensionObjectDeleted c upload BackupUploadResource
                     interval timeout w5) = snd run).
Proof.
  cbn zeta. unfold UploadShootStateBackup. split; [|split].
  - intros ->. done.
  - intros provider e w0 -> ->. done.
  - destruct (seedBackupProvider b) as [provider|]; [|intros H; discriminate H].
    destruct (computeDataForShootStateBackupUpload _ _ _ _ _ _ _ _ _) as [[e|data] w0] eqn:Hdata;
      [intros H; discriminate H|].
    unfold OpDestroyAndWait_Destroy, OpWait_Deploy.
    cbn [BackupUpload.New Component.Deploy Component.Wait Component.Destroy
         Component.WaitCleanup].
    unfold BackupUpload.Destroy, BackupUpload.WaitCleanup, BackupUpload.Deploy,
      BackupUpload.Wait.
    cbn [uploadDeployer BackupUpload.waitInterval BackupUpload.waitSevereThreshold
         BackupUpload.waitTimeout BackupUpload.namespace BackupUpload.values
         BackupUpload.valName].
    set (deployer := uploadDeployer b provider data).
    set (upload := BackupUpload.emptyBackupUpload deployer).
    destruct (DeleteExtensionObject c upload w0) as [[e|] w1] eqn:Hdel1;
      [intros H; discriminate H|].
    destruct (WaitUntilExtensionObjectDeleted c upload BackupUploadResource
                BackupUpload.DefaultInterval BackupUpload.DefaultTimeout w1)
      as [r1 w2] eqn:Hgone1.
    destruct (waitErr r1) as [e|] eqn:Hr1; [intros H; discriminate H|].
    destruct (GetAndCreateOrMergePatch c upload (BackupUpload.deployMutate c deployer) w2)
      as [[[relay result] [e|]] w3] eqn:Hdeploy; [intros H; discriminate H|].
    destruct (WaitUntilExtensionObjectReady c upload BackupUploadResource
                BackupUpload.DefaultInterval BackupUpload.DefaultSevereThreshold
                BackupUpload.DefaultTimeout None w3) as [r2 w4] eqn:Hready.
    destruct (waitErr r2) as [e|] eqn:Hr2; [intros H; discriminate H|].
    destruct (DeleteExtensionObject c upload w4) as [[e|] w5] eqn:Hdel2;
      [intros H; discriminate H|].
    destruct (WaitUntilExtensionObjectDeleted c upload BackupUploadResource
                BackupUpload.DefaultInterval BackupUpload.DefaultTimeout w5)
      as [r3 w6] eqn:Hgone3.
    cbn. intros Hr3. subst upload deployer.
    exists provider, data, w0, w1, w2, w3, w4, w5, relay, result.
    split; [done|]. split; [done|]. cbn zeta. rewrite Hgone1, Hready, Hgone3. cbn.
    repeat split; try done.
    + unfold GetAndCreateOrMergePatch in Hdeploy.
      destruct (Get c _ _ _ w2) as [[e|current] w2'].
      * destruct (IsNotFound e); [|simplify_eq].
        destruct (Create c _ w2') as [[e'|] w2'']; simplify_eq. done.
      * destruct (Patch c _ current w2') as [[e'|] w2'']; simplify_eq. done.
    + unfold GetAndCreateOrMergePatch in Hdeploy.
      destruct (Get c _ _ _ w2) as [[e|current] w2'].
      * destruct (IsNotFound e); [|simplify_eq].
        destruct (Create c _ w2') as [[e'|] w2'']; simplify_eq.
        unfold BackupUpload.deployMutate. cbn.
        rewrite lookup_insert_ne by done. apply lookup_insert_eq.
      * destruct (Patch c _ current w2') as [[e'|] w2'']; simplify_eq.
        unfold BackupUpload.deployMutate. cbn.
        rewrite lookup_insert_ne by done. apply lookup_insert_eq.
Qed.

End WithClient.
End UploadFacts.

(** ** Downloads that cannot be read *)

Module DownloadFailureFacts.
Import GoCrypto Errors API Client Extensions Component BotanistCrypto Botanist CryptoFacts.

Section WithClient.
Context {W : Type} (c : Client W).
Variable aes : bytes -> bytes -> bytes.
Variable unmarshalShootState : bytes -> error + ShootStateSpec.

(** X6: when [DownloadShootStateBackup] has deployed the relay object and
    waited for it, and the bytes it then reads are shorter than 16 bytes, or
    decrypt to something the JSON decoder rejects, it returns the error of
    [loadShootState] in the world the read left: no ShootState is set, and
    the relay object is not destroyed. Only when the bytes decrypt and
    decode does it go on to destroy the relay object, and return the
    result of that. *)
Theorem DownloadShootStateBackup_unreadable (b : Botanist) (provider : string)
    (w w1 w2 w3 : W) (data : bytes) :
  seedBackupProvider b = Some provider ->
  let deployer := downloadDeployer b provider in
  let dw := BackupDownload.New c deployer in
  OpDestroyAndWait_Destroy dw w = (None, w1) ->
  OpWait_Deploy dw w1 = (None, w2) ->
  BackupDownload.GetData c deployer w2 = (data, w3) ->
  let run := DownloadShootStateBackup c aes unmarshalShootState b w in
  ((length data < 16)%nat ->
     run = ((None, Some (PlainError
               "failed decrypting ShootState: Ciphertext block size is too short!")), w3))
  /\ (forall raw e,
        decrypt aes cipherKey data = inr raw ->
        unmarshalShootState raw = inl e ->
        run = ((None, Some (PlainError ("failed unmarshaling raw ShootState: " +:+ Error e))),
               w3))
  /\ (forall raw shootState,
        decrypt aes cipherKey data = inr raw ->
        unmarshalShootState raw = inr shootState ->
        run = ((Some shootState, fst (OpDestroyAndWait_Destroy dw w3)),
               snd (OpDestroyAndWait_Destroy dw w3))).
Proof.
  intros Hp deployer dw Hd1 Hd2 Hdata run. subst run.
  unfold DownloadShootStateBackup. rewrite Hp.
  fold deployer. fold dw. rewrite Hd1, Hd2, Hdata.
  split; [|split].
  - intros Hshort. unfold loadShootState, decrypt. rewrite NewCipher_cipherKey.
    destruct (Nat.ltb_spec (length data) BlockSize) as [_|Hge]; [done|].
    unfold BlockSize in Hge. lia.
  - intros raw e Hdec Hun. unfold loadShootState. by rewrite Hdec, Hun.
  - intros raw shootState Hdec Hun. unfold loadShootState. rewrite Hdec, Hun.
    by destruct (OpDestroyAndWait_Destroy dw w3).
Qed.

End WithClient.
End DownloadFailureFacts.

(** ** The secret records of the snapshot *)

Module SecretRecordFacts.
Import GoCrypto Errors API Client Helper Extensions Component BotanistCrypto Botanist
       BotanistUpload HelperFacts.

Lemma gardenerDataItems_records marshalSecretData items : forall dataList dataList',
  gardenerDataItems marshalSecretData items dataList = inr dataList' ->
  Forall (fun secret => isErr (marshalSecretData (secretData secret)) = false) items
  /\ dataList'
     = foldl (fun acc x => upsertBy gardenerKey x acc) dataList
         (omap (secretRecord marshalSecretData) items).
Proof.
  induction items as [|secret rest IH]; intros dataList dataList' Hrun.
  - cbn in Hrun. simplify_eq. done.
  - cbn [gardenerDataItems] in Hrun. cbn [omap list_omap]. unfold secretRecord at 1.
    destruct (marshalSecretData (secretData secret)) as [err|dataJSON] eqn:Hm; [simplify_eq|].
    apply IH in Hrun as [Hall ->]. split; [|done].
    constructor; [by rewrite Hm|done].
Qed.

Lemma gardenerDataItems_fails marshalSecretData items secret : forall dataList,
  secret ∈ items ->
  isErr (marshalSecretData (secretData secret)) = true ->
  isErr (gardenerDataItems marshalSecretData items dataList) = true.
Proof.
  induction items as [|s rest IH]; intros dataList Hin Herr; [by apply elem_of_nil in Hin|].
  cbn [gardenerDataItems].
  destruct (marshalSecretData (secretData s)) as [err|dataJSON] eqn:Hm; [done|].
  apply elem_of_cons in Hin as [->|Hin]; [by rewrite Hm in Herr|]. by apply IH.
Qed.

Section WithClient.
Context {W : Type} (c : Client W).
Variable marshalSecretData : gmap string bytes -> error + bytes.

(** X7: when the secrets are listed, [computeShootStateGardenerData]
    leaves the world as the listing left it; it fails as soon as the data of
    one listed secret cannot be encoded; and when it succeeds, every listed
    secret has given a record with its name, its labels, the type "secret"
    and its encoded data, the result is these records upserted in the order
    listed, so that the record kept for a name is that of the last listed
    secret of that name, and every record of the result has the type
    "secret". *)
Theorem gardener_data_records (b : Botanist) (w w1 : W) (items : list Secret) :
  ListSecrets c (SeedNamespace b) w = (inr items, w1) ->
  let records := omap (secretRecord marshalSecretData) items in
  (forall dataList,
      fst (computeShootStateGardenerData c marshalSecretData b w) = inr dataList ->
      dataList = foldl GardenerResourceDataList_Upsert [] records
      /\ length records = length items
      /\ (forall e, e ∈ dataList
                    <-> last (filter (fun e' => grdName e' = grdName e) records) = Some e)
      /\ Forall (fun e => grdType e = "secret") dataList)
  /\ (forall secret,
      secret ∈ items ->
      isErr (marshalSecretData (secretData secret)) = true ->
      isErr (fst (computeShootStateGardenerData c marshalSecretData b w)) = true)
  /\ snd (computeShootStateGardenerData c marshalSecretData b w) = w1.
Proof.
  intros HList records. unfold computeShootStateGardenerData. rewrite HList. cbn [fst snd].
  split; [|split; [|done]].
  - intros dataList Hrun.
    destruct (gardenerDataItems_records marshalSecretData items [] dataList Hrun) as [Hall Hd].
    fold records in Hd.
    destruct (foldl_upsertBy gardenerKey records) as (_ & _ & He).
    split; [exact Hd|]. split; [|split].
    + subst records. clear -Hall. induction Hall as [|s l Hs Hall IH]; [done|].
      cbn [omap list_omap]. unfold secretRecord at 1.
      destruct (marshalSecretData (secretData s)); [done|]. cbn. by rewrite IH.
    + intros e. rewrite Hd. apply He.
    + apply Forall_forall. intros e Hin. rewrite Hd in Hin. apply He in Hin.
      apply last_Some_elem_of in Hin. apply list_elem_of_filter in Hin as [_ Hin].
      subst records. apply list_elem_of_omap in Hin as (s & _ & Hs).
      unfold secretRecord in Hs. destruct (marshalSecretData (secretData s)); simplify_eq. done.
  - intros secret Hin Herr. by apply (gardenerDataItems_fails _ _ secret).
Qed.

End WithClient.
End SecretRecordFacts.

(** ** From the snapshot to the restore *)

Module RoundTripFacts.
Import Errors API Client Helper Extensions Restore Botanist HelperFacts SnapshotFacts.

(** A lookup by key in a list without duplicate keys finds the entry with
    that key. *)
Lemma find_key_NoDup {A K : Type} `{EqDecision K} (key : A -> K) (l : list A) (e : A) :
  NoDup (key <$> l) -> e ∈ l ->
  List.find (fun x => bool_decide (key x = key e)) l = Some e.
Proof.
  induction l as [|y l IH]; intros Hnd He; [by apply elem_of_nil in He|].
  rewrite fmap_cons in Hnd. apply NoDup_cons in Hnd as [Hy Hl].
  cbn [List.find]. apply elem_of_cons in He as [->|He].
  - by rewrite bool_decide_eq_true_2.
  - rewrite bool_decide_eq_false_2; [by apply IH|].
    intros Heq. apply Hy. rewrite Heq. by apply list_elem_of_fmap_2.
Qed.

Lemma find_key_elem {A K : Type} `{EqDecision K} (key : A -> K) (l : list A) (k : K) :
  k ∈ key <$> l ->
  exists e, List.find (fun x => bool_decide (key x = k)) l = Some e /\ key e = k.
Proof.
  induction l as [|y l IH]; intros Hk; [by apply elem_of_nil in Hk|].
  rewrite fmap_cons in Hk. cbn [List.find].
  destruct (decide (key y = k)) as [Heq|Hne].
  - rewrite bool_decide_eq_true_2 by done. eauto.
  - rewrite bool_decide_eq_false_2 by done. apply IH.
    apply elem_of_cons in Hk as [Hk|Hk]; [by destruct Hne|done].
Qed.

Section WithClient.
Context {W : Type} (c : Client W).
Variable FromUnstructured : Unstructured -> error + RawExtension.
Variable b : Botanist.
Variable kinds : list string.
Variable listing : string -> list Object.
Variable Inv : W -> Prop.
Hypothesis HrefInv : forall w0 ref,
  Inv w0 -> Inv (snd (GetObjectByRef c ref (SeedNamespace b) w0)).
Hypothesis HlistInv : forall w0 objKind,
  Inv w0 ->
  fst (List c objKind (SeedNamespace b) w0) = inr (listing objKind)
  /\ Inv (snd (List c objKind (SeedNamespace b) w0)).

(** What a run of the snapshot that succeeds returns, in terms of the
    listed objects. *)
Lemma snapshot_records w dataList resources w' :
  Inv w ->
  computeShootStateExtensionsDataAndResources c FromUnstructured b kinds w
  = (inr (dataList, resources), w') ->
  let records := (fun p => recordOf (fst p) (snd p)) <$> liveObjects listing kinds in
  NoDup (extensionKey3 <$> dataList)
  /\ (forall e, e ∈ dataList
                <-> last (filter (fun e' => extensionKey3 e' = extensionKey3 e) records) = Some e)
  /\ NoDup (resourceKey <$> resources)
  /\ (forall r, r ∈ resourceKey <$> resources
                <-> exists objKind o nr,
                      (objKind, o) ∈ liveObjects listing kinds
                      /\ nr ∈ Resources (ObjStatus o) /\ r = ResourceRef nr).
Proof.
  intros HInv Hrun records. unfold computeShootStateExtensionsDataAndResources in Hrun.
  destruct (eachKind_spec c FromUnstructured b Inv HrefInv listing HlistInv kinds [] [] w
              dataList resources w' HInv Hrun) as [Hd Hr].
  fold records in Hd.
  destruct (foldl_upsertBy extensionKey3 records) as (Hnd & Hk & He).
  rewrite <- Hd in *. split; [done|]. split; [done|].
  destruct (Hr (NoDup_nil_2)) as [Hnd' Hk']. split; [done|].
  intros r. rewrite Hk'. split.
  - intros [Hc|?]; [by apply elem_of_nil in Hc|done].
  - intros ?. by right.
Qed.

(** X8: in the extension records that
    [computeShootStateExtensionsDataAndResources] returns, the lookup that
    [RestoreExtensionObjectState] makes for a listed object without deletion
    timestamp, by its kind, name and purpose, finds the record with the
    state and the resources that this object had, provided no other such
    object with the same kind, name and purpose gives a different record. *)
Theorem restore_lookup_finds_snapshot_record w dataList resources w' objKind o :
  Inv w ->
  computeShootStateExtensionsDataAndResources c FromUnstructured b kinds w
  = (inr (dataList, resources), w') ->
  objKind ∈ kinds -> o ∈ listing objKind -> DeletionTimestamp o = None ->
  (forall objKind' o',
      objKind' ∈ kinds -> o' ∈ listing objKind' -> DeletionTimestamp o' = None ->
      extensionKey3 (recordOf objKind' o') = extensionKey3 (recordOf objKind o) ->
      recordOf objKind' o' = recordOf objKind o) ->
  ExtensionResourceStateList_Get dataList objKind (Some (Name o)) (specPurpose (ObjSpec o))
  = Some {| ersKind := objKind; ersName := Some (Name o);
            ersPurpose := specPurpose (ObjSpec o);
            ersState := State (ObjStatus o);
            ersResources := Resources (ObjStatus o) |}.
Proof.
  intros HInv Hrun Hkind Ho Hdel Huniq.
  destruct (snapshot_records w dataList resources w' HInv Hrun) as (Hnd & He & _).
  unfold ExtensionResourceStateList_Get.
  change (objKind, Some (Name o), specPurpose (ObjSpec o))
    with (extensionKey3 (recordOf objKind o)).
  change {| ersKind := objKind; ersName := Some (Name o);
            ersPurpose := specPurpose (ObjSpec o);
            ersState := State (ObjStatus o);
            ersResources := Resources (ObjStatus o) |} with (recordOf objKind o).
  apply (find_key_NoDup extensionKey3); [done|].
  apply He.
  assert (Hin : recordOf objKind o
                ∈ filter (fun e' => extensionKey3 e' = extensionKey3 (recordOf objKind o))
                    ((fun p => recordOf (fst p) (snd p)) <$> liveObjects listing kinds)).
  { apply list_elem_of_filter. split; [done|].
    apply (list_elem_of_fmap_2 (fun p => recordOf (fst p) (snd p)) _ (objKind, o)).
    by apply liveObjects_elem. }
  destruct (last _) as [e|] eqn:Hlast.
  - f_equal. apply last_Some_elem_of in Hlast.
    apply list_elem_of_filter in Hlast as [Hkey Hrec].
    apply list_elem_of_fmap in Hrec as ([k' o'] & -> & Hlive).
    apply liveObjects_elem in Hlive as (? & ? & ?). cbn [fst snd] in *.
    by apply Huniq.
  - apply last_None in Hlast. rewrite Hlast in Hin. by apply elem_of_nil in Hin.
Qed.

(** X9: a snapshot that [computeShootStateExtensionsDataAndResources]
    returns holds no dangling reference: for every resource named in one of
    its extension records, the lookup that [RestoreExtensionObjectState]
    makes in its resource data finds an entry for that reference. *)
Theorem snapshot_resolves_its_references w dataList resources w' e nr :
  Inv w ->
  computeShootStateExtensionsDataAndResources c FromUnstructured b kinds w
  = (inr (dataList, resources), w') ->
  e ∈ dataList -> nr ∈ ersResources e ->
  exists resourceData,
    ResourceDataList_Get resources (ResourceRef nr) = Some resourceData
    /\ rdRef resourceData = ResourceRef nr.
Proof.
  intros HInv Hrun He Hnr.
  destruct (snapshot_records w dataList resources w' HInv Hrun) as (_ & Hrec & _ & Hres).
  apply Hrec in He. apply last_Some_elem_of in He.
  apply list_elem_of_filter in He as [_ He].
  apply list_elem_of_fmap in He as ([objKind o] & -> & Hlive). cbn [fst snd recordOf ersResources] in Hnr.
  unfold ResourceDataList_Get.
  apply (find_key_elem resourceKey). apply Hres. exists objKind, o, nr. done.
Qed.

End WithClient.

Section Restoring.
Context {W : Type} (c : Client W).
Variable ToUnstructured : RawExtension -> error + Unstructured.

(** X10: [RestoreExtensionWithDeployFunction] calls the deploy function
    with the operation wait-for-state and returns its error, in the world it
    left, without doing anything else; it returns the error of
    [RestoreExtensionObjectState] without annotating the object; a run
    that returns nil has deployed, restored the state and then sent a patch
    of the restored object that sets the operation annotation to restore
    and leaves the status as restored; and when the ShootState holds no
    record for the deployed object, the run is the deployment followed by
    the annotation alone. *)
Theorem RestoreExtensionWithDeployFunction_steps (shootState : ShootStateSpec) (kind : string)
    (deployFunc : string -> W -> (error + Object) * W) (w : W) :
  let run := RestoreExtensionWithDeployFunction c ToUnstructured shootState kind deployFunc w in
  (forall e w1,
      deployFunc GardenerOperationWaitForState w = (inl e, w1) -> run = (Some e, w1))
  /\ (forall extensionObj w1 restored e w2,
      deployFunc GardenerOperationWaitForState w = (inr extensionObj, w1) ->
      RestoreExtensionObjectState c ToUnstructured shootState extensionObj kind w1
      = ((restored, Some e), w2) ->
      run = (Some e, w2))
  /\ (fst run = None ->
      exists extensionObj w1 restored w2 sent,
        deployFunc GardenerOperationWaitForState w = (inr extensionObj, w1)
        /\ RestoreExtensionObjectState c ToUnstructured shootState extensionObj kind w1
           = ((restored, None), w2)
        /\ Annotations sent !! GardenerOperation = Some GardenerOperationRestore
        /\ ObjStatus sent = ObjStatus restored
        /\ Patch c sent restored w2 = (None, snd run))
  /\ (forall extensionObj w1,
      deployFunc GardenerOperationWaitForState w = (inr extensionObj, w1) ->
      ExtensionResourceStateList_Get (Extensions shootState) kind (Some (Name extensionObj))
        (specPurpose (ObjSpec extensionObj)) = None ->
      run = (snd (fst (AnnotateObjectWithOperation c extensionObj GardenerOperationRestore w1)),
             snd (AnnotateObjectWithOperation c extensionObj GardenerOperationRestore w1))).
Proof.
  cbn zeta. unfold RestoreExtensionWithDeployFunction. split; [|split; [|split]].
  - intros e w1 ->. done.
  - intros extensionObj w1 restored e w2 -> ->. done.
  - destruct (deployFunc GardenerOperationWaitForState w) as [[e|extensionObj] w1];
      [intros H; discriminate H|].
    destruct (RestoreExtensionObjectState c ToUnstructured shootState extensionObj kind w1)
      as [[restored [e|]] w2] eqn:HR; [intros H; discriminate H|].
    unfold AnnotateObjectWithOperation.
    destruct (Patch c _ restored w2) as [err w3] eqn:HP. cbn [fst snd]. intros ->.
    eexists extensionObj, w1, restored, w2, _.
    split; [done|]. split; [exact HR|]. split; [|split; [|exact HP]].
    + cbn. rewrite lookup_insert_ne by done. apply lookup_insert_eq.
    + done.
  - intros extensionObj w1 -> Hnone. unfold RestoreExtensionObjectState. rewrite Hnone.
    by destruct (AnnotateObjectWithOperation c extensionObj GardenerOperationRestore w1)
      as [[o' err] w3].
Qed.

End Restoring.
End RoundTripFacts.

(** ** Waits that end at once, and waits that last until the deadline *)

Module AbortFacts.
Import Errors API Client Retry Health Extensions RetryFacts.

Section WithClient.
Context {W : Type} (c : Client W).

Section AlwaysMinor.
Context {S : Type} (interval timeout : Z) (f : S -> W -> Attempt * S * W).
Variable Inv : W -> Prop.
Variable P : error -> Prop.
Variable Q : S -> Prop.
Hypothesis Hminor : forall s w, Inv w -> Q s ->
  exists e s' w', f s w = ((false, Some e), s', w') /\ P e /\ Q s' /\ Inv (Sleep c interval w').

(** A wait whose every attempt ends in a minor error lasts until the
    deadline and reports the minor error of its last attempt. *)
Lemma untilLoop_always_minor (more : nat) : forall k lastMinor s w,
  Inv w -> Q s ->
  let o := fst (untilLoop c interval timeout f more k lastMinor s w) in
  (exists e, result o = Some (RetryError DeadlineExceeded (Some e)) /\ P e)
  /\ Q (st o)
  /\ polls o = Datatypes.S (k + more)
  /\ elapsed o = Z.max timeout (Z.of_nat (k + more) * interval).
Proof.
  induction more as [|more IH]; intros k lastMinor s w HInv HQ;
    destruct (Hminor s w HInv HQ) as (e & s' & w' & Hf & HP & HQ' & HInv').
  - rewrite (untilLoop_expired c _ _ _ _ _ _ _ _ _ _ Hf). cbn.
    rewrite Nat.add_0_r. eauto 6.
  - rewrite (untilLoop_retry c _ _ _ _ _ _ _ _ _ _ _ Hf).
    replace (k + Datatypes.S more)%nat with (Datatypes.S k + more)%nat by lia.
    by apply IH.
Qed.

End AlwaysMinor.

(** X11: [WaitUntilObjectReadyWithHealthFunction] does not retry after an
    error of [Get] other than NotFound, nor after an error of
    [postReadyFunc]: at the attempt that meets either it returns, with the
    message of that error after "Error while waiting for ... to become
    ready"; and [postReadyFunc] is run once the object read passes the
    health function, the wait returning nil, in the world it left, when it
    succeeds. (Shown for the first attempt.) *)
Theorem ready_wait_severe_errors healthFunc obj kind interval severeThreshold timeout post w :
  let message :=
    "Error while waiting for " +:+ extensionKey kind (Namespace obj) (Name obj)
    +:+ " to become ready" in
  let wait := WaitUntilObjectReadyWithHealthFunction c healthFunc obj kind
                interval severeThreshold timeout post w in
  (forall e w1,
      Get c (GoType obj) (Namespace obj) (Name obj) w = (inl e, w1) ->
      IsNotFound e = false ->
      wait = ({| waitErr := Some (PlainError (message +:+ ": " +:+ Error e));
                 waitObj := zeroObject (GoType obj);
                 waitPolls := 1; waitElapsed := 0 |}, w1))
  /\ (forall o w1 p e w2,
      Get c (GoType obj) (Namespace obj) (Name obj) w = (inr o, w1) ->
      healthFunc o = None ->
      post = Some p ->
      p w1 = (Some e, w2) ->
      wait = ({| waitErr := Some (PlainError (message +:+ ": " +:+ Error e));
                 waitObj := o; waitPolls := 1; waitElapsed := 0 |}, w2))
  /\ (forall o w1 p w2,
      Get c (GoType obj) (Namespace obj) (Name obj) w = (inr o, w1) ->
      healthFunc o = None ->
      post = Some p ->
      p w1 = (None, w2) ->
      wait = ({| waitErr := None; waitObj := o; waitPolls := 1; waitElapsed := 0 |}, w2)).
Proof.
  cbn zeta. unfold WaitUntilObjectReadyWithHealthFunction, UntilTimeout.
  split; [|split].
  - intros e w1 HGet Hnf.
    rewrite (untilLoop_done c _ _ _ _ _ _ _ _ (Some e)
               {| lastObservedError := None; retryCountUntilSevere := 0 + 1;
                  readyObj := zeroObject (GoType obj) |} w1); [done|].
    unfold readyAttempt. cbn [createResetObjectFunc zeroObject GoType].
    by rewrite HGet, Hnf.
  - intros o w1 p e w2 HGet Hh -> Hp.
    rewrite (untilLoop_done c _ _ _ _ _ _ _ _ (Some e)
               {| lastObservedError := None; retryCountUntilSevere := 0 + 1;
                  readyObj := o |} w2); [done|].
    unfold readyAttempt. cbn [createResetObjectFunc zeroObject GoType].
    by rewrite HGet, Hh, Hp.
  - intros o w1 p w2 HGet Hh -> Hp.
    rewrite (untilLoop_done c _ _ _ _ _ _ _ _ None
               {| lastObservedError := None; retryCountUntilSevere := 0 + 1;
                  readyObj := o |} w2); [done|].
    unfold readyAttempt. cbn [createResetObjectFunc zeroObject GoType].
    by rewrite HGet, Hh, Hp.
Qed.

(** X12: an error of the first [Get] other than NotFound ends
    [WaitUntilExtensionObjectDeleted] and [WaitUntilExtensionObjectMigrated]
    at once, without a retry: the former returns its message after
    "Failed to delete ...", the latter returns the error itself. *)
Theorem cleanup_waits_abort_on_get_failure obj kind interval timeout w e w1 :
  Get c (GoType obj) (Namespace obj) (Name obj) w = (inl e, w1) ->
  IsNotFound e = false ->
  WaitUntilExtensionObjectDeleted c obj kind interval timeout w
  = ({| waitErr := Some (PlainError ("Failed to delete "
                                     +:+ extensionKey kind (Namespace obj) (Name obj)
                                     +:+ ": " +:+ Error e));
        waitObj := zeroObject (GoType obj); waitPolls := 1; waitElapsed := 0 |}, w1)
  /\ WaitUntilExtensionObjectMigrated c obj interval timeout w
     = ({| waitErr := Some e; waitObj := zeroObject (GoType obj);
           waitPolls := 1; waitElapsed := 0 |}, w1).
Proof.
  intros HGet Hnf. split.
  - unfold WaitUntilExtensionObjectDeleted, UntilTimeout.
    rewrite (untilLoop_done c _ _ _ _ _ _ _ _ (Some e)
               {| deletedLastObservedError := None; deletedObj := zeroObject (GoType obj) |} w1);
      [done|].
    unfold deletedAttempt. cbn [createResetObjectFunc zeroObject GoType].
    by rewrite HGet, Hnf.
  - unfold WaitUntilExtensionObjectMigrated, UntilTimeout.
    rewrite (untilLoop_done c _ _ _ _ _ _ _ _ (Some e) (zeroObject (GoType obj)) w1); [done|].
    unfold migratedAttempt. cbn [createResetObjectFunc zeroObject GoType].
    rewrite HGet. cbn. by rewrite Hnf.
Qed.

(** X13: for the readiness wait a missing object is no reason to stop:
    when every [Get] is answered NotFound,
    [WaitUntilObjectReadyWithHealthFunction] polls until the timeout
    expires and then returns an error without codes that holds, after
    "Error while waiting for ... to become ready", the error of the expired
    deadline with the last NotFound answer. *)
Theorem ready_wait_absent_object_times_out healthFunc obj kind interval severeThreshold timeout
    post w (Inv : W -> Prop) :
  0 < interval -> 0 < timeout ->
  Inv w ->
  (forall w0, Inv w0 ->
     exists e w1, Get c (GoType obj) (Namespace obj) (Name obj) w0 = (inl e, w1)
                  /\ IsNotFound e = true /\ Inv (Sleep c interval w1)) ->
  let r := fst (WaitUntilObjectReadyWithHealthFunction c healthFunc obj kind
                  interval severeThreshold timeout post w) in
  let message :=
    "Error while waiting for " +:+ extensionKey kind (Namespace obj) (Name obj)
    +:+ " to become ready" in
  (exists e,
      IsNotFound e = true
      /\ waitErr r
         = Some (PlainError (formatErrorMessage message
                               (Error (RetryError DeadlineExceeded (Some e))))))
  /\ waitElapsed r = timeout
  /\ waitPolls r = Datatypes.S (Z.to_nat ((timeout - 1) / interval)).
Proof.
  intros Hi Ht HInv Habsent r message. subst r message.
  unfold WaitUntilObjectReadyWithHealthFunction, UntilTimeout.
  pose proof (untilLoop_always_minor interval timeout
                (readyAttempt c healthFunc (createResetObjectFunc obj) (Name obj) (Namespace obj)
                   interval severeThreshold post)
                Inv (fun e => IsNotFound e = true) (fun s => lastObservedError s = None)) as H.
  assert (Hminor : forall s w0, Inv w0 -> lastObservedError s = None ->
    exists e s' w',
      readyAttempt c healthFunc (createResetObjectFunc obj) (Name obj) (Namespace obj)
        interval severeThreshold post s w0 = ((false, Some e), s', w')
      /\ IsNotFound e = true /\ lastObservedError s' = None /\ Inv (Sleep c interval w')).
  { intros s w0 H0 Hs. destruct (Habsent w0 H0) as (e & w1 & HGet & Hnf & HI).
    unfold readyAttempt. cbn [createResetObjectFunc zeroObject GoType].
    rewrite HGet, Hnf. unfold MinorError. eauto 8. }
  specialize (H Hminor (Z.to_nat ((timeout - 1) / interval)) 0%nat None
                {| lastObservedError := None; retryCountUntilSevere := 0; readyObj := obj |}
                w HInv eq_refl).
  cbn zeta in H. destruct H as ((e & Hr & He) & Hlast & Hp & Hel).
  destruct (untilLoop _ _ _ _ _ _ _ _ _) as [o w']. cbn [fst] in *.
  rewrite Hr, Hlast. cbn [fst waitErr waitElapsed waitPolls].
  assert (interval * ((timeout - 1) / interval) <= timeout - 1) by (apply Z.mul_div_le; lia).
  assert (0 <= (timeout - 1) / interval) by (apply Z.div_pos; lia).
  split; [exists e; split; [done|reflexivity]|].
  rewrite Hp, Hel. cbn [Nat.add]. rewrite Z2Nat.id by lia. split; [lia|done].
Qed.



End WithClient.

(** X18: [Wait] of the BackupDownload and of the BackupUpload component
    waits on a fresh object that carries no timestamp annotation, so that
    the only health check it makes is [health.CheckExtensionObject]: it
    returns nil at the first [Get] whose object passes that check, whatever
    the timestamp annotation of that object, be it the one [Deploy] wrote or
    an older one. *)
Theorem relay_Wait_checks_no_timestamp (W : Type) (c : Client W) :
  (forall (b : BackupDownload.backupDownload) w o w1,
      Get c BackupDownloadResource (BackupDownload.namespace b)
        (BackupDownload.valName (BackupDownload.values b)) w = (inr o, w1) ->
      CheckExtensionObject o = None ->
      BackupDownload.Wait c b w = (None, w1))
  /\ (forall (b : BackupUpload.backupUpload) w o w1,
      Get c BackupUploadResource (BackupUpload.namespace b)
        (BackupUpload.valName (BackupUpload.values b)) w = (inr o, w1) ->
      CheckExtensionObject o = None ->
      BackupUpload.Wait c b w = (None, w1)).
Proof.
  split.
  - intros b w o w1 HGet Hh.
    unfold BackupDownload.Wait, WaitUntilExtensionObjectReady,
      WaitUntilObjectReadyWithHealthFunction, UntilTimeout.
    cbn [BackupDownload.emptyBackupDownload namedObject Annotations Name Namespace GoType
         createResetObjectFunc zeroObject].
    rewrite lookup_empty. cbn [app].
    rewrite (untilLoop_done c _ _ _ _ _ _ _ _ None
               {| lastObservedError := None; retryCountUntilSevere := 0 + 1;
                  readyObj := o |} w1); [done|].
    unfold readyAttempt.
    change (GoType (createResetObjectFunc (BackupDownload.emptyBackupDownload b)))
      with BackupDownloadResource.
    rewrite HGet. cbn [And]. by rewrite Hh.
  - intros b w o w1 HGet Hh.
    unfold BackupUpload.Wait, WaitUntilExtensionObjectReady,
      WaitUntilObjectReadyWithHealthFunction, UntilTimeout.
    cbn [BackupUpload.emptyBackupUpload namedObject Annotations Name Namespace GoType
         createResetObjectFunc zeroObject].
    rewrite lookup_empty. cbn [app].
    rewrite (untilLoop_done c _ _ _ _ _ _ _ _ None
               {| lastObservedError := None; retryCountUntilSevere := 0 + 1;
                  readyObj := o |} w1); [done|].
    unfold readyAttempt.
    change (GoType (createResetObjectFunc (BackupUpload.emptyBackupUpload b)))
      with BackupUploadResource.
    rewrite HGet. cbn [And]. by rewrite Hh.
Qed.

End AbortFacts.

(** ** Waits that end when the object has changed *)

Module AppearFacts.
Import Errors API Client Retry Health Extensions Polling RetryFacts ReadyFacts.

Section WithClient.
Context {W : Type} (c : Client W).

Lemma atPoll_succ obj interval i w :
  atPoll c obj interval (S i) w = atPoll c obj interval i (afterPoll c obj interval w).
Proof. unfold atPoll. apply Nat.iter_succ_r. Qed.

Lemma attempts_before_deadline interval timeout (k : nat) :
  0 < interval -> Z.of_nat k * interval < timeout ->
  (k <= Z.to_nat ((timeout - 1) / interval))%nat.
Proof.
  intros Hi Hk. apply Nat2Z.inj_le. rewrite Z2Nat.id.
  - apply Z.div_le_lower_bound; lia.
  - apply Z.div_pos; lia.
Qed.

Section Ready.
Variable healthFunc : Func.
Variable obj : Object.
Variables interval severeThreshold timeout : Z.

Let attempt :=
  readyAttempt c healthFunc (createResetObjectFunc obj) (Name obj) (Namespace obj)
    interval severeThreshold None.

Lemma ready_loop_appears (o : Object) (k : nat) : forall more j lastMinor s w,
  (k <= more)%nat ->
  (forall i, (i < k)%nat ->
     notYet healthFunc (fst (Get c (GoType obj) (Namespace obj) (Name obj) (atPoll c obj interval i w)))) ->
  fst (Get c (GoType obj) (Namespace obj) (Name obj) (atPoll c obj interval k w)) = inr o ->
  healthFunc o = None ->
  let out := fst (untilLoop c interval timeout attempt more j lastMinor s w) in
  result out = None /\ readyObj (st out) = o
  /\ polls out = S (j + k) /\ elapsed out = Z.of_nat (j + k) * interval.
Proof.
  induction k as [|k IH]; intros more j lastMinor s w Hmore Hbefore Hat Hhealthy.
  - cbn in Hat.
    destruct (Get c (GoType obj) (Namespace obj) (Name obj) w) as [answer w1] eqn:HGet.
    cbn in Hat. subst answer.
    assert (Ha : attempt s w
                 = ((true, None),
                    {| lastObservedError := lastObservedError s;
                       retryCountUntilSevere := retryCountUntilSevere s + 1;
                       readyObj := o |}, w1)).
    { unfold attempt, readyAttempt. cbn [createResetObjectFunc zeroObject GoType].
      by rewrite HGet, Hhealthy. }
    rewrite (untilLoop_done c _ _ _ _ _ _ _ _ _ _ _ Ha). cbn.
    rewrite Nat.add_0_r. done.
  - destruct more as [|more]; [lia|].
    pose proof (Hbefore 0%nat ltac:(lia)) as H0. cbn in H0.
    assert (Ha : exists e s', attempt s w
                 = ((false, Some e), s',
                    snd (Get c (GoType obj) (Namespace obj) (Name obj) w))).
    { unfold attempt, readyAttempt. cbn [createResetObjectFunc zeroObject GoType].
      destruct (Get c (GoType obj) (Namespace obj) (Name obj) w) as [[e|o'] w1]; cbn in *.
      - rewrite H0. unfold MinorError. eauto.
      - destruct H0 as (e & -> & ->). unfold MinorError. eauto. }
    destruct Ha as (e & s' & Ha).
    rewrite (untilLoop_retry c _ _ _ _ _ _ _ _ _ _ _ Ha).
    replace (j + S k)%nat with (S j + k)%nat by lia.
    change (Sleep c interval (snd (Get c (GoType obj) (Namespace obj) (Name obj) w)))
      with (afterPoll c obj interval w).
    apply IH.
    + lia.
    + intros i Hi. rewrite <- atPoll_succ. apply Hbefore. lia.
    + by rewrite <- atPoll_succ.
    + done.
Qed.

(** X15: when the object is missing, or fails the health function with an
    error without codes, at each of the first [k] attempts, and is found and
    passes the health function at the next one, which starts before the
    timeout, then [WaitUntilObjectReadyWithHealthFunction] (without
    [postReadyFunc]) returns nil at that attempt, [k] intervals after the
    call, and leaves the caller with the object it has just read. *)
Theorem ready_wait_returns_when_healthy (kind : string) (w : W) (k : nat) (o : Object) :
  0 < interval -> Z.of_nat k * interval < timeout ->
  (forall i, (i < k)%nat ->
     notYet healthFunc (fst (Get c (GoType obj) (Namespace obj) (Name obj) (atPoll c obj interval i w)))) ->
  fst (Get c (GoType obj) (Namespace obj) (Name obj) (atPoll c obj interval k w)) = inr o ->
  healthFunc o = None ->
  let r := fst (WaitUntilObjectReadyWithHealthFunction c healthFunc obj kind
                  interval severeThreshold timeout None w) in
  waitErr r = None /\ waitObj r = o
  /\ waitPolls r = S k /\ waitElapsed r = Z.of_nat k * interval.
Proof.
  intros Hi Hk Hbefore Hat Hhealthy r. subst r.
  pose proof (ready_loop_appears o k (Z.to_nat ((timeout - 1) / interval)) 0%nat None
                {| lastObservedError := None; retryCountUntilSevere := 0; readyObj := obj |} w
                (attempts_before_deadline interval timeout k Hi Hk) Hbefore Hat Hhealthy) as H.
  cbn zeta in H. destruct H as (Hr & Ho & Hp & He).
  rewrite waitObj_ready, waitPolls_ready, waitElapsed_ready.
  split; [by apply waitErr_ready|]. split; [exact Ho|]. split; [exact Hp|exact He].
Qed.

End Ready.

Section Deleted.
Variable obj : Object.
Variable kind : string.
Variables interval timeout : Z.

Let attempt := deletedAttempt c (createResetObjectFunc obj) kind (Name obj) (Namespace obj).

Lemma deleted_loop_disappears (e : error) (k : nat) : forall more j lastMinor s w,
  (k <= more)%nat ->
  (forall i, (i < k)%nat ->
     isErr (fst (Get c (GoType obj) (Namespace obj) (Name obj) (atPoll c obj interval i w)))
     = false) ->
  fst (Get c (GoType obj) (Namespace obj) (Name obj) (atPoll c obj interval k w)) = inl e ->
  IsNotFound e = true ->
  let out := fst (untilLoop c interval timeout attempt more j lastMinor s w) in
  result out = None /\ polls out = S (j + k) /\ elapsed out = Z.of_nat (j + k) * interval.
Proof.
  induction k as [|k IH]; intros more j lastMinor s w Hmore Hbefore Hat Hnf.
  - cbn in Hat.
    destruct (Get c (GoType obj) (Namespace obj) (Name obj) w) as [answer w1] eqn:HGet.
    cbn in Hat. subst answer.
    assert (Ha : attempt s w
                 = ((true, None),
                    {| deletedLastObservedError := deletedLastObservedError s;
                       deletedObj := createResetObjectFunc obj |}, w1)).
    { unfold attempt, deletedAttempt. cbn [createResetObjectFunc zeroObject GoType].
      by rewrite HGet, Hnf. }
    rewrite (untilLoop_done c _ _ _ _ _ _ _ _ _ _ _ Ha). cbn.
    rewrite Nat.add_0_r. done.
  - destruct more as [|more]; [lia|].
    pose proof (Hbefore 0%nat ltac:(lia)) as H0. cbn in H0.
    assert (Ha : exists e' s', attempt s w
                 = ((false, Some e'), s',
                    snd (Get c (GoType obj) (Namespace obj) (Name obj) w))).
    { unfold attempt, deletedAttempt. cbn [createResetObjectFunc zeroObject GoType].
      destruct (Get c (GoType obj) (Namespace obj) (Name obj) w) as [[e'|o'] w1]; cbn in *;
        [discriminate H0|].
      unfold MinorError. eauto. }
    destruct Ha as (e' & s' & Ha).
    rewrite (untilLoop_retry c _ _ _ _ _ _ _ _ _ _ _ Ha).
    replace (j + S k)%nat with (S j + k)%nat by lia.
    change (Sleep c interval (snd (Get c (GoType obj) (Namespace obj) (Name obj) w)))
      with (afterPoll c obj interval w).
    apply IH.
    + lia.
    + intros i Hi. rewrite <- atPoll_succ. apply Hbefore. lia.
    + by rewrite <- atPoll_succ.
    + done.
Qed.

(** X16: when the object is found at each of the first [k] attempts and
    [Get] is answered NotFound at the next one, which starts before the
    timeout, then [WaitUntilExtensionObjectDeleted] returns nil at that
    attempt, [k] intervals after the call, whatever errors the object
    reported while it was there. *)
Theorem deleted_wait_returns_when_gone (w : W) (k : nat) (e : error) :
  0 < interval -> Z.of_nat k * interval < timeout ->
  (forall i, (i < k)%nat ->
     isErr (fst (Get c (GoType obj) (Namespace obj) (Name obj) (atPoll c obj interval i w)))
     = false) ->
  fst (Get c (GoType obj) (Namespace obj) (Name obj) (atPoll c obj interval k w)) = inl e ->
  IsNotFound e = true ->
  let r := fst (WaitUntilExtensionObjectDeleted c obj kind interval timeout w) in
  waitErr r = None /\ waitPolls r = S k /\ waitElapsed r = Z.of_nat k * interval.
Proof.
  intros Hi Hk Hbefore Hat Hnf r. subst r.
  pose proof (deleted_loop_disappears e k (Z.to_nat ((timeout - 1) / interval)) 0%nat None
                {| deletedLastObservedError := None; deletedObj := obj |} w
                (attempts_before_deadline interval timeout k Hi Hk) Hbefore Hat Hnf) as H.
  cbn zeta in H. destruct H as (Hr & Hp & He).
  unfold WaitUntilExtensionObjectDeleted, UntilTimeout.
  fold attempt. destruct (untilLoop _ _ _ _ _ _ _ _ _) as [out w']. cbn [fst] in *.
  rewrite Hr. cbn. done.
Qed.

End Deleted.

End WithClient.
End AppearFacts.

(** ** Validation of BackupDownload objects *)

Module ValidationFacts.
Import API Validation.

Lemma ValidateBackupDownloadSpec_nil (spec : BackupDownloadSpec) (fldPath : Path) :
  ValidateBackupDownloadSpec spec fldPath = []
  <-> dsType (bdDefaultSpec spec) <> "" /\ bdEntryName spec <> "" /\ bdFilePath spec <> "".
Proof.
  unfold ValidateBackupDownloadSpec.
  destruct (dsType (bdDefaultSpec spec)) as [|a1 s1];
    destruct (bdEntryName spec) as [|a2 s2];
    destruct (bdFilePath spec) as [|a3 s3]; cbn;
    split; try done; intros (? & ? & ?); done.
Qed.

(** X19: [ValidateBackupDownloadSpec] reports one Required error, with the
    detail "field is required", for each of type, entryName and filePath
    that is empty, in this order and under the path of the field; it
    accepts a spec exactly when none of the three is empty. *)
Theorem ValidateBackupDownloadSpec_required (spec : BackupDownloadSpec) (fldPath : Path) :
  let errs := ValidateBackupDownloadSpec spec fldPath in
  let missing (p : string * string) := bool_decide (snd p = "") in
  map errField errs
  = map (fun p => PathString (Child fldPath (fst p)))
      (List.filter missing
         [("type", dsType (bdDefaultSpec spec)); ("entryName", bdEntryName spec);
          ("filePath", bdFilePath spec)])
  /\ Forall (fun e => errType e = ErrorTypeRequired /\ errDetail e = "field is required") errs
  /\ (errs = [] <-> dsType (bdDefaultSpec spec) <> "" /\ bdEntryName spec <> ""
                    /\ bdFilePath spec <> "").
Proof.
  cbn zeta. split; [|split; [|apply ValidateBackupDownloadSpec_nil]];
    unfold ValidateBackupDownloadSpec;
    destruct (dsType (bdDefaultSpec spec)) as [|a1 s1];
    destruct (bdEntryName spec) as [|a2 s2];
    destruct (bdFilePath spec) as [|a3 s3]; cbn; first [reflexivity | repeat constructor].
Qed.

Section WithDeep.
Variable deepEqual : BackupDownloadSpec -> BackupDownloadSpec -> option (list string).

Lemma ValidateBackupDownloadSpecUpdate_same (spec : BackupDownloadSpec) deletionTimestampSet
    fldPath :
  ValidateBackupDownloadSpecUpdate deepEqual spec spec deletionTimestampSet fldPath = [].
Proof.
  unfold ValidateBackupDownloadSpecUpdate, ValidateImmutableField.
  rewrite bool_decide_eq_true_2 by done. rewrite andb_false_r.
  by rewrite !String.eqb_refl.
Qed.

Lemma ValidateBackupDownloadSpecUpdate_deleting (new old : BackupDownloadSpec) fldPath :
  new <> old ->
  exists e, ValidateBackupDownloadSpecUpdate deepEqual new old true fldPath = [e]
            /\ errField e = PathString fldPath
            /\ (errType e = ErrorTypeForbidden \/ errType e = ErrorTypeInvalid).
Proof.
  intros Hne. unfold ValidateBackupDownloadSpecUpdate, ValidateImmutableField.
  rewrite bool_decide_eq_false_2 by done. cbn.
  destruct (deepEqual new old) as [diff|]; eexists; (split; [reflexivity|]); cbn; auto.
Qed.

Lemma ValidateBackupDownloadSpecUpdate_live (new old : BackupDownloadSpec) fldPath :
  ValidateBackupDownloadSpecUpdate deepEqual new old false fldPath = []
  <-> dsType (bdDefaultSpec new) = dsType (bdDefaultSpec old)
      /\ bdEntryName new = bdEntryName old /\ bdFilePath new = bdFilePath old.
Proof.
  unfold ValidateBackupDownloadSpecUpdate, ValidateImmutableField. cbn [andb].
  destruct (String.eqb_spec (dsType (bdDefaultSpec new)) (dsType (bdDefaultSpec old)));
    destruct (String.eqb_spec (bdEntryName new) (bdEntryName old));
    destruct (String.eqb_spec (bdFilePath new) (bdFilePath old)); cbn;
    split; try done; intros (? & ? & ?); done.
Qed.

(** X20: [ValidateBackupDownloadSpecUpdate] accepts an unchanged spec; once
    the deletion timestamp is set it answers any change of the spec, the
    provider config included, with exactly one error, on the path of the
    spec itself; before that it accepts exactly the updates that leave type,
    entryName and filePath as they were, so that the provider config may
    still change. *)
Theorem ValidateBackupDownloadSpecUpdate_immutable (new old : BackupDownloadSpec)
    (fldPath : Path) :
  (forall deletionTimestampSet,
      new = old ->
      ValidateBackupDownloadSpecUpdate deepEqual new old deletionTimestampSet fldPath = [])
  /\ (new <> old ->
      exists e, ValidateBackupDownloadSpecUpdate deepEqual new old true fldPath = [e]
                /\ errField e = PathString fldPath
                /\ (errType e = ErrorTypeForbidden \/ errType e = ErrorTypeInvalid))
  /\ (ValidateBackupDownloadSpecUpdate deepEqual new old false fldPath = []
      <-> dsType (bdDefaultSpec new) = dsType (bdDefaultSpec old)
          /\ bdEntryName new = bdEntryName old /\ bdFilePath new = bdFilePath old).
Proof.
  split; [|split].
  - intros d ->. apply ValidateBackupDownloadSpecUpdate_same.
  - apply ValidateBackupDownloadSpecUpdate_deleting.
  - apply ValidateBackupDownloadSpecUpdate_live.
Qed.

End WithDeep.

(** [ValidateBackupDownloadStatusUpdate] accepts a status update exactly
    when it leaves [Status.Data] as it was. *)
Lemma ValidateBackupDownloadStatusUpdate_immutable (newStatus oldStatus : Status)
    (fldPath : Path) :
  (ValidateBackupDownloadStatusUpdate newStatus oldStatus fldPath = []
   <-> statusData newStatus = statusData oldStatus)
  /\ (statusData newStatus <> statusData oldStatus ->
      ValidateBackupDownloadStatusUpdate newStatus oldStatus fldPath
      = [ {| errType := ErrorTypeInvalid; errField := PathString (Child fldPath "data");
             errBadValue := BytesValue (statusData newStatus);
             errDetail := "field is immutable" |} ]).
Proof.
  unfold ValidateBackupDownloadStatusUpdate, ValidateImmutableField. split.
  - destruct (decide (statusData newStatus = statusData oldStatus)) as [Heq|Hne].
    + by rewrite bool_decide_eq_true_2.
    + rewrite bool_decide_eq_false_2 by done. done.
  - intros Hne. by rewrite bool_decide_eq_false_2.
Qed.

Section WithObjectMeta.
Context {ObjectMeta : Type}.
Variable metaDeletionTimestamp : ObjectMeta -> option GoTime.Time.
Variable ValidateObjectMeta : ObjectMeta -> Path -> ErrorList.
Variable ValidateObjectMetaUpdate : ObjectMeta -> ObjectMeta -> Path -> ErrorList.
Variable deepEqual : BackupDownloadSpec -> BackupDownloadSpec -> option (list string).

(** X21: [ValidateBackupDownloadUpdate] accepts an update exactly when the
    two validations of the object metadata accept it, type, entryName and
    filePath of the new spec are not empty and are those of the old spec,
    and, if the deletion timestamp of the new object is set, the spec is
    unchanged as a whole. *)
Theorem ValidateBackupDownloadUpdate_accepts (new old : BackupDownload) :
  ValidateBackupDownloadUpdate metaDeletionTimestamp ValidateObjectMeta ValidateObjectMetaUpdate
    deepEqual new old = []
  <-> ValidateObjectMetaUpdate (bdObjectMeta new) (bdObjectMeta old) (NewPath "metadata") = []
      /\ ValidateObjectMeta (bdObjectMeta new) (NewPath "metadata") = []
      /\ dsType (bdDefaultSpec (bdSpec new)) <> ""
      /\ bdEntryName (bdSpec new) <> "" /\ bdFilePath (bdSpec new) <> ""
      /\ dsType (bdDefaultSpec (bdSpec new)) = dsType (bdDefaultSpec (bdSpec old))
      /\ bdEntryName (bdSpec new) = bdEntryName (bdSpec old)
      /\ bdFilePath (bdSpec new) = bdFilePath (bdSpec old)
      /\ (metaDeletionTimestamp (bdObjectMeta new) <> None -> bdSpec new = bdSpec old).
Proof.
  unfold ValidateBackupDownloadUpdate, ValidateBackupDownload. cbn [app].
  rewrite !app_nil, ValidateBackupDownloadSpec_nil.
  destruct (decide (metaDeletionTimestamp (bdObjectMeta new) <> None)) as [Hd|Hd].
  - rewrite bool_decide_eq_true_2 by done. split.
    + intros ([Hmu Hsu] & Hm & Hr).
      assert (Heq : bdSpec new = bdSpec old).
      { destruct (decide (bdSpec new = bdSpec old)) as [Heq|Hne]; [done|].
        destruct (ValidateBackupDownloadSpecUpdate_deleting deepEqual _ _ (NewPath "spec") Hne)
          as (e & He & _).
        rewrite He in Hsu. discriminate Hsu. }
      rewrite Heq in *. tauto.
    + intros (Hmu & Hm & H1 & H2 & H3 & H4 & H5 & H6 & Himm).
      split; [split; [done|]|done].
      rewrite (Himm Hd). apply ValidateBackupDownloadSpecUpdate_same.
  - rewrite bool_decide_eq_false_2 by done.
    rewrite ValidateBackupDownloadSpecUpdate_live. split.
    + intros ([Hmu Hsu] & Hm & Hr). tauto.
    + intros (Hmu & Hm & H1 & H2 & H3 & H4 & H5 & H6 & Himm). done.
Qed.

End WithObjectMeta.

End ValidationFacts.

(** ** The actuators of provider-local *)

Module ProviderLocalFacts.
Import Errors API ProviderLocal.

Lemma append_assoc (a b c : string) : (a +:+ b) +:+ c = a +:+ b +:+ c.
Proof.
  induction a as [|x a IH]; [done|].
  change (String x a +:+ b) with (String x (a +:+ b)).
  change (String x (a +:+ b) +:+ c) with (String x ((a +:+ b) +:+ c)).
  by rewrite IH.
Qed.

Lemma stripPrefix_app prefix s : stripPrefix (prefix +:+ s) prefix = Some s.
Proof.
  induction prefix as [|a prefix IH]; [by destruct s|].
  change (String a prefix +:+ s) with (String a (prefix +:+ s)).
  cbn [stripPrefix]. by rewrite Ascii.eqb_refl.
Qed.

Lemma stripPrefix_prefix s prefix :
  stripPrefix s prefix = None <-> String.prefix prefix s = false.
Proof.
  revert s. induction prefix as [|a prefix IH]; intros s; cbn.
  - destruct s; split; intros H; discriminate H.
  - destruct s as [|b0 s]; [done|].
    destruct (Ascii.eqb_spec a b0) as [->|Hne];
      change (String.prefix (String ?x prefix) (String b0 s))
        with (if ascii_dec x b0 then String.prefix prefix s else false).
    + destruct (ascii_dec b0 b0); [apply IH|done].
    + by destruct (ascii_dec a b0).
Qed.

Section WithSystem.
Context {W : Type}.
Variable Join : list string -> string.
Variable ReadFile : string -> W -> (error + bytes) * W.
Variable WriteFile : string -> bytes -> W -> option error * W.
Variable GetBackupEntry : string -> string -> W -> (error + BackupEntry) * W.
Variable BackupSourcePrefix : string.

(** X22: on a file system that returns from a path what was last written
    there, the BackupDownload actuator returns the data that a successful
    reconciliation of the BackupUpload actuator wrote, when both name the
    same file path and the BackupEntry of the download lies in the same
    bucket and is either the entry of the upload, whose name does not start
    with the source prefix and a dash, or the entry named after it with the
    source prefix and a dash in front (the download strips this prefix, the
    upload writes under the name as it is). *)
Theorem download_reads_uploaded_file (a : actuator) (bu bd : Object) (be source : BackupEntry)
    (w w1 w2 : W) :
  (forall path data w0 w0',
      WriteFile path data w0 = (None, w0') -> ReadFile path w0' = (inr data, w0')) ->
  GetBackupEntry (Namespace bu) (specEntryName (ObjSpec bu)) w = (inr be, w1) ->
  uploadReconcile Join WriteFile GetBackupEntry a bu w = (None, w2) ->
  specFilePath (ObjSpec bd) = specFilePath (ObjSpec bu) ->
  (String.prefix (BackupSourcePrefix +:+ "-") (beName be) = false ->
   downloadReconcile Join ReadFile BackupSourcePrefix a bd be w2
   = (inr (specData (ObjSpec bu)), w2))
  /\ (beName source = BackupSourcePrefix +:+ "-" +:+ beName be ->
      beBucketName source = beBucketName be ->
      downloadReconcile Join ReadFile BackupSourcePrefix a bd source w2
      = (inr (specData (ObjSpec bu)), w2)).
Proof.
  intros Hfs HGet Hup Hpath.
  unfold uploadReconcile in Hup. rewrite HGet in Hup.
  apply Hfs in Hup. unfold downloadReconcile. split.
  - intros Hplain.
    assert (Htrim : TrimPrefix (beName be) (BackupSourcePrefix +:+ "-") = beName be).
    { unfold TrimPrefix. apply stripPrefix_prefix in Hplain. by rewrite Hplain. }
    rewrite Htrim, Hpath, Hup. done.
  - intros Hsource Hbucket.
    assert (Htrim : TrimPrefix (beName source) (BackupSourcePrefix +:+ "-") = beName be).
    { unfold TrimPrefix. rewrite Hsource, <- append_assoc. by rewrite stripPrefix_app. }
    rewrite Htrim, Hbucket, Hpath, Hup. done.
Qed.

End WithSystem.
End ProviderLocalFacts.

(** ** The theorems above at concrete worlds *)

Module MoreExamples.
Import GoCrypto GoTime Errors API Client Retry Health Extensions Helper Restore Component
       BotanistCrypto Botanist Fake BotanistUpload ProviderLocal Validation Scenarios.
Import WaitExamples CipherFacts UploadFacts AbortFacts AppearFacts RoundTripFacts ValidationFacts
       ProviderLocalFacts SecretRecordFacts DownloadFailureFacts Polling.

(** X1 at a 24-byte key. *)
Lemma encrypt_decrypt_any_key_witness :
  exists c,
    encrypt toyBlock (repeat "k"%byte 24) (list_byte_of_string "abc") (repeat "r"%byte 16) = inr c
    /\ decrypt toyBlock (repeat "k"%byte 24) c = inr (list_byte_of_string "abc").
Proof.
  destruct (encrypt_decrypt_any_key toyBlock (repeat "k"%byte 24) (list_byte_of_string "abc")
              (repeat "r"%byte 16) []) as [H _].
  destruct H as (c & Hc & _ & Hd); [right; left; reflexivity|cbn; lia|].
  exists c. split; [exact Hc|exact Hd].
Defined.

(** X2 at a 19-byte input. *)
Lemma encrypt_decrypt_reverse_witness :
  exists p,
    decrypt toyBlock cipherKey (list_byte_of_string "0123456789abcdefXYZ") = inr p
    /\ length p = (length (list_byte_of_string "0123456789abcdefXYZ") - 16)%nat
    /\ encrypt toyBlock cipherKey p (firstn 16 (list_byte_of_string "0123456789abcdefXYZ"))
       = inr (list_byte_of_string "0123456789abcdefXYZ").
Proof.
  apply (encrypt_decrypt_reverse toyBlock cipherKey (list_byte_of_string "0123456789abcdefXYZ"));
    [right; right; reflexivity|cbn; lia].
Defined.

(** X3 at the sealed empty JSON object, cut after 17 bytes. *)
Lemma decrypt_truncated_witness :
  decrypt toyBlock cipherKey (firstn 17 sealedState)
  = inr (firstn (17 - 16) (list_byte_of_string "{}")).
Proof.
  apply (decrypt_truncated toyBlock cipherKey sealedState (list_byte_of_string "{}") 17);
    [vm_compute; reflexivity|lia].
Defined.

(** X4 at the server of the snapshot example. *)
Lemma uploaded_data_loads_back_witness :
  exists data,
    fst (computeDataForShootStateBackupUpload fakeClient toyBlock encodeAny encodeData
           plainFromUnstructured someBotanist extensionKinds (repeat "x"%byte 16) snapshotWorld)
    = inr data
    /\ decrypt toyBlock cipherKey data = inr (list_byte_of_string "{}").
Proof.
  assert (Hok : isErr (fst (computeDataForShootStateBackupUpload fakeClient toyBlock encodeAny
                              encodeData plainFromUnstructured someBotanist extensionKinds
                              (repeat "x"%byte 16) snapshotWorld)) = false)
    by (vm_compute; reflexivity).
  destruct (computeDataForShootStateBackupUpload fakeClient toyBlock encodeAny encodeData
              plainFromUnstructured someBotanist extensionKinds (repeat "x"%byte 16)
              snapshotWorld) as [[e|data] w'] eqn:Hrun; [discriminate Hok|].
  exists data. split; [reflexivity|].
  destruct (uploaded_data_loads_back fakeClient toyBlock encodeAny decodeAny encodeData
              plainFromUnstructured someBotanist extensionKinds (repeat "x"%byte 16)
              snapshotWorld w' data Hrun) as (spec & raw & _ & Hm & _ & _ & Hd & _).
  rewrite Hd. injection Hm as <-. reflexivity.
Defined.

(** X5 at an empty server on which the upload controller takes a turn. *)
Lemma UploadShootStateBackup_steps_witness :
  fst (UploadShootStateBackup fakeClient toyBlock encodeAny encodeData plainFromUnstructured
         someBotanist extensionKinds (repeat "x"%byte 16) uploadWorld) = None
  /\ exists relay, specData (ObjSpec relay) = sealedState.
Proof.
  assert (Hnil : fst (UploadShootStateBackup fakeClient toyBlock encodeAny encodeData
                        plainFromUnstructured someBotanist extensionKinds (repeat "x"%byte 16)
                        uploadWorld) = None) by (vm_compute; reflexivity).
  split; [exact Hnil|].
  destruct (UploadShootStateBackup_steps fakeClient toyBlock encodeAny encodeData
              plainFromUnstructured someBotanist extensionKinds (repeat "x"%byte 16) uploadWorld)
    as (_ & _ & H).
  destruct (H Hnil) as (provider & data & w0 & w1 & w2 & w3 & w4 & w5 & relay & result
                        & _ & Hdata & _ & _ & _ & _ & Hspec & _).
  exists relay. rewrite Hspec. cbn [specData].
  assert (Hd : fst (computeDataForShootStateBackupUpload fakeClient toyBlock encodeAny encodeData
                      plainFromUnstructured someBotanist extensionKinds (repeat "x"%byte 16)
                      uploadWorld) = inr sealedState) by (vm_compute; reflexivity).
  rewrite Hdata in Hd. cbn [fst] in Hd. by injection Hd.
Defined.

(** X11 at a server that cannot be read. *)
Lemma ready_wait_severe_errors_witness :
  waitErr (fst (WaitUntilObjectReadyWithHealthFunction unreachableClient CheckExtensionObject
                  (worker "w1") WorkerResource ms ms (3 * ms) None emptyWorld))
  = Some (PlainError "Error while waiting for Worker shoot--foo--bar/w1 to become ready: etcdserver: request timed out").
Proof.
  destruct (ready_wait_severe_errors unreachableClient CheckExtensionObject (worker "w1")
              WorkerResource ms ms (3 * ms) None emptyWorld) as [H _].
  rewrite (H serverTimeout emptyWorld eq_refl eq_refl). reflexivity.
Defined.

(** X12 at a server that cannot be read. *)
Lemma cleanup_waits_abort_on_get_failure_witness :
  waitPolls (fst (WaitUntilExtensionObjectDeleted unreachableClient (worker "w1") WorkerResource
                    ms (3 * ms) emptyWorld)) = 1%nat
  /\ waitErr (fst (WaitUntilExtensionObjectMigrated unreachableClient (worker "w1")
                     ms (3 * ms) emptyWorld)) = Some serverTimeout.
Proof.
  destruct (cleanup_waits_abort_on_get_failure unreachableClient (worker "w1") WorkerResource
              ms (3 * ms) emptyWorld serverTimeout emptyWorld eq_refl eq_refl) as [Hd Hm].
  rewrite Hd, Hm. split; reflexivity.
Defined.

(** A server on which nothing happens keeps answering NotFound. *)
Lemma quiescentWithout_Get o w :
  quiescentWithout o w ->
  Get fakeClient (GoType o) (Namespace o) (Name o) w = (inl (notFound (Name o)), w)
  /\ forall d, quiescentWithout o (Sleep fakeClient d w).
Proof.
  intros [Ho Ha]. split.
  - cbn. unfold fakeGet. unfold keyOf in Ho. by rewrite Ho.
  - intros d. cbn. unfold fakeSleep. rewrite Ha. done.
Qed.

(** X13 at a worker that is never created. *)
Lemma ready_wait_absent_object_times_out_witness :
  waitElapsed (fst (WaitUntilObjectReadyWithHealthFunction fakeClient CheckExtensionObject
                      (worker "w1") WorkerResource ms ms (3 * ms) None emptyWorld)) = 3 * ms
  /\ waitPolls (fst (WaitUntilObjectReadyWithHealthFunction fakeClient CheckExtensionObject
                       (worker "w1") WorkerResource ms ms (3 * ms) None emptyWorld)) = 3%nat.
Proof.
  destruct (ready_wait_absent_object_times_out fakeClient CheckExtensionObject (worker "w1")
              WorkerResource ms ms (3 * ms) None emptyWorld (quiescentWithout (worker "w1")))
    as (_ & He & Hp).
  - reflexivity.
  - reflexivity.
  - split; reflexivity.
  - intros w0 H0. destruct (quiescentWithout_Get (worker "w1") w0 H0) as [HGet HSleep].
    exists (notFound "w1"), w0. split; [exact HGet|]. split; [reflexivity|apply HSleep].
  - split; [exact He|exact Hp].
Defined.


(** X18 at a relay object with an old timestamp. *)
Lemma relay_Wait_checks_no_timestamp_witness :
  Annotations staleDownload !! GardenerTimestamp = Some "2001-02-03T04:05:06Z"
  /\ BackupDownload.Wait fakeClient (downloadDeployer someBotanist "local")
       (worldWith [staleDownload])
     = (None, worldWith [staleDownload]).
Proof.
  split; [reflexivity|].
  destruct (relay_Wait_checks_no_timestamp World fakeClient) as [H _].
  apply (H (downloadDeployer someBotanist "local") (worldWith [staleDownload]) staleDownload
           (worldWith [staleDownload])); reflexivity.
Defined.

(** The server of the snapshot example does not change while it is read. *)
Lemma snapshotWorld_stable :
  (forall w0 ref, w0 = snapshotWorld ->
     snd (GetObjectByRef fakeClient ref (SeedNamespace someBotanist) w0) = snapshotWorld)
  /\ (forall w0 objKind, w0 = snapshotWorld ->
        fst (List fakeClient objKind (SeedNamespace someBotanist) w0) = inr (snapshotListing objKind)
        /\ snd (List fakeClient objKind (SeedNamespace someBotanist) w0) = snapshotWorld).
Proof.
  split.
  - intros w0 ref ->. cbn [fakeClient GetObjectByRef]. unfold fakeGetObjectByRef.
    by destruct (_ !! _).
  - intros w0 objKind ->. split; reflexivity.
Qed.

(** X8 at the live worker of the snapshot example. *)
Lemma restore_lookup_finds_snapshot_record_witness :
  exists dataList resources,
    fst (computeShootStateExtensionsDataAndResources fakeClient plainFromUnstructured
           someBotanist extensionKinds snapshotWorld) = inr (dataList, resources)
    /\ ExtensionResourceStateList_Get dataList WorkerResource (Some "w1") None
       = Some {| ersKind := WorkerResource; ersName := Some "w1"; ersPurpose := None;
                 ersState := Some (list_byte_of_string "{}");
                 ersResources := [ {| nrName := "config"; ResourceRef := otherRef |} ] |}.
Proof.
  assert (Hok : isErr (fst (computeShootStateExtensionsDataAndResources fakeClient
                              plainFromUnstructured someBotanist extensionKinds snapshotWorld))
                = false) by (vm_compute; reflexivity).
  destruct (computeShootStateExtensionsDataAndResources fakeClient plainFromUnstructured
              someBotanist extensionKinds snapshotWorld) as [[e|[dataList resources]] w'] eqn:Hrun;
    [discriminate Hok|].
  exists dataList, resources. split; [reflexivity|].
  destruct snapshotWorld_stable as [Href Hlist].
  apply (restore_lookup_finds_snapshot_record fakeClient plainFromUnstructured someBotanist
           extensionKinds snapshotListing (fun w0 => w0 = snapshotWorld) Href Hlist
           snapshotWorld dataList resources w' WorkerResource liveWorker eq_refl Hrun).
  - unfold extensionKinds. do 8 apply list_elem_of_further. apply list_elem_of_here.
  - assert (Hl : snapshotListing WorkerResource
                 = [liveWorker; withDeletionTimestamp (worker "w2") (Some someTime)])
      by (vm_compute; reflexivity).
    rewrite Hl. apply list_elem_of_here.
  - reflexivity.
  - intros objKind' o' Hk Ho Hdel Hkey.
    assert (Hlive : (objKind', o') ∈ liveObjects snapshotListing extensionKinds).
    { apply (proj2 (SnapshotFacts.liveObjects_elem snapshotListing extensionKinds objKind' o')).
      exact (conj Hk (conj Ho Hdel)). }
    assert (Hall : liveObjects snapshotListing extensionKinds = [(WorkerResource, liveWorker)]).
    { vm_compute. reflexivity. }
    rewrite Hall in Hlive. apply list_elem_of_singleton in Hlive.
    injection Hlive as -> ->. reflexivity.
Defined.

(** X9 at the server of the snapshot example. *)
Lemma snapshot_resolves_its_references_witness :
  exists dataList resources,
    fst (computeShootStateExtensionsDataAndResources fakeClient plainFromUnstructured
           someBotanist extensionKinds snapshotWorld) = inr (dataList, resources)
    /\ forall e nr, e ∈ dataList -> nr ∈ ersResources e ->
         exists resourceData,
           ResourceDataList_Get resources (ResourceRef nr) = Some resourceData
           /\ rdRef resourceData = ResourceRef nr.
Proof.
  assert (Hok : isErr (fst (computeShootStateExtensionsDataAndResources fakeClient
                              plainFromUnstructured someBotanist extensionKinds snapshotWorld))
                = false) by (vm_compute; reflexivity).
  destruct (computeShootStateExtensionsDataAndResources fakeClient plainFromUnstructured
              someBotanist extensionKinds snapshotWorld) as [[e|[dataList resources]] w'] eqn:Hrun;
    [discriminate Hok|].
  exists dataList, resources. split; [reflexivity|].
  destruct snapshotWorld_stable as [Href Hlist].
  intros e nr.
  exact (snapshot_resolves_its_references fakeClient plainFromUnstructured someBotanist
           extensionKinds snapshotListing (fun w0 => w0 = snapshotWorld) Href Hlist
           snapshotWorld dataList resources w' e nr eq_refl Hrun).
Defined.

(** X10 at a deploy function that fails. *)
Lemma RestoreExtensionWithDeployFunction_steps_witness :
  RestoreExtensionWithDeployFunction fakeClient plainToUnstructured testShootState WorkerResource
    (fun _ w => (inl serverTimeout, w)) emptyWorld
  = (Some serverTimeout, emptyWorld).
Proof.
  destruct (RestoreExtensionWithDeployFunction_steps fakeClient plainToUnstructured
              testShootState WorkerResource (fun _ w => (inl serverTimeout, w)) emptyWorld)
    as [H _].
  apply (H serverTimeout emptyWorld). reflexivity.
Defined.

(** X22 at an upload for an entry and a download from its source entry. *)
Lemma download_reads_uploaded_file_witness :
  exists fs,
    uploadReconcile joinPath writeFile getBackupEntry localActuator someUpload ∅ = (None, fs)
    /\ downloadReconcile joinPath readFile "source" localActuator someDownload
         {| beName := "source-shoot--foo--bar--uid"; beBucketName := "bucket" |} fs
       = (inr (list_byte_of_string "sealed"), fs).
Proof.
  eexists. split; [reflexivity|].
  refine (proj2 (download_reads_uploaded_file joinPath readFile writeFile getBackupEntry "source"
                   localActuator someUpload someDownload
                   {| beName := "shoot--foo--bar--uid"; beBucketName := "bucket" |}
                   {| beName := "source-shoot--foo--bar--uid"; beBucketName := "bucket" |}
                   ∅ ∅ _ _ eq_refl eq_refl eq_refl) eq_refl eq_refl).
  intros path data w0 w0' H. unfold writeFile in H. injection H as <-.
  unfold readFile. by rewrite lookup_insert_eq.
Defined.

(** X7 at a server with two secrets of one name. *)
Lemma gardener_data_records_witness :
  fst (computeShootStateGardenerData fakeClient encodeData someBotanist secretsWorld)
  = inr [ {| grdName := "ca"; grdLabels := {[ "persist" := "true" ]}; grdType := "secret";
             grdData := list_byte_of_string "{}" |} ].
Proof.
  destruct (gardener_data_records fakeClient encodeData someBotanist secretsWorld secretsWorld
              [someSecret ∅; someSecret {[ "persist" := "true" ]}] eq_refl) as (H & _).
  destruct (computeShootStateGardenerData fakeClient encodeData someBotanist secretsWorld)
    as [[e|dataList] w'] eqn:Hrun; [vm_compute in Hrun; discriminate Hrun|].
  destruct (H dataList eq_refl) as (-> & _). reflexivity.
Defined.

(** X6 at a download controller that delivers no data: the relay object stays. *)
Lemma DownloadShootStateBackup_unreadable_witness :
  exists w3,
    DownloadShootStateBackup fakeClient toyBlock decodeAny someBotanist idleWorld
    = ((None, Some (PlainError
                      "failed decrypting ShootState: Ciphertext block size is too short!")), w3)
    /\ failed (option_map (fun _ => serverTimeout)
                 (objects w3 !! (BackupDownloadResource, "shoot--foo--bar", "shootstate")))
       = true.
Proof.
  pose (dw := BackupDownload.New fakeClient (downloadDeployer someBotanist "local")).
  pose (w1 := snd (OpDestroyAndWait_Destroy dw idleWorld)).
  pose (w2 := snd (OpWait_Deploy dw w1)).
  pose (w3 := snd (BackupDownload.GetData fakeClient (downloadDeployer someBotanist "local") w2)).
  assert (H1 : OpDestroyAndWait_Destroy dw idleWorld = (None, w1)).
  { vm_compute. reflexivity. }
  assert (H2 : OpWait_Deploy dw w1 = (None, w2)).
  { vm_compute. reflexivity. }
  assert (H3 : BackupDownload.GetData fakeClient (downloadDeployer someBotanist "local") w2
               = ([], w3)).
  { vm_compute. reflexivity. }
  exists w3. split; [|vm_compute; reflexivity].
  apply (proj1 (DownloadShootStateBackup_unreadable fakeClient toyBlock decodeAny
                  someBotanist "local" idleWorld w1 w2 w3 [] eq_refl H1 H2 H3)).
  cbn. lia.
Defined.

(** X15 at a worker created during the third wait. *)
Lemma ready_wait_returns_when_healthy_witness :
  let r := fst (WaitUntilObjectReadyWithHealthFunction fakeClient CheckExtensionObject
                  (worker "w1") WorkerResource (10 * ms) (30 * ms) (1000 * ms) None lateWorld) in
  waitErr r = None /\ waitObj r = readyWorker
  /\ waitPolls r = 4%nat /\ waitElapsed r = Z.of_nat 3 * (10 * ms).
Proof.
  apply (ready_wait_returns_when_healthy fakeClient CheckExtensionObject (worker "w1")
           (10 * ms) (30 * ms) (1000 * ms) WorkerResource lateWorld 3 readyWorker).
  - reflexivity.
  - reflexivity.
  - intros i Hi. destruct i as [|[|[|i]]]; [reflexivity|reflexivity|reflexivity|lia].
  - reflexivity.
  - reflexivity.
Defined.

(** X16 at a worker removed during the second wait. *)
Lemma deleted_wait_returns_when_gone_witness :
  let r := fst (WaitUntilExtensionObjectDeleted fakeClient (worker "w1") WorkerResource
                  (10 * ms) (1000 * ms) removalWorld) in
  waitErr r = None /\ waitPolls r = 3%nat /\ waitElapsed r = Z.of_nat 2 * (10 * ms).
Proof.
  apply (deleted_wait_returns_when_gone fakeClient (worker "w1") WorkerResource
           (10 * ms) (1000 * ms) removalWorld 2 (notFound "w1")).
  - reflexivity.
  - reflexivity.
  - intros i Hi. destruct i as [|[|i]]; [reflexivity|reflexivity|lia].
  - reflexivity.
  - reflexivity.
Defined.

End MoreExamples.
